(** * dashOZE: the redispatch risk scorer and the heat-map snapshot builder

    A shallow embedding of [assets/js/redispatch-risk-scorer.js] (class
    [RedispatchRiskScorer]) and of the per-cell part of
    [updateRiskAssessmentChart] in [assets/js/risk-calculator.js], followed
    by the neighbouring code of the latter file: the rendering of a cell,
    the legacy heat map, the details panel, the reserve series
    ([processPSEReservesData]) with its alert lines and risk analysis, and
    the hourly risk engine of class [RiskCalculator].

    Numbers.  A JavaScript number is an IEEE-754 binary64 value; measured
    quantities (MW), weights and weighted sums are kept as primitive floats,
    so that every rounding of the source is the rounding of the model.
    Numbers that the source builds from integer literals only (sub-scores,
    synergy bonus) or obtains from [Math.round] or [parseInt] (total score,
    impact, hour, day of week, day offset) are kept in [Z] and injected with
    [Z2F] where the source mixes them with fractional values. *)

From Stdlib Require Import ZArith List Bool String Floats Lia DecimalString.
From Stdlib Require Import Sorting.Sorted Sorting.Permutation.
Import ListNotations.

#[local] Set Warnings "-inexact-float".
#[local] Open Scope Z_scope.

(** ** JavaScript numbers *)

Module JS.

Definition number := float.

(** ToBoolean on a number: [NaN], [+0] and [-0] are falsy. *)
Definition truthy (x : number) : bool := negb (is_nan x || is_zero x).

(** [v || d] for a field that is a number or [undefined]. *)
Definition or_else (v : option number) (d : number) : number :=
  match v with
  | Some x => if truthy x then x else d
  | None => d
  end.

(** A field is falsy when it is missing or holds a falsy number. *)
Definition falsy (v : option number) : bool :=
  match v with
  | Some x => negb (truthy x)
  | None => true
  end.

(** [v !== undefined] *)
Definition defined {A} (v : option A) : bool :=
  match v with Some _ => true | None => false end.

(** Exact injection of the integers the source handles (|z| < 2^53). *)
Definition Z2F (z : Z) : number :=
  if z <? 0 then (- of_uint63 (Uint63.of_Z (- z)))%float
  else of_uint63 (Uint63.of_Z z).

Definition Math_abs (x : number) : number := abs x.

(** [Math.min] of two numbers: [NaN] is contagious and [-0 < +0]. *)
Definition Math_min (a b : number) : number :=
  if is_nan a || is_nan b then nan
  else if (a <? b)%float then a
  else if (b <? a)%float then b
  else if get_sign a then a else b.

(** [Math.round]: the integer nearest to [x], ties towards +infinity,
    computed exactly on the mantissa and exponent of [x].  The source only
    rounds finite values (lemmas [rawTotal_finite] and [impact_arg_finite]
    below); on [NaN] and the infinities, for which JavaScript returns the
    argument, the model returns 0. *)
Definition Math_round (x : number) : Z :=
  match Prim2SF x with
  | S754_finite s m e =>
      let v := if s then Z.neg m else Z.pos m in
      if 0 <=? e then v * 2 ^ e
      else (v + 2 ^ (- e - 1)) / 2 ^ (- e)
  | _ => 0
  end.

Arguments Math_round x%_float.
Arguments Math_min (a b)%_float.
Arguments or_else v d%_float.

(** [s.includes(needle)] *)
Fixpoint includes (needle s : string) : bool :=
  if String.prefix needle s then true
  else match s with
       | EmptyString => false
       | String _ t => includes needle t
       end.

End JS.

Import JS.

(** ** Data model of the scorer *)

(** The keys of [this.weights] and of [scores], in insertion order. *)
Inductive Key : Type :=
| K_reserveMargin | K_renewableDropRate | K_baseloadSurge
| K_demandSpike | K_criticalHours | K_systemImbalance.

Definition Key_eqb (a b : Key) : bool :=
  match a, b with
  | K_reserveMargin, K_reserveMargin
  | K_renewableDropRate, K_renewableDropRate
  | K_baseloadSurge, K_baseloadSurge
  | K_demandSpike, K_demandSpike
  | K_criticalHours, K_criticalHours
  | K_systemImbalance, K_systemImbalance => true
  | _, _ => false
  end.

(** The object handed to [calculateRiskScore]; an absent property is [None]. *)
Module RiskInput.
Record t : Type := mk {
  hour : Z;
  dayOfWeek : Z;
  systemLoad : option number;
  pvGeneration : option number;
  windGeneration : option number;
  baseloadGeneration : option number;
  powerExchange : option number;
  availableReserve : option number;
  requiredReserve : option number;
  hasReserveData : option bool;
  pvDelta : option number;
  windDelta : option number;
  baseloadDelta : option number;
  demandDelta : option number;
  pvGradient : option number;
  windGradient : option number
}.
End RiskInput.

(** The local object [scores]; [null] is [None]. *)
Module Scores.
Record t : Type := mk {
  reserveMargin : option Z;
  renewableDropRate : Z;
  baseloadSurge : Z;
  demandSpike : Z;
  criticalHours : Z;
  systemImbalance : Z
}.

(** [scores[key]] *)
Definition get (s : t) (k : Key) : option Z :=
  match k with
  | K_reserveMargin => reserveMargin s
  | K_renewableDropRate => Some (renewableDropRate s)
  | K_baseloadSurge => Some (baseloadSurge s)
  | K_demandSpike => Some (demandSpike s)
  | K_criticalHours => Some (criticalHours s)
  | K_systemImbalance => Some (systemImbalance s)
  end.

(** [Object.values(scores)] *)
Definition values (s : t) : list (option Z) :=
  map (get s) [K_reserveMargin; K_renewableDropRate; K_baseloadSurge;
               K_demandSpike; K_criticalHours; K_systemImbalance].
End Scores.

Inductive RiskLevel : Type := low | medium | high | critical.

Inductive DataQuality : Type := complete | partial.

(** The [value] template strings of a factor descriptor, kept as the signal
    they print: [`${x.toFixed(0)} MW`], [`${x.toFixed(0)} MW/h`],
    [`+${x.toFixed(0)} MW`], [`${hour}:00`] and ['N/A']. *)
Inductive FactorValue : Type :=
| ValMW (x : number)
| ValMWh (x : number)
| ValPlusMW (x : number)
| ValHour (h : Z)
| ValNA.

Module Descriptor.
Record t : Type := mk {
  factor : string;
  value : FactorValue;
  impact : Z;
  icon : string;
  critical : option bool;
  info : bool
}.
End Descriptor.

Module RiskScore.
Record t : Type := mk {
  totalScore : Z;
  components : Scores.t;
  riskLevel : RiskLevel;
  recommendations : list string;
  factors : list Descriptor.t;
  hasReserveData : bool;
  dataQuality : DataQuality
}.
End RiskScore.

(** ** The scorer: class [RedispatchRiskScorer] *)

Module RedispatchRiskScorer.

Import RiskInput.

(** [this.weights] *)
Definition weight (k : Key) : number :=
  match k with
  | K_reserveMargin => 35
  | K_renewableDropRate => 25
  | K_baseloadSurge => 15
  | K_demandSpike => 10
  | K_criticalHours => 10
  | K_systemImbalance => 5
  end%float.

(** [Object.entries(this.weights)], in insertion order. *)
Definition weights : list (Key * number) :=
  map (fun k => (k, weight k))
      [K_reserveMargin; K_renewableDropRate; K_baseloadSurge;
       K_demandSpike; K_criticalHours; K_systemImbalance].

(** [this.thresholds] *)
Definition thresholds (l : RiskLevel) : Z :=
  match l with
  | low => 25
  | medium => 50
  | high => 75
  | critical => 100
  end.

(** ToNumber of a property that may be [undefined]. *)
Definition num_of (v : option number) : number :=
  match v with Some x => x | None => nan end.

Definition calculateReserveMarginScore (data : RiskInput.t) : option Z :=
  match availableReserve data, requiredReserve data with
  | Some availableReserve, Some requiredReserve =>
      let margin := (availableReserve - requiredReserve)%float in
      Some (if (margin <? 0)%float then 100
            else if (margin <? 300)%float then 85
            else if (margin <? 500)%float then 65
            else if (margin <? 1000)%float then 40
            else if (margin <? 1500)%float then 20
            else 0)
  | _, _ => None
  end.

Definition calculateRenewableDropScore (data : RiskInput.t) : Z :=
  let pvDelta := or_else (pvDelta data) 0%float in
  let windDelta := or_else (windDelta data) 0%float in
  let totalRenewableDrop := Math_min 0%float (pvDelta + windDelta)%float in
  let pvGradient := or_else (pvGradient data) 0%float in
  let windGradient := or_else (windGradient data) 0%float in
  let totalGradient := (pvGradient + windGradient)%float in
  let score :=
    if (totalRenewableDrop <? -2000)%float then 100
    else if (totalRenewableDrop <? -1500)%float then 80
    else if (totalRenewableDrop <? -1000)%float then 60
    else if (totalRenewableDrop <? -500)%float then 40
    else if (totalRenewableDrop <? -200)%float then 20
    else 0 in
  if (500 <? Math_abs totalGradient)%float then Z.min 100 (score + 20)
  else score.

Definition calculateBaseloadSurgeScore (data : RiskInput.t) : Z :=
  let baseloadDelta := or_else (baseloadDelta data) 0%float in
  let hour := hour data in
  let isEvening := (16 <=? hour) && (hour <=? 20) in
  if negb isEvening then
    if (500 <? baseloadDelta)%float then 20 else 0
  else if (1500 <? baseloadDelta)%float then 100
  else if (1000 <? baseloadDelta)%float then 70
  else if (500 <? baseloadDelta)%float then 40
  else if (200 <? baseloadDelta)%float then 20
  else 0.

Definition calculateDemandSpikeScore (data : RiskInput.t) : Z :=
  let demandDelta := or_else (demandDelta data) 0%float in
  let systemLoad := or_else (systemLoad data) 20000%float in
  let demandChangeRate := (demandDelta / systemLoad * 100)%float in
  if (5 <? demandChangeRate)%float then 100
  else if (3 <? demandChangeRate)%float then 60
  else if (2 <? demandChangeRate)%float then 30
  else if (1 <? demandChangeRate)%float then 15
  else 0.

Definition calculateCriticalHoursScore (data : RiskInput.t) : Z :=
  let hour := hour data in
  let dayOfWeek := dayOfWeek data in
  let isWeekday := (1 <=? dayOfWeek) && (dayOfWeek <=? 5) in
  if negb isWeekday then 0
  else if (7 <=? hour) && (hour <=? 9) then 60
  else if (17 <=? hour) && (hour <=? 20) then 100
  else if ((6 <=? hour) && (hour <=? 10)) || ((16 <=? hour) && (hour <=? 21))
       then 30
  else 0.

Definition calculateSystemImbalanceScore (data : RiskInput.t) : Z :=
  let exchange := or_else (powerExchange data) 0%float in
  let absExchange := Math_abs exchange in
  if (3000 <? absExchange)%float then 100
  else if (2000 <? absExchange)%float then 60
  else if (1000 <? absExchange)%float then 30
  else 0.

(** The two counters of [calculateSynergyBonus], after the [forEach]. *)
Definition countFactors (scores : Scores.t) : Z * Z :=
  fold_left
    (fun '(criticalFactors, highFactors) score =>
       match score with
       | Some score =>
           if 80 <=? score then (criticalFactors + 1, highFactors)
           else if 50 <=? score then (criticalFactors, highFactors + 1)
           else (criticalFactors, highFactors)
       | None => (criticalFactors, highFactors)
       end)
    (Scores.values scores) (0, 0).

Definition calculateSynergyBonus (scores : Scores.t) : Z :=
  let '(criticalFactors, highFactors) := countFactors scores in
  if 3 <=? criticalFactors then 15
  else if 2 <=? criticalFactors then 10
  else if (1 <=? criticalFactors) && (2 <=? highFactors) then 8
  else if 3 <=? highFactors then 5
  else 0.

Definition getRiskLevel (score : Z) : RiskLevel :=
  if score <=? thresholds low then low
  else if score <=? thresholds medium then medium
  else if score <=? thresholds high then high
  else critical.

(** [data.hasReserveData !== false && data.availableReserve !== undefined
    && data.requiredReserve !== undefined] *)
Definition reserveDataPresent (data : RiskInput.t) : bool :=
  match hasReserveData data with Some false => false | _ => true end
  && defined (availableReserve data)
  && defined (requiredReserve data).

Definition computeScores (data : RiskInput.t) (hasReserveData : bool)
  : Scores.t :=
  {| Scores.reserveMargin :=
       if hasReserveData then calculateReserveMarginScore data else None;
     Scores.renewableDropRate := calculateRenewableDropScore data;
     Scores.baseloadSurge := calculateBaseloadSurgeScore data;
     Scores.demandSpike := calculateDemandSpikeScore data;
     Scores.criticalHours := calculateCriticalHoursScore data;
     Scores.systemImbalance := calculateSystemImbalanceScore data |}.

(** [activeWeights] once the [if (!hasReserveData)] block has run. *)
Definition activeWeights (hasReserveData : bool) : list (Key * number) :=
  if hasReserveData then weights
  else
    let reserveWeight := weight K_reserveMargin in
    let activeWeights :=
      filter (fun kw => negb (Key_eqb (fst kw) K_reserveMargin)) weights in
    let remainingWeightSum :=
      fold_left (fun a b => (a + b)%float) (map snd activeWeights) 0%float in
    map (fun kw =>
           (fst kw, (snd kw + (snd kw / remainingWeightSum) * reserveWeight)%float))
        activeWeights.

(** The [for ... of Object.entries(activeWeights)] accumulation. *)
Definition weightedSum (scores : Scores.t) (aw : list (Key * number))
  : number :=
  fold_left
    (fun totalScore kw =>
       match Scores.get scores (fst kw) with
       | Some s => (totalScore + (Z2F s * snd kw) / 100)%float
       | None => totalScore
       end)
    aw 0%float.

(** The argument of [Math.round] in [calculateRiskScore]. *)
Definition rawTotal (scores : Scores.t) (hasReserveData : bool) : number :=
  (weightedSum scores (activeWeights hasReserveData)
   + Z2F (calculateSynergyBonus scores))%float.

Definition totalOf (scores : Scores.t) (hasReserveData : bool) : Z :=
  Z.min 100 (Math_round (rawTotal scores hasReserveData)).

(** *** Factor descriptors *)

(** [Array.prototype.sort(compare)] is stable; the comparator of
    [getDetailedFactors] is a consistent ordering on any array with at most
    one informational entry, so every stable sort returns the array of this
    insertion sort. *)
Fixpoint insert {A} (compare : A -> A -> Z) (a : A) (l : list A) : list A :=
  match l with
  | [] => [a]
  | b :: t => if compare a b <=? 0 then a :: l else b :: insert compare a t
  end.

Definition sort {A} (compare : A -> A -> Z) (l : list A) : list A :=
  fold_right (insert compare) [] l.

(** The comparator handed to [factors.sort]. *)
Definition compareFactors (a b : Descriptor.t) : Z :=
  if Descriptor.info a then 1
  else if Descriptor.info b then -1
  else Descriptor.impact b - Descriptor.impact a.

(** The weight a descriptor shows for [key]: [this.weights[key]] with
    reserve data, the literal of the source without. *)
Definition shownWeight (hasReserveData : bool) (k : Key) : number :=
  if hasReserveData then weight k
  else match k with
       | K_renewableDropRate => 38
       | K_baseloadSurge => 23
       | K_demandSpike => 15
       | K_criticalHours => 15
       | _ => weight k
       end%float.

(** [if (c) l.push(x)] *)
Definition push_if {A} (c : bool) (x : A) (l : list A) : list A :=
  if c then l ++ [x] else l.

(** The descriptor objects that [getDetailedFactors] pushes. *)
Definition reserveMarginFactor (reserveMargin : Z) (data : RiskInput.t)
  : Descriptor.t :=
  let margin :=
    (num_of (availableReserve data) - num_of (requiredReserve data))%float in
  {| Descriptor.factor :=
       if (margin <? 0)%float then "Deficyt rezerwy!"
       else if (margin <? 300)%float then "Krytycznie niski margines"
       else if (margin <? 500)%float then "Bardzo niski margines"
       else "Niski margines rezerwy";
     Descriptor.value := ValMW margin;
     Descriptor.impact :=
       Math_round (Z2F reserveMargin * weight K_reserveMargin / 100);
     Descriptor.icon := "activity";
     Descriptor.critical := Some (margin <? 300)%float;
     Descriptor.info := false |}.

Definition noReserveFactor : Descriptor.t :=
  {| Descriptor.factor := "Brak danych o rezerwach";
     Descriptor.value := ValNA;
     Descriptor.impact := 0;
     Descriptor.icon := "help-circle";
     Descriptor.critical := None;
     Descriptor.info := true |}.

Definition renewableDropFactor (scores : Scores.t) (data : RiskInput.t)
    (hasReserveData : bool) : Descriptor.t :=
  let totalDelta :=
    (or_else (pvDelta data) 0 + or_else (windDelta data) 0)%float in
  {| Descriptor.factor :=
       if (1500 <? Math_abs totalDelta)%float then "Gwałtowny spadek OZE!"
       else "Spadek generacji OZE";
     Descriptor.value := ValMWh totalDelta;
     Descriptor.impact :=
       Math_round (Z2F (Scores.renewableDropRate scores)
                   * shownWeight hasReserveData K_renewableDropRate / 100);
     Descriptor.icon := "trending-down";
     Descriptor.critical := Some (1500 <? Math_abs totalDelta)%float;
     Descriptor.info := false |}.

Definition baseloadSurgeFactor (scores : Scores.t) (data : RiskInput.t)
    (hasReserveData : bool) : Descriptor.t :=
  let baseloadDelta := or_else (baseloadDelta data) 0%float in
  {| Descriptor.factor :=
       if (1000 <? baseloadDelta)%float then "Gwałtowny wzrost JW RB!"
       else "Wzrost generacji JW RB";
     Descriptor.value := ValPlusMW baseloadDelta;
     Descriptor.impact :=
       Math_round (Z2F (Scores.baseloadSurge scores)
                   * shownWeight hasReserveData K_baseloadSurge / 100);
     Descriptor.icon := "zap";
     Descriptor.critical :=
       Some ((1000 <? baseloadDelta)%float
             && (16 <=? hour data) && (hour data <=? 20));
     Descriptor.info := false |}.

Definition demandSpikeFactor (scores : Scores.t) (data : RiskInput.t)
    (hasReserveData : bool) : Descriptor.t :=
  let demandDelta := or_else (demandDelta data) 0%float in
  {| Descriptor.factor := "Wzrost zapotrzebowania";
     Descriptor.value := ValPlusMW demandDelta;
     Descriptor.impact :=
       Math_round (Z2F (Scores.demandSpike scores)
                   * shownWeight hasReserveData K_demandSpike / 100);
     Descriptor.icon := "trending-up";
     Descriptor.critical := None;
     Descriptor.info := false |}.

Definition criticalHoursFactor (scores : Scores.t) (data : RiskInput.t)
    (hasReserveData : bool) : Descriptor.t :=
  {| Descriptor.factor :=
       if (17 <=? hour data) && (hour data <=? 20) then "Szczyt wieczorny"
       else "Godzina szczytowa";
     Descriptor.value := ValHour (hour data);
     Descriptor.impact :=
       Math_round (Z2F (Scores.criticalHours scores)
                   * shownWeight hasReserveData K_criticalHours / 100);
     Descriptor.icon := "clock";
     Descriptor.critical := None;
     Descriptor.info := false |}.

(** The pushes of [getDetailedFactors]: the array [factors] before it is
    sorted.  [null > 0] is false. *)
Definition collectFactors (scores : Scores.t) (data : RiskInput.t)
    (hasReserveData : bool) : list Descriptor.t :=
  let factors := [] in
  let factors :=
    match Scores.reserveMargin scores with
    | Some reserveMargin =>
        if hasReserveData && (0 <? reserveMargin)
        then factors ++ [reserveMarginFactor reserveMargin data]
        else if negb hasReserveData then factors ++ [noReserveFactor]
        else factors
    | None =>
        if negb hasReserveData then factors ++ [noReserveFactor]
        else factors
    end in
  let factors :=
    push_if (0 <? Scores.renewableDropRate scores)
            (renewableDropFactor scores data hasReserveData) factors in
  let factors :=
    push_if (0 <? Scores.baseloadSurge scores)
            (baseloadSurgeFactor scores data hasReserveData) factors in
  let factors :=
    push_if (0 <? Scores.demandSpike scores)
            (demandSpikeFactor scores data hasReserveData) factors in
  let factors :=
    push_if (0 <? Scores.criticalHours scores)
            (criticalHoursFactor scores data hasReserveData) factors in
  factors.

Definition getDetailedFactors (scores : Scores.t) (data : RiskInput.t)
    (hasReserveData : bool) : list Descriptor.t :=
  sort compareFactors (collectFactors scores data hasReserveData).

(** *** Recommendations *)

Definition REC_NO_RESERVE : string :=
  "ℹ️ Brak danych o rezerwach mocy - analiza oparta na pozostałych wskaźnikach".
Definition REC_ALERT : string :=
  "🔴 ALERT: Krytyczny margines rezerwy! Wysokie prawdopodobieństwo wezwania".
Definition REC_LOW_MARGIN : string :=
  "⚠️ Niski margines rezerwy - przygotuj się na możliwe wezwanie".
Definition REC_OZE_DROP : string :=
  "📉 Gwałtowny spadek OZE - system potrzebuje szybkiego bilansowania".
Definition REC_EVENING : string :=
  "⚡ Wieczorny wzrost JW RB - typowy sygnał nadchodzącego wezwania".
Definition REC_PEAK : string :=
  "⏰ Godziny szczytowe - zwiększ czujność na komunikaty OSP".
Definition REC_REDUCE : string :=
  "🚨 Rozważ natychmiastową redukcję sprzedaży na TGE".
Definition REC_MONITOR : string :=
  "📊 Monitoruj sytuację i przygotuj plan redukcji".
Definition REC_LIMITED : string :=
  "📊 Analiza ograniczona - bazuje na trendach OZE i zapotrzebowania".
Definition REC_STABLE : string :=
  "✅ Sytuacja stabilna - niskie ryzyko wezwania".

(** [threatLevel] of [getRecommendations]. *)
Definition threatLevel (scores : Scores.t) (hasReserveData : bool) : number :=
  let threatLevel := 0%float in
  let threatLevel :=
    match Scores.reserveMargin scores with
    | Some reserveMargin =>
        if hasReserveData
        then (threatLevel + Z2F reserveMargin * weight K_reserveMargin / 100)%float
        else threatLevel
    | None => threatLevel
    end in
  let threatLevel :=
    (threatLevel + Z2F (Scores.renewableDropRate scores)
                   * shownWeight hasReserveData K_renewableDropRate / 100)%float in
  (threatLevel + Z2F (Scores.baseloadSurge scores)
                 * shownWeight hasReserveData K_baseloadSurge / 100)%float.

(** The threshold-triggered pushes of [getRecommendations] (from the
    reserve-margin test to the threat-level test), in the order they are
    pushed. *)
Definition thresholdAdvisories (scores : Scores.t) (data : RiskInput.t)
    (hasReserveData : bool) : list string :=
  let pushed := [] in
  let pushed :=
    match Scores.reserveMargin scores with
    | Some reserveMargin =>
        if hasReserveData then
          let margin :=
            (num_of (availableReserve data) - num_of (requiredReserve data))%float in
          if (80 <=? reserveMargin) || (margin <? 300)%float
          then pushed ++ [REC_ALERT]
          else if 50 <=? reserveMargin
          then pushed ++ [REC_LOW_MARGIN]
          else pushed
        else pushed
    | None => pushed
    end in
  let pushed :=
    push_if (60 <=? Scores.renewableDropRate scores) REC_OZE_DROP pushed in
  let pushed :=
    push_if ((50 <=? Scores.baseloadSurge scores)
             && (16 <=? hour data) && (hour data <=? 20))
            REC_EVENING pushed in
  let pushed :=
    push_if ((0 <? Scores.criticalHours scores)
             && (negb hasReserveData
                 || match Scores.reserveMargin scores with
                    | Some reserveMargin => 30 <? reserveMargin
                    | None => false
                    end))
            REC_PEAK pushed in
  let threatLevel := threatLevel scores hasReserveData in
  if (70 <=? threatLevel)%float then pushed ++ [REC_REDUCE]
  else if (50 <=? threatLevel)%float then pushed ++ [REC_MONITOR]
  else pushed.

Definition getRecommendations (scores : Scores.t) (data : RiskInput.t)
    (hasReserveData : bool) : list string :=
  let recommendations := [] in
  let recommendations :=
    push_if (negb hasReserveData) REC_NO_RESERVE recommendations in
  let recommendations :=
    recommendations ++ thresholdAdvisories scores data hasReserveData in
  let recommendations :=
    push_if ((List.length recommendations =? 1)%nat
             && includes "Brak danych" (List.nth 0 recommendations ""%string))
            REC_LIMITED recommendations in
  let recommendations :=
    push_if (List.length recommendations =? 0)%nat REC_STABLE recommendations in
  recommendations.

(** *** The entry point *)

Definition calculateRiskScore (data : RiskInput.t) : RiskScore.t :=
  let hasReserveData := reserveDataPresent data in
  let scores := computeScores data hasReserveData in
  let totalScore := totalOf scores hasReserveData in
  {| RiskScore.totalScore := totalScore;
     RiskScore.components := scores;
     RiskScore.riskLevel := getRiskLevel totalScore;
     RiskScore.recommendations :=
       getRecommendations scores data hasReserveData;
     RiskScore.factors := getDetailedFactors scores data hasReserveData;
     RiskScore.hasReserveData := hasReserveData;
     RiskScore.dataQuality := if hasReserveData then complete else partial |}.

End RedispatchRiskScorer.

(** ** The snapshot builder: the cell loop of [updateRiskAssessmentChart] *)

(** The collaborator data read by the loop.  An absent property, a hole of an
    array and an [undefined] or [null] element are [None]. *)
Module ChartData.
Record LoadPoint : Type := mkLoad { load : option number }.
Record PowerPoint : Type := mkPower { totalPower : option number }.
Record GenerationPoint : Type := mkGen { gen_rb : option number }.
Record BalancePoint : Type := mkBalance { powerExchange : option number }.

Record t : Type := mk {
  systemLoad : option (list (option LoadPoint));
  pvGeneration : option (list (option PowerPoint));
  windGeneration : option (list (option PowerPoint));
  fullGenerationData : option (list (option GenerationPoint));
  systemBalance : option (list (option BalancePoint))
}.

(** [arr?.[i]] for an integer index. *)
Definition at_ {A} (arr : option (list (option A))) (i : Z) : option A :=
  match arr with
  | Some l =>
      if i <? 0 then None
      else match nth_error l (Z.to_nat i) with
           | Some (Some x) => Some x
           | _ => None
           end
  | None => None
  end.

(** [arr?.[i]?.field] *)
Definition field {A} (f : A -> option number)
    (arr : option (list (option A))) (i : Z) : option number :=
  match at_ arr i with
  | Some x => f x
  | None => None
  end.
End ChartData.

(** [this.pseReservesCache || data.reservesData] *)
Module ReservesData.
Record t : Type := mk {
  reserves : option (list (option number));
  required : option (list (option number))
}.

(** [arr[i]], [undefined] out of range. *)
Definition at_ (arr : list (option number)) (i : Z) : option number :=
  if i <? 0 then None
  else match nth_error arr (Z.to_nat i) with
       | Some v => v
       | None => None
       end.
End ReservesData.

(** The hourly values read at the head of the callback of [cells.forEach],
    each with the default of its [let]. *)
Definition systemLoadAt (data : ChartData.t) (hour : Z) : number :=
  let systemLoad := 20000%float in
  match ChartData.at_ (ChartData.systemLoad data) hour with
  | Some p => or_else (ChartData.load p) systemLoad
  | None => systemLoad
  end.

Definition pvGenerationAt (data : ChartData.t) (hour : Z) : number :=
  let pvGeneration := 0%float in
  match ChartData.at_ (ChartData.pvGeneration data) hour with
  | Some p => or_else (ChartData.totalPower p) 0
  | None => pvGeneration
  end.

Definition windGenerationAt (data : ChartData.t) (hour : Z) : number :=
  let windGeneration := 0%float in
  match ChartData.at_ (ChartData.windGeneration data) hour with
  | Some p => or_else (ChartData.totalPower p) 0
  | None => windGeneration
  end.

(** JW RB generation, from the 15-minute data. *)
Definition baseloadGenerationAt (data : ChartData.t) (hour : Z) : number :=
  let baseloadGeneration := 10000%float in
  match ChartData.fullGenerationData data with
  | Some l =>
      if (0 <? List.length l)%nat then
        let quarterHourIndex := hour * 4 in
        match ChartData.at_ (ChartData.fullGenerationData data) quarterHourIndex with
        | Some p => or_else (ChartData.gen_rb p) baseloadGeneration
        | None => baseloadGeneration
        end
      else baseloadGeneration
  | None => baseloadGeneration
  end.

Definition powerExchangeAt (data : ChartData.t) (hour : Z) : number :=
  let powerExchange := 0%float in
  match ChartData.at_ (ChartData.systemBalance data) hour with
  | Some p => or_else (ChartData.powerExchange p) 0
  | None => powerExchange
  end.

(** [availableReserve], [requiredReserve] and [hasReserveData] after the
    reserve block. *)
Definition reservesAt (reservesData : option ReservesData.t)
    (dayOffset hour : Z) : option number * option number * bool :=
  match reservesData with
  | Some rd =>
      match ReservesData.reserves rd, ReservesData.required rd with
      | Some reserves, Some required =>
          let reserveIndex := dayOffset * 24 + hour in
          if (reserveIndex <? Z.of_nat (List.length reserves))
             && defined (ReservesData.at_ reserves reserveIndex)
             && defined (ReservesData.at_ required reserveIndex)
          then (ReservesData.at_ reserves reserveIndex,
                ReservesData.at_ required reserveIndex, true)
          else (None, None, false)
      | _, _ => (None, None, false)
      end
  | None => (None, None, false)
  end.

(** The deltas and gradients of an hour. *)
Module Deltas.
Record t : Type := mk {
  pvDelta : number;
  windDelta : number;
  baseloadDelta : number;
  demandDelta : number;
  pvGradient : number;
  windGradient : number
}.
End Deltas.

(** The six [let]s of the delta block after [if (hour > 0) { ... }]. *)
Definition deltasAt (data : ChartData.t) (hour : Z) : Deltas.t :=
  let systemLoad := systemLoadAt data hour in
  let pvGeneration := pvGenerationAt data hour in
  let windGeneration := windGenerationAt data hour in
  let baseloadGeneration := baseloadGenerationAt data hour in
  if 0 <? hour then
    let prevPV :=
      or_else (ChartData.field ChartData.totalPower
                 (ChartData.pvGeneration data) (hour - 1))
              pvGeneration in
    let pvDelta := (pvGeneration - prevPV)%float in
    let prevWind :=
      or_else (ChartData.field ChartData.totalPower
                 (ChartData.windGeneration data) (hour - 1))
              windGeneration in
    let windDelta := (windGeneration - prevWind)%float in
    let baseloadDelta :=
      match ChartData.fullGenerationData data with
      | Some _ =>
          let prevQuarterIndex := (hour - 1) * 4 in
          let prevBaseload :=
            or_else (ChartData.field ChartData.gen_rb
                       (ChartData.fullGenerationData data) prevQuarterIndex)
                    baseloadGeneration in
          (baseloadGeneration - prevBaseload)%float
      | None => 0%float
      end in
    let prevLoad :=
      or_else (ChartData.field ChartData.load
                 (ChartData.systemLoad data) (hour - 1))
              systemLoad in
    let demandDelta := (systemLoad - prevLoad)%float in
    if 1 <? hour then
      let prevPrevPV :=
        or_else (ChartData.field ChartData.totalPower
                   (ChartData.pvGeneration data) (hour - 2))
                pvGeneration in
      let pvGradient := (pvDelta - (prevPV - prevPrevPV))%float in
      let prevPrevWind :=
        or_else (ChartData.field ChartData.totalPower
                   (ChartData.windGeneration data) (hour - 2))
                windGeneration in
      let windGradient := (windDelta - (prevWind - prevPrevWind))%float in
      Deltas.mk pvDelta windDelta baseloadDelta demandDelta
                pvGradient windGradient
    else Deltas.mk pvDelta windDelta baseloadDelta demandDelta 0%float 0%float
  else Deltas.mk 0%float 0%float 0%float 0%float 0%float 0%float.

Section SnapshotBuilder.

(** [Math.exp] is implementation-approximated by the engine; the builder is
    parameterised by it. *)
Variable Math_exp : number -> number.

(** The object [scoreData] that the callback of [cells.forEach] builds for
    the cell with the given [dayOffset], [hour] and [dayOfWeek]. *)
Definition scoreDataOfCell (data : ChartData.t)
    (reservesData : option ReservesData.t)
    (dayOffset hour dayOfWeek : Z) : RiskInput.t :=
  let systemLoad := systemLoadAt data hour in
  let pvGeneration := pvGenerationAt data hour in
  let windGeneration := windGenerationAt data hour in
  let baseloadGeneration := baseloadGenerationAt data hour in
  let powerExchange := powerExchangeAt data hour in
  let '(availableReserve, requiredReserve, hasReserveData) :=
    reservesAt reservesData dayOffset hour in
  let deltas := deltasAt data hour in
  let pvDelta := Deltas.pvDelta deltas in
  let windDelta := Deltas.windDelta deltas in
  (* Future days: trend forecast, not reserves *)
  let '(pvGeneration, windGeneration, systemLoad, pvDelta, windDelta) :=
    if 0 <? dayOffset then
      let decayFactor := Math_exp (- Z2F dayOffset * 0.1)%float in
      let volatility := (1 + Z2F dayOffset * 0.2)%float in
      ((pvGeneration * decayFactor)%float,
       (windGeneration * decayFactor)%float,
       (systemLoad * (1 + Z2F dayOffset * 0.005))%float,
       (pvDelta * volatility)%float,
       (windDelta * volatility)%float)
    else (pvGeneration, windGeneration, systemLoad, pvDelta, windDelta) in
  {| RiskInput.hour := hour;
     RiskInput.dayOfWeek := dayOfWeek;
     RiskInput.systemLoad := Some systemLoad;
     RiskInput.pvGeneration := Some pvGeneration;
     RiskInput.windGeneration := Some windGeneration;
     RiskInput.baseloadGeneration := Some baseloadGeneration;
     RiskInput.powerExchange := Some powerExchange;
     RiskInput.availableReserve := availableReserve;
     RiskInput.requiredReserve := requiredReserve;
     RiskInput.hasReserveData := Some hasReserveData;
     RiskInput.pvDelta := Some pvDelta;
     RiskInput.windDelta := Some windDelta;
     RiskInput.baseloadDelta := Some (Deltas.baseloadDelta deltas);
     RiskInput.demandDelta := Some (Deltas.demandDelta deltas);
     RiskInput.pvGradient := Some (Deltas.pvGradient deltas);
     RiskInput.windGradient := Some (Deltas.windGradient deltas) |}.

End SnapshotBuilder.

Import RedispatchRiskScorer.

(** ** Notions used in the statements *)

(** *** Ranges of the sub-scores *)

(** The values that each [calculate...Score] method can return. *)
Definition reserveMargin_scores : list Z := [100; 85; 65; 40; 20; 0].

Definition renewableDrop_scores : list Z := [0; 20; 40; 60; 80; 100].

Definition baseloadSurge_scores : list Z := [0; 20; 40; 70; 100].

Definition demandSpike_scores : list Z := [0; 15; 30; 60; 100].

Definition criticalHours_scores : list Z := [0; 30; 60; 100].

Definition systemImbalance_scores : list Z := [0; 30; 60; 100].

(** Every value a sub-score can take. *)
Definition all_scores : list Z := [0; 15; 20; 30; 40; 60; 65; 70; 80; 85; 100].

(** [P] holds of every [scores] object whose components lie in the ranges
    above; the reserve-margin component is [null] or in its range. *)
Definition forall_scores (P : Scores.t -> bool) : bool :=
  forallb (fun r =>
  forallb (fun d =>
  forallb (fun b =>
  forallb (fun s =>
  forallb (fun c =>
  forallb (fun i => P (Scores.mk r d b s c i))
    systemImbalance_scores) criticalHours_scores) demandSpike_scores)
    baseloadSurge_scores) renewableDrop_scores)
    (None :: map Some reserveMargin_scores).

(** The number of sub-scores at or above [bound]; [null] is not counted. *)
Definition countAtLeast (bound : Z) (scores : Scores.t) : Z :=
  Z.of_nat (List.length
    (filter (fun s => match s with Some s => bound <=? s | None => false end)
            (Scores.values scores))).

(** The facts about the total that are checked on every score vector. *)
Definition total_ok (scores : Scores.t) : bool :=
  forallb (fun h =>
    let t := totalOf scores h in
    (0 <=? t) && (t <=? 100)
    && is_finite (rawTotal scores h)
    && (if (weightedSum scores (activeWeights h) =? 95)%float
           && (3 <=? countAtLeast 80 scores)
        then (Math_round (rawTotal scores h) =? 110) && (t =? 100)
        else true))
    [true; false].

(** *** Weights *)

(** The five keys left in [activeWeights] once [reserveMargin] is deleted. *)
Definition remainingKeys : list Key :=
  [K_renewableDropRate; K_baseloadSurge; K_demandSpike; K_criticalHours;
   K_systemImbalance].

(** The sum of a list of numbers, accumulated from 0 in list order. *)
Definition sumNumbers (l : list number) : number :=
  fold_left (fun a b => (a + b)%float) l 0%float.

(** [activeWeights[key]] of the call: [undefined] for a deleted key. *)
Definition effectiveWeight (hasReserveData : bool) (k : Key) : option number :=
  option_map snd
    (find (fun kw => Key_eqb (fst kw) k) (activeWeights hasReserveData)).

(** *** The non-reserve numeric fields of the input *)

(** The eight fields read through a [||] fallback. *)
Inductive NumField : Type :=
| F_pvDelta | F_windDelta | F_baseloadDelta | F_demandDelta
| F_pvGradient | F_windGradient | F_powerExchange | F_systemLoad.

(** [data[f]] *)
Definition getField (f : NumField) (data : RiskInput.t) : option number :=
  match f with
  | F_pvDelta => RiskInput.pvDelta data
  | F_windDelta => RiskInput.windDelta data
  | F_baseloadDelta => RiskInput.baseloadDelta data
  | F_demandDelta => RiskInput.demandDelta data
  | F_pvGradient => RiskInput.pvGradient data
  | F_windGradient => RiskInput.windGradient data
  | F_powerExchange => RiskInput.powerExchange data
  | F_systemLoad => RiskInput.systemLoad data
  end.

(** [{...data, f: v}] *)
Definition setField (f : NumField) (v : option number) (data : RiskInput.t)
  : RiskInput.t :=
  let (hour, dayOfWeek, systemLoad, pvGeneration, windGeneration,
       baseloadGeneration, powerExchange, availableReserve, requiredReserve,
       hasReserveData, pvDelta, windDelta, baseloadDelta, demandDelta,
       pvGradient, windGradient) := data in
  match f with
  | F_pvDelta =>
      RiskInput.mk hour dayOfWeek systemLoad pvGeneration windGeneration
        baseloadGeneration powerExchange availableReserve requiredReserve
        hasReserveData v windDelta baseloadDelta demandDelta pvGradient
        windGradient
  | F_windDelta =>
      RiskInput.mk hour dayOfWeek systemLoad pvGeneration windGeneration
        baseloadGeneration powerExchange availableReserve requiredReserve
        hasReserveData pvDelta v baseloadDelta demandDelta pvGradient
        windGradient
  | F_baseloadDelta =>
      RiskInput.mk hour dayOfWeek systemLoad pvGeneration windGeneration
        baseloadGeneration powerExchange availableReserve requiredReserve
        hasReserveData pvDelta windDelta v demandDelta pvGradient windGradient
  | F_demandDelta =>
      RiskInput.mk hour dayOfWeek systemLoad pvGeneration windGeneration
        baseloadGeneration powerExchange availableReserve requiredReserve
        hasReserveData pvDelta windDelta baseloadDelta v pvGradient windGradient
  | F_pvGradient =>
      RiskInput.mk hour dayOfWeek systemLoad pvGeneration windGeneration
        baseloadGeneration powerExchange availableReserve requiredReserve
        hasReserveData pvDelta windDelta baseloadDelta demandDelta v
        windGradient
  | F_windGradient =>
      RiskInput.mk hour dayOfWeek systemLoad pvGeneration windGeneration
        baseloadGeneration powerExchange availableReserve requiredReserve
        hasReserveData pvDelta windDelta baseloadDelta demandDelta pvGradient v
  | F_powerExchange =>
      RiskInput.mk hour dayOfWeek systemLoad pvGeneration windGeneration
        baseloadGeneration v availableReserve requiredReserve
        hasReserveData pvDelta windDelta baseloadDelta demandDelta pvGradient
        windGradient
  | F_systemLoad =>
      RiskInput.mk hour dayOfWeek v pvGeneration windGeneration
        baseloadGeneration powerExchange availableReserve requiredReserve
        hasReserveData pvDelta windDelta baseloadDelta demandDelta pvGradient
        windGradient
  end.

(** The value the source substitutes for a falsy field: the right operand of
    its [||]. *)
Definition fallback (f : NumField) : number :=
  match f with
  | F_systemLoad => 20000
  | _ => 0
  end%float.

(** The demand-spike score as the specification words it, every missing field
    defaulting to 0 ([value || 0]); to be compared with
    [calculateDemandSpikeScore], whose system load defaults to 20000. *)
Definition calculateDemandSpikeScore_as_specified (data : RiskInput.t) : Z :=
  let demandDelta := or_else (RiskInput.demandDelta data) 0%float in
  let systemLoad := or_else (RiskInput.systemLoad data) 0%float in
  let demandChangeRate := (demandDelta / systemLoad * 100)%float in
  if (5 <? demandChangeRate)%float then 100
  else if (3 <? demandChangeRate)%float then 60
  else if (2 <? demandChangeRate)%float then 30
  else if (1 <? demandChangeRate)%float then 15
  else 0.

(** *** Factor descriptors *)

(** The factors for which [getDetailedFactors] has a descriptor. *)
Definition shownKeys : list Key :=
  [K_reserveMargin; K_renewableDropRate; K_baseloadSurge; K_demandSpike;
   K_criticalHours].

(** The specification's reading of the factor list: every non-zero sub-score
    has a descriptor whose impact is the rounded share of the sub-score under
    the effective weight of the call. *)
Definition factors_use_effective_weights (data : RiskInput.t) : Prop :=
  let r := calculateRiskScore data in
  forall k s w,
    Scores.get (RiskScore.components r) k = Some s ->
    s <> 0 ->
    effectiveWeight (RiskScore.hasReserveData r) k = Some w ->
    exists d, In d (RiskScore.factors r)
              /\ Descriptor.impact d = Math_round (Z2F s * w / 100).

(** Descending impact. *)
Definition impact_ge (a b : Descriptor.t) : Prop :=
  Descriptor.impact b <= Descriptor.impact a.

(** *** Cells of the grid *)

(** The four deltas and two gradients of a cell. *)
Definition deltasOf (c : RiskInput.t) : list (option number) :=
  [RiskInput.pvDelta c; RiskInput.windDelta c; RiskInput.baseloadDelta c;
   RiskInput.demandDelta c; RiskInput.pvGradient c; RiskInput.windGradient c].

(** Two data sets agree on the entries that the delta block of [hour] can
    read: the hour and the two hours before it, and for the 15-minute series
    the first quarter of the hour and of the hour before (and whether the
    series is present and non-empty). *)
Definition same_hours (data data' : ChartData.t) (hour : Z) : Prop :=
  (forall i, hour - 2 <= i <= hour ->
     ChartData.at_ (ChartData.pvGeneration data) i
     = ChartData.at_ (ChartData.pvGeneration data') i
     /\ ChartData.at_ (ChartData.windGeneration data) i
        = ChartData.at_ (ChartData.windGeneration data') i
     /\ ChartData.at_ (ChartData.systemLoad data) i
        = ChartData.at_ (ChartData.systemLoad data') i)
  /\ (forall i, i = hour * 4 \/ i = (hour - 1) * 4 ->
        ChartData.at_ (ChartData.fullGenerationData data) i
        = ChartData.at_ (ChartData.fullGenerationData data') i)
  /\ option_map (fun l => (0 <? List.length l)%nat)
                (ChartData.fullGenerationData data)
     = option_map (fun l => (0 <? List.length l)%nat)
                  (ChartData.fullGenerationData data').

(** The specification's reading of the forecast block: all four deltas of a
    future cell are the deltas of the hour scaled by 1 + dayOffset * 0.2. *)
Definition deltas_scaled_as_specified (Math_exp : number -> number)
    (data : ChartData.t) (reservesData : option ReservesData.t)
    (dayOffset hour dayOfWeek : Z) : Prop :=
  let c := scoreDataOfCell Math_exp data reservesData dayOffset hour dayOfWeek in
  let base := deltasAt data hour in
  let volatility := (1 + Z2F dayOffset * 0.2)%float in
  RiskInput.pvDelta c = Some (Deltas.pvDelta base * volatility)%float
  /\ RiskInput.windDelta c = Some (Deltas.windDelta base * volatility)%float
  /\ RiskInput.baseloadDelta c
     = Some (Deltas.baseloadDelta base * volatility)%float
  /\ RiskInput.demandDelta c
     = Some (Deltas.demandDelta base * volatility)%float.

(** A reference exponential to run the builder on examples: the Taylor
    polynomial of degree 24 in Horner form, accurate near 0. *)
Fixpoint exp_horner (terms : nat) (k : Z) (x : number) : number :=
  match terms with
  | O => 1%float
  | S terms => (1 + x / Z2F k * exp_horner terms (k + 1) x)%float
  end.

Definition exp_taylor (x : number) : number := exp_horner 24 1 x.

(** The doubles at most two units in the last place away from [c]. *)
Definition ulp_neighbours (c : number) : list number :=
  [next_down (next_down c); next_down c; c; next_up c; next_up (next_up c)].

(** ** Example inputs *)

(** Scenario 1: a weekday evening peak with a reserve deficit. *)
Definition scenario1 : RiskInput.t :=
  {| RiskInput.hour := 18; RiskInput.dayOfWeek := 3;
     RiskInput.systemLoad := Some 22000%float;
     RiskInput.pvGeneration := Some 500%float;
     RiskInput.windGeneration := Some 300%float;
     RiskInput.baseloadGeneration := Some 15000%float;
     RiskInput.powerExchange := Some 500%float;
     RiskInput.availableReserve := Some 200%float;
     RiskInput.requiredReserve := Some 1200%float;
     RiskInput.hasReserveData := None;
     RiskInput.pvDelta := Some (-1800)%float;
     RiskInput.windDelta := Some (-300)%float;
     RiskInput.baseloadDelta := Some 1600%float;
     RiskInput.demandDelta := Some 900%float;
     RiskInput.pvGradient := None;
     RiskInput.windGradient := None |}.

(** Scenario 1 without its [systemLoad] property. *)
Definition scenario1_noLoad : RiskInput.t := setField F_systemLoad None scenario1.

(** Scenario 2: scenario 1 with both reserve fields [undefined]. *)
Definition scenario2 : RiskInput.t :=
  {| RiskInput.hour := 18; RiskInput.dayOfWeek := 3;
     RiskInput.systemLoad := Some 22000%float;
     RiskInput.pvGeneration := Some 500%float;
     RiskInput.windGeneration := Some 300%float;
     RiskInput.baseloadGeneration := Some 15000%float;
     RiskInput.powerExchange := Some 500%float;
     RiskInput.availableReserve := None;
     RiskInput.requiredReserve := None;
     RiskInput.hasReserveData := None;
     RiskInput.pvDelta := Some (-1800)%float;
     RiskInput.windDelta := Some (-300)%float;
     RiskInput.baseloadDelta := Some 1600%float;
     RiskInput.demandDelta := Some 900%float;
     RiskInput.pvGradient := None;
     RiskInput.windGradient := None |}.

(** Scenario 3: a weekend night (Sunday, 3:00) with no change in any signal
    and no reserve data, for any system load and generation levels. *)
Definition scenario3 (systemLoad pvGeneration windGeneration
    baseloadGeneration : option number) : RiskInput.t :=
  {| RiskInput.hour := 3; RiskInput.dayOfWeek := 0;
     RiskInput.systemLoad := systemLoad;
     RiskInput.pvGeneration := pvGeneration;
     RiskInput.windGeneration := windGeneration;
     RiskInput.baseloadGeneration := baseloadGeneration;
     RiskInput.powerExchange := Some 0%float;
     RiskInput.availableReserve := None;
     RiskInput.requiredReserve := None;
     RiskInput.hasReserveData := Some false;
     RiskInput.pvDelta := Some 0%float;
     RiskInput.windDelta := Some 0%float;
     RiskInput.baseloadDelta := Some 0%float;
     RiskInput.demandDelta := Some 0%float;
     RiskInput.pvGradient := Some 0%float;
     RiskInput.windGradient := Some 0%float |}.

(** Five factors at 100 and no cross-border exchange: the weighted sum is
    35 + 25 + 15 + 10 + 10 = 95 and five sub-scores are critical. *)
Definition boundary95 : RiskInput.t :=
  {| RiskInput.hour := 18; RiskInput.dayOfWeek := 3;
     RiskInput.systemLoad := Some 20000%float;
     RiskInput.pvGeneration := Some 500%float;
     RiskInput.windGeneration := Some 300%float;
     RiskInput.baseloadGeneration := Some 15000%float;
     RiskInput.powerExchange := Some 0%float;
     RiskInput.availableReserve := Some 200%float;
     RiskInput.requiredReserve := Some 1200%float;
     RiskInput.hasReserveData := Some true;
     RiskInput.pvDelta := Some (-1800)%float;
     RiskInput.windDelta := Some (-300)%float;
     RiskInput.baseloadDelta := Some 1600%float;
     RiskInput.demandDelta := Some 1100%float;
     RiskInput.pvGradient := Some 0%float;
     RiskInput.windGradient := Some 0%float |}.

(** A quiet Sunday night with an ample reserve margin of 2000 MW. *)
Definition quietNight : RiskInput.t :=
  {| RiskInput.hour := 3; RiskInput.dayOfWeek := 0;
     RiskInput.systemLoad := Some 20000%float;
     RiskInput.pvGeneration := Some 0%float;
     RiskInput.windGeneration := Some 3000%float;
     RiskInput.baseloadGeneration := Some 10000%float;
     RiskInput.powerExchange := Some 0%float;
     RiskInput.availableReserve := Some 3200%float;
     RiskInput.requiredReserve := Some 1200%float;
     RiskInput.hasReserveData := Some true;
     RiskInput.pvDelta := Some 0%float;
     RiskInput.windDelta := Some 0%float;
     RiskInput.baseloadDelta := Some 0%float;
     RiskInput.demandDelta := Some 0%float;
     RiskInput.pvGradient := Some 0%float;
     RiskInput.windGradient := Some 0%float |}.

(** A renewable drop of 1600 MW in a quiet hour, without reserve data. *)
Definition steepDrop : RiskInput.t :=
  {| RiskInput.hour := 3; RiskInput.dayOfWeek := 0;
     RiskInput.systemLoad := Some 20000%float;
     RiskInput.pvGeneration := Some 0%float;
     RiskInput.windGeneration := Some 3000%float;
     RiskInput.baseloadGeneration := Some 10000%float;
     RiskInput.powerExchange := Some 0%float;
     RiskInput.availableReserve := None;
     RiskInput.requiredReserve := None;
     RiskInput.hasReserveData := Some false;
     RiskInput.pvDelta := Some 0%float;
     RiskInput.windDelta := Some (-1600)%float;
     RiskInput.baseloadDelta := Some 0%float;
     RiskInput.demandDelta := Some 0%float;
     RiskInput.pvGradient := Some 0%float;
     RiskInput.windGradient := Some 0%float |}.

(** The quiet night with an export of 3500 MW. *)
Definition largeExchange : RiskInput.t :=
  setField F_powerExchange (Some 3500%float) quietNight.

(** PV generation of 1000 MW at noon, nothing known about the other hours. *)
Definition noonData : ChartData.t :=
  {| ChartData.systemLoad := None;
     ChartData.pvGeneration :=
       Some (repeat None 12 ++ [Some (ChartData.mkPower (Some 1000%float))]);
     ChartData.windGeneration := None;
     ChartData.fullGenerationData := None;
     ChartData.systemBalance := None |}.

(** Load rising from 20000 to 21000 MW and JW RB generation from 10000 to
    11000 MW between hours 0 and 1. *)
Definition risingData : ChartData.t :=
  {| ChartData.systemLoad :=
       Some [Some (ChartData.mkLoad (Some 20000%float));
             Some (ChartData.mkLoad (Some 21000%float))];
     ChartData.pvGeneration := None;
     ChartData.windGeneration := None;
     ChartData.fullGenerationData :=
       Some [Some (ChartData.mkGen (Some 10000%float)); None; None; None;
             Some (ChartData.mkGen (Some 11000%float))];
     ChartData.systemBalance := None |}.

(** * More of the chart manager and of the risk calculator *)

(** ** Strings of integers *)

(** [String(z)] and [z.toString()] for an integer. *)
Definition toString (z : Z) : string := NilZero.string_of_int (Z.to_int z).

(** [s.padStart(targetLength, fill)] for a one-character [fill]. *)
Definition padStart (targetLength : nat) (fill : string) (s : string)
  : string :=
  String.concat "" (repeat fill (targetLength - String.length s)) ++ s.

(** ** The cells of the risk assessment grid *)

(** The string of a risk level, as in [`risk-${riskLevel}`]. *)
Definition levelName (l : RiskLevel) : string :=
  match l with
  | low => "low"
  | medium => "medium"
  | high => "high"
  | critical => "critical"
  end.

(** What [updateRiskAssessmentChart] sets on a cell of the grid. *)
Module CellView.
Record t : Type := mk {
  textContent : string;
  classList : list string;
  (** [rgba(r, g, b, opacity)] *)
  backgroundColor : Z * Z * Z * number;
  (** the content of the [risk-warning-icon] span, when there is one *)
  warningIcon : option string;
  (** whether the [no-data-marker] span is appended *)
  noDataMarker : bool;
  (** [dataset.riskScore], [dataset.riskLevel], [dataset.riskData],
      [dataset.scoreData] and [dataset.hasReserveData], before they are
      turned into strings *)
  riskScore : Z;
  riskLevel : RiskLevel;
  riskData : RiskScore.t;
  scoreData : RiskInput.t;
  hasReserveData : bool
}.
End CellView.

(** The two warning icons. *)
Definition ICON_WARNING : string := "⚠️".

Definition ICON_BOLT : string := "⚡".

(** The colours of the four risk levels, as in [rgba(r, g, b, opacity)]. *)
Definition levelColour (l : RiskLevel) : Z * Z * Z :=
  match l with
  | low => (34, 197, 94)
  | medium => (234, 179, 8)
  | high => (249, 115, 22)
  | critical => (239, 68, 68)
  end.

Section CellRendering.

Variable Math_exp : number -> number.

(** [new Date().getHours()] at the time of the update. *)
Variable currentHour : Z.

(** The callback of [cells.forEach] in [updateRiskAssessmentChart], for the
    cell created with the given [dayOffset], [hour] and [dayOfWeek]. *)
Definition renderCell (data : ChartData.t)
    (reservesData : option ReservesData.t)
    (dayOffset hour dayOfWeek : Z) : CellView.t :=
  let '(_, _, hasReserveData) := reservesAt reservesData dayOffset hour in
  let scoreData :=
    scoreDataOfCell Math_exp data reservesData dayOffset hour dayOfWeek in
  let risk := calculateRiskScore scoreData in
  let classList := ["risk-cell"%string] in
  let classList := push_if (negb hasReserveData) "no-reserve-data"%string classList in
  let classList :=
    push_if ((dayOffset =? 0) && (hour =? currentHour)) "current"%string
            classList in
  let riskLevel := RiskScore.riskLevel risk in
  let classList := classList ++ [("risk-" ++ levelName riskLevel)%string] in
  let opacity :=
    (0.3 + (Z2F (RiskScore.totalScore risk) / 100) * 0.7)%float in
  let backgroundColor :=
    match riskLevel with
    | low => (34, 197, 94, opacity)
    | medium => (234, 179, 8, opacity)
    | high => (249, 115, 22, opacity)
    | _ => (239, 68, 68, opacity)
    end in
  let warningIcon :=
    if 50 <=? RiskScore.totalScore risk
    then Some (if 75 <=? RiskScore.totalScore risk then ICON_WARNING
               else ICON_BOLT)
    else None in
  let noDataMarker := negb hasReserveData && (2 <? dayOffset) in
  {| CellView.textContent := padStart 2 "0" (toString hour);
     CellView.classList := classList;
     CellView.backgroundColor := backgroundColor;
     CellView.warningIcon := warningIcon;
     CellView.noDataMarker := noDataMarker;
     CellView.riskScore := RiskScore.totalScore risk;
     CellView.riskLevel := riskLevel;
     CellView.riskData := risk;
     CellView.scoreData := scoreData;
     CellView.hasReserveData := hasReserveData |}.

End CellRendering.

(** ** The legacy heat map: [updateRiskHeatmap] *)

(** The object [scoreData] built for the cell at position [index] of the
    grid.  Its property [availableCapacity: 25000] has no counterpart in
    [RiskInput.t]: no method of the scorer reads it. *)
Definition heatmapScoreData (currentData : ChartData.t) (index : nat)
  : RiskInput.t :=
  let dayIndex := Z.of_nat index / 24 in
  let hourIndex := Z.of_nat index mod 24 in
  {| RiskInput.hour := hourIndex;
     RiskInput.dayOfWeek := if dayIndex =? 6 then 0 else dayIndex + 1;
     RiskInput.systemLoad :=
       Some (or_else (ChartData.field ChartData.load
                        (ChartData.systemLoad currentData) hourIndex) 20000);
     RiskInput.pvGeneration :=
       Some (or_else (ChartData.field ChartData.totalPower
                        (ChartData.pvGeneration currentData) hourIndex) 0);
     RiskInput.windGeneration :=
       Some (or_else (ChartData.field ChartData.totalPower
                        (ChartData.windGeneration currentData) hourIndex) 0);
     RiskInput.baseloadGeneration :=
       Some (or_else (ChartData.field ChartData.gen_rb
                        (ChartData.fullGenerationData currentData)
                        (hourIndex * 4)) 10000);
     RiskInput.powerExchange := None;
     RiskInput.availableReserve := None;
     RiskInput.requiredReserve := None;
     RiskInput.hasReserveData := None;
     RiskInput.pvDelta := None;
     RiskInput.windDelta := None;
     RiskInput.baseloadDelta := None;
     RiskInput.demandDelta := None;
     RiskInput.pvGradient := Some 0%float;
     RiskInput.windGradient := Some 0%float |}.

(** The risk that [updateRiskHeatmap] shows in the cell at [index]. *)
Definition heatmapRisk (currentData : ChartData.t) (index : nat)
  : RiskScore.t :=
  calculateRiskScore (heatmapScoreData currentData index).

(** ** The details panel: [showRiskDetails] *)

(** [risk.factors.filter(f => !f.info)] *)
Definition actualFactors (risk : RiskScore.t) : list Descriptor.t :=
  filter (fun f => negb (Descriptor.info f)) (RiskScore.factors risk).

(** [risk.factors.filter(f => f.info)] *)
Definition infoFactors (risk : RiskScore.t) : list Descriptor.t :=
  filter (fun f => Descriptor.info f) (RiskScore.factors risk).

(** The opacity of a cell whose total score is [z]. *)
Definition opacityOf (z : Z) : number :=
  (0.3 + (Z2F z / 100) * 0.7)%float.

(** The integers from 0 to 100. *)
Definition percentages : list Z := map Z.of_nat (seq 0 101).

(** Reserve series of one day and a half: 36 hours of 3000 MW available
    against 1200 MW required. *)
Definition shortReserves : ReservesData.t :=
  {| ReservesData.reserves := Some (repeat (Some 3000%float) 36);
     ReservesData.required := Some (repeat (Some 1200%float) 36) |}.

(** ** Notions for the recommendations *)

(** The advisory that a reserve margin calls for: the alert below 300 MW,
    the low-margin notice from 300 to below 500 MW, none otherwise. *)
Definition marginAdvisory (margin : number) : list string :=
  if (margin <? 300)%float then [REC_ALERT]
  else if (margin <? 500)%float then [REC_LOW_MARGIN]
  else [].

(** The advisories that do not speak of the reserve data. *)
Definition otherAdvisories : list string :=
  [REC_OZE_DROP; REC_EVENING; REC_PEAK; REC_REDUCE; REC_MONITOR;
   REC_LIMITED; REC_STABLE].

(** Scenario 1 with an available reserve of 1600 MW: a margin of 400 MW. *)
Definition thinMargin : RiskInput.t :=
  {| RiskInput.hour := 18; RiskInput.dayOfWeek := 3;
     RiskInput.systemLoad := Some 22000%float;
     RiskInput.pvGeneration := Some 500%float;
     RiskInput.windGeneration := Some 300%float;
     RiskInput.baseloadGeneration := Some 15000%float;
     RiskInput.powerExchange := Some 500%float;
     RiskInput.availableReserve := Some 1600%float;
     RiskInput.requiredReserve := Some 1200%float;
     RiskInput.hasReserveData := None;
     RiskInput.pvDelta := Some (-1800)%float;
     RiskInput.windDelta := Some (-300)%float;
     RiskInput.baseloadDelta := Some 1600%float;
     RiskInput.demandDelta := Some 900%float;
     RiskInput.pvGradient := None;
     RiskInput.windGradient := None |}.

(** *** The order of the advisories *)

(** The advisories in the order in which [getRecommendations] can push
    them. *)
Definition advisoryOrder : list string :=
  [REC_NO_RESERVE; REC_ALERT; REC_LOW_MARGIN; REC_OZE_DROP; REC_EVENING;
   REC_PEAK; REC_REDUCE; REC_MONITOR; REC_LIMITED; REC_STABLE].

(** [l] is [m] with some entries left out. *)
Fixpoint is_subsequence (l m : list string) {struct m} : bool :=
  match m with
  | [] => match l with [] => true | _ :: _ => false end
  | y :: m' =>
      match l with
      | [] => true
      | x :: l' =>
          if String.eqb x y then is_subsequence l' m' else is_subsequence l m'
      end
  end.

Definition mentions (x : string) (l : list string) : bool :=
  existsb (String.eqb x) l.

(** The facts about a recommendation array that are checked on every
    combination of the tests of [getRecommendations]. *)
Definition advisories_ok (recommendations : list string) : bool :=
  is_subsequence recommendations advisoryOrder
  && (List.length recommendations <=? 5)%nat
  && negb (mentions REC_REDUCE recommendations
           && mentions REC_MONITOR recommendations)
  && (if mentions REC_STABLE recommendations
      then match recommendations with
           | [a] => String.eqb a REC_STABLE
           | _ => false
           end
      else true)
  && (if mentions REC_LIMITED recommendations
      then match recommendations with
           | [a; b] => String.eqb a REC_NO_RESERVE && String.eqb b REC_LIMITED
           | _ => false
           end
      else true).

(** ** The reserve series: [processPSEReservesData] *)

(** A record of the reserve report of the operator.  A property that is
    [null] or missing is [None]; [V] is the type of the values of the three
    power properties, which the source only hands to [parseFloat]. *)
Module RawItem.
Record t (V : Type) : Type := mk {
  plan_dtime : option string;
  req_pow_res : option V;
  surplus_cap_avail_tso : option V;
  avail_cap_gen_units_stor_prov : option V
}.
Arguments mk {V}.
Arguments plan_dtime {V}.
Arguments req_pow_res {V}.
Arguments surplus_cap_avail_tso {V}.
Arguments avail_cap_gen_units_stor_prov {V}.
End RawItem.

(** An element of [processed]. *)
Module ReserveRow.
Record t : Type := mk {
  time : string;
  reserve : number;
  required : number
}.
End ReserveRow.

(** The object that [processPSEReservesData] returns. *)
Module ReserveSeries.
Record t : Type := mk {
  times : list string;
  reserves : list number;
  required : list number
}.
End ReserveSeries.

(** The sign that [Array.prototype.sort] reads off the number returned by a
    comparator; [NaN] counts as 0. *)
Definition signum (v : number) : Z :=
  if (v <? 0)%float then -1 else if (0 <? v)%float then 1 else 0.

(** The series as [updateRiskAssessmentChart] reads it from
    [this.pseReservesCache]: two arrays of numbers. *)
Definition asReservesData (series : ReserveSeries.t) : ReservesData.t :=
  {| ReservesData.reserves := Some (map Some (ReserveSeries.reserves series));
     ReservesData.required := Some (map Some (ReserveSeries.required series)) |}.

Section PSEReserves.

Variable V : Type.

(** [parseFloat] on a value of the report. *)
Variable parseFloat : V -> number.

(** The time value of [new Date(s)], [NaN] for an invalid date. *)
Variable Date_parse : string -> number.

(** The local-time getters of a date, from its time value. *)
Variable getFullYear : number -> Z.
Variable getMonth : number -> Z.
Variable getDate : number -> Z.
Variable getHours : number -> Z.

(** The time value of [startOfToday]. *)
Variable startOfToday : number.

(** The time value of [new Date(item.plan_dtime)].  It is only computed for
    the records that passed the filter, which have a [plan_dtime]. *)
Definition timeOf (item : RawItem.t V) : number :=
  match RawItem.plan_dtime item with
  | Some s => Date_parse s
  | None => nan
  end.

(** The callback of [rawData.filter]. *)
Definition fromToday (item : RawItem.t V) : bool :=
  match RawItem.plan_dtime item with
  | Some s =>
      if String.eqb s "" then false
      else (startOfToday <=? Date_parse s)%float
  | None => false
  end.

(** The comparator of [futureData.sort]. *)
Definition compareTimes (a b : RawItem.t V) : Z :=
  signum (timeOf a - timeOf b)%float.

Definition timeStr (timestamp : number) : string :=
  (toString (getFullYear timestamp) ++ "-"
   ++ padStart 2 "0" (toString (getMonth timestamp + 1)) ++ "-"
   ++ padStart 2 "0" (toString (getDate timestamp)) ++ " "
   ++ padStart 2 "0" (toString (getHours timestamp)) ++ ":00:00")%string.

(** [available] when the test [!isNaN(available) && !isNaN(required)] is
    reached. *)
Definition availableOf (item : RawItem.t V) (req_pow_res : V) : number :=
  let available := 0%float in
  let available :=
    match RawItem.surplus_cap_avail_tso item with
    | Some v => parseFloat v
    | None =>
        match RawItem.avail_cap_gen_units_stor_prov item with
        | Some v => parseFloat v
        | None => available
        end
    end in
  if is_zero available || is_nan available then
    let required := parseFloat req_pow_res in
    (required + 1000)%float
  else available.

(** The callback of [futureData.forEach]: the row pushed for a record, if
    any. *)
Definition rowOf (item : RawItem.t V) : option ReserveRow.t :=
  match RawItem.req_pow_res item with
  | Some req_pow_res =>
      let timestamp := timeOf item in
      let available := availableOf item req_pow_res in
      let required := parseFloat req_pow_res in
      if negb (is_nan available) && negb (is_nan required) then
        Some {| ReserveRow.time := timeStr timestamp;
                ReserveRow.reserve := available;
                ReserveRow.required := required |}
      else None
  | None => None
  end.

Definition processPSEReservesData (rawData : list (RawItem.t V))
  : ReserveSeries.t :=
  let processed := [] in
  let futureData := filter fromToday rawData in
  let futureData := sort compareTimes futureData in
  let processed :=
    fold_left
      (fun processed item =>
         match rowOf item with
         | Some row => processed ++ [row]
         | None => processed
         end)
      futureData processed in
  let processed :=
    if (72 <? List.length processed)%nat then firstn 72 processed
    else processed in
  {| ReserveSeries.times := map ReserveRow.time processed;
     ReserveSeries.reserves := map ReserveRow.reserve processed;
     ReserveSeries.required := map ReserveRow.required processed |}.

(** What the source shows of a row pushed to [processed]: the record it
    was computed from and the tests the record passed. *)
Definition row_from (rawData : list (RawItem.t V)) (row : ReserveRow.t)
  : Prop :=
  exists item s q,
    In item rawData
    /\ RawItem.plan_dtime item = Some s /\ s <> ""%string
    /\ (startOfToday <=? Date_parse s)%float = true
    /\ RawItem.req_pow_res item = Some q
    /\ ReserveRow.time row = timeStr (Date_parse s)
    /\ ReserveRow.required row = parseFloat q
    /\ ReserveRow.reserve row = availableOf item q
    /\ is_nan (ReserveRow.required row) = false
    /\ is_nan (ReserveRow.reserve row) = false.

End PSEReserves.

(** A report of [n] hourly records starting at time value [t0], each with a
    required reserve of 1200 MW and no available reserve reported, for a
    reader whose values are numbers already and whose dates are written as
    the decimal time value in hours. *)
Definition hourlyReport (n : nat) : list (RawItem.t number) :=
  map (fun h =>
         {| RawItem.plan_dtime := Some (toString (Z.of_nat h));
            RawItem.req_pow_res := Some 1200%float;
            RawItem.surplus_cap_avail_tso := None;
            RawItem.avail_cap_gen_units_stor_prov := None |})
      (seq 0 n).

(** The number written in decimal digits, [NaN] when there is none. *)
Definition hoursOfString (s : string) : number :=
  match NilZero.int_of_string s with
  | Some i => Z2F (Z.of_int i)
  | None => nan
  end.

Definition exampleSeries (n : nat) : ReserveSeries.t :=
  processPSEReservesData number (fun v => v) hoursOfString
    (fun _ => 2025) (fun _ => 0) (fun t => 1 + Math_round t / 24)
    (fun t => Math_round t mod 24) 0%float (hourlyReport n).

(** ** The hourly risk engine: class [RiskCalculator] *)

(** [Math.max] of two numbers: [NaN] is contagious and [-0 < +0]. *)
Definition Math_max (a b : number) : number :=
  if is_nan a || is_nan b then nan
  else if (a <? b)%float then b
  else if (b <? a)%float then a
  else if get_sign a then b else a.

Arguments Math_max (a b)%_float.

Module RiskCalculator.

(** [this.config.weights]; the default of the constructor and the value of
    [EnspirionConfig.BUSINESS.risk] are the same object. *)
Module Weights.
Definition historicalRedispatch : number := 0.4%float.
Definition currentLimitations : number := 0.3%float.
Definition pvGenerationLevel : number := 0.2%float.
Definition systemLoad : number := 0.1%float.
End Weights.

(** [this.config.thresholds] *)
Module Thresholds.
Definition low : number := 0.25%float.
Definition medium : number := 0.5%float.
Definition high : number := 0.75%float.
End Thresholds.

Module Factors.
Record t : Type := mk {
  historical : number;
  limitations : number;
  pvGeneration : number;
  systemLoad : number
}.
End Factors.

(** The object returned by [calculateHourlyRisk], but for its
    [timestamp]. *)
Module Risk.
Record t : Type := mk {
  score : number;
  level : RiskLevel;
  factors : Factors.t;
  confidence : number
}.
End Risk.

Definition getRiskLevel (score : number) : RiskLevel :=
  if (Thresholds.high <=? score)%float then critical
  else if (Thresholds.medium <=? score)%float then high
  else if (Thresholds.low <=? score)%float then medium
  else low.

Definition calculateConfidence (factors : Factors.t) : number :=
  let confidence := 0.5%float in
  let confidence :=
    if (0 <? Factors.historical factors)%float
    then (confidence + 0.2)%float else confidence in
  let confidence :=
    if (0 <=? Factors.limitations factors)%float
    then (confidence + 0.15)%float else confidence in
  let confidence :=
    if (0 <=? Factors.pvGeneration factors)%float
    then (confidence + 0.1)%float else confidence in
  let confidence :=
    if (0 <=? Factors.systemLoad factors)%float
    then (confidence + 0.05)%float else confidence in
  Math_min confidence 1.0.

(** [calculateHourlyRisk] from the point where [factors] is built. *)
Definition riskOfFactors (factors : Factors.t) : Risk.t :=
  let riskScore := 0%float in
  let riskScore :=
    (riskScore + Factors.historical factors * Weights.historicalRedispatch)%float in
  let riskScore :=
    (riskScore + Factors.limitations factors * Weights.currentLimitations)%float in
  let riskScore :=
    (riskScore + Factors.pvGeneration factors * Weights.pvGenerationLevel)%float in
  let riskScore :=
    (riskScore + Factors.systemLoad factors * Weights.systemLoad)%float in
  let riskScore := Math_max 0 (Math_min 1 riskScore) in
  {| Risk.score := riskScore;
     Risk.level := getRiskLevel riskScore;
     Risk.factors := factors;
     Risk.confidence := calculateConfidence factors |}.

(** The risk returned when the computation of the factors throws. *)
Definition getDefaultRisk : Risk.t :=
  {| Risk.score := 0.25%float;
     Risk.level := medium;
     Risk.factors :=
       {| Factors.historical := 0.25%float;
          Factors.limitations := 0.0%float;
          Factors.pvGeneration := 0.25%float;
          Factors.systemLoad := 0.25%float |};
     Risk.confidence := 0.3%float |}.

(** An element of the [systemLoad] forecast. *)
Module LoadEntry.
Record t : Type := mk {
  hour : Z;
  load : option number
}.
End LoadEntry.

(** [calculateSystemLoadFactor]; a missing or empty [systemLoad] array is
    [None] or [[]]. *)
Definition calculateSystemLoadFactor (hour : Z)
    (systemLoad : option (list LoadEntry.t)) : number :=
  match systemLoad with
  | None | Some [] => 0.5%float
  | Some systemLoad =>
      match find (fun load => LoadEntry.hour load =? hour) systemLoad with
      | None => 0.5%float
      | Some hourData =>
          let minLoad := 15000%float in
          let maxLoad := 28000%float in
          let normalizedLoad :=
            ((num_of (LoadEntry.load hourData) - minLoad)
             / (maxLoad - minLoad))%float in
          Math_max 0 (Math_min (1 - normalizedLoad) 1.0)
      end
  end.

Inductive AlertType : Type := alert_critical | alert_warning.

Module Alert.
Record t : Type := mk {
  type : AlertType;
  hour : Z;
  message : string;
  recommendations : list string
}.
End Alert.

(** The callback of [risks.forEach] in [generateRiskAlerts]: what it pushes
    for the risk at position [index]. *)
Definition alertOf (risk : Risk.t) (index : Z) : list Alert.t :=
  match Risk.level risk with
  | critical =>
      [{| Alert.type := alert_critical;
          Alert.hour := index;
          Alert.message :=
            ("Krytyczne ryzyko redysponowania w ciągu "
             ++ toString (index + 1) ++ "h")%string;
          Alert.recommendations :=
            ["Rozważ redukcję sprzedaży"; "Monitoruj komunikaty OSP"]%string |}]
  | high =>
      [{| Alert.type := alert_warning;
          Alert.hour := index;
          Alert.message :=
            ("Wysokie ryzyko redysponowania w ciągu "
             ++ toString (index + 1) ++ "h")%string;
          Alert.recommendations :=
            ["Zwiększ częstotliwość monitoringu"]%string |}]
  | _ => []
  end.

(** [risks.forEach] from position [index] on. *)
Fixpoint alertsFrom (index : Z) (risks : list Risk.t) : list Alert.t :=
  match risks with
  | [] => []
  | risk :: risks => alertOf risk index ++ alertsFrom (index + 1) risks
  end.

Definition generateRiskAlerts (risks : list Risk.t) : list Alert.t :=
  alertsFrom 0 risks.

(** [findPeakRiskHours]: the positions of the pattern at or above 0.7. *)
Fixpoint peakHoursFrom (hour : Z) (hourlyPattern : list number) : list Z :=
  match hourlyPattern with
  | [] => []
  | risk :: rest =>
      let threshold := 0.7%float in
      (if (threshold <=? risk)%float then [hour] else [])
      ++ peakHoursFrom (hour + 1) rest
  end.

Definition findPeakRiskHours (hourlyPattern : list number) : list Z :=
  peakHoursFrom 0 hourlyPattern.

(** *** The cache of computed risks *)

(** [this.riskCache]: a [Map], whose entries are kept in insertion order;
    an entry is the pair of [data] and [timestamp]. *)
Section RiskCache.

Variable K : Type.
Variable K_eqb : K -> K -> bool.
Variable D : Type.

Definition Cache : Type := list (K * (D * Z)).

(** [Map.prototype.get] *)
Definition get (key : K) (riskCache : Cache) : option (D * Z) :=
  match find (fun entry => K_eqb (fst entry) key) riskCache with
  | Some entry => Some (snd entry)
  | None => None
  end.

(** [Map.prototype.set]: the entry of a key already present is replaced
    where it stands, a new key goes to the end. *)
Fixpoint set (key : K) (value : D * Z) (riskCache : Cache) : Cache :=
  match riskCache with
  | [] => [(key, value)]
  | entry :: rest =>
      if K_eqb (fst entry) key then (key, value) :: rest
      else entry :: set key value rest
  end.

(** [Map.prototype.delete] *)
Definition delete (key : K) (riskCache : Cache) : Cache :=
  filter (fun entry => negb (K_eqb (fst entry) key)) riskCache.

(** [getCachedRisk] when [Date.now()] is [now]; [None] is [null]. *)
Definition getCachedRisk (now : Z) (key : K) (riskCache : Cache) : option D :=
  match get key riskCache with
  | Some (data, timestamp) =>
      if now - timestamp <? 900000 then Some data else None
  | None => None
  end.

(** [cacheRisk] when [Date.now()] is [now]: the cache it leaves. *)
Definition cacheRisk (now : Z) (key : K) (data : D) (riskCache : Cache)
  : Cache :=
  let riskCache := set key (data, now) riskCache in
  if (100 <? List.length riskCache)%nat then
    match riskCache with
    | (oldestKey, _) :: _ => delete oldestKey riskCache
    | [] => riskCache
    end
  else riskCache.

(** The caches that a [Map] can hold: no key twice.  [within_limit] is what
    [cacheRisk] maintains. *)
Definition keys (riskCache : Cache) : list K := map fst riskCache.

Definition within_limit (riskCache : Cache) : Prop :=
  NoDup (keys riskCache) /\ (List.length riskCache <= 100)%nat.

End RiskCache.

End RiskCalculator.

(** A cache of [n] entries with the keys "0", "1", ... written at time 0. *)
Definition filledCache (n : nat) : RiskCalculator.Cache string Z :=
  map (fun i => (toString (Z.of_nat i), (Z.of_nat i, 0))) (seq 0 n).

(** Six hourly risks with the given scores. *)
Definition risksOfScores (scores : list number) : list RiskCalculator.Risk.t :=
  map (fun s =>
         RiskCalculator.riskOfFactors
           {| RiskCalculator.Factors.historical := s;
              RiskCalculator.Factors.limitations := s;
              RiskCalculator.Factors.pvGeneration := s;
              RiskCalculator.Factors.systemLoad := s |})
      scores.

(** ** The order of the numbers *)

(** The position of a number that is not [NaN] in the order of the numbers:
    its class (negative infinity, negative, zero, positive, positive
    infinity), then its exponent and its mantissa, both negated for a
    negative number.  The comparison of two numbers is the lexicographic
    comparison of their positions (lemma [SFcompare_position]). *)
Definition position (x : spec_float) : Z * Z * Z :=
  match x with
  | S754_infinity true => (-2, 0, 0)
  | S754_finite true m e => (-1, - e, Z.neg m)
  | S754_zero _ => (0, 0, 0)
  | S754_nan => (0, 0, 0)
  | S754_finite false m e => (1, e, Z.pos m)
  | S754_infinity false => (2, 0, 0)
  end.

Definition lexicographic (p q : Z * Z * Z) : comparison :=
  let '(c1, e1, m1) := p in
  let '(c2, e2, m2) := q in
  match c1 ?= c2 with
  | Eq => match e1 ?= e2 with
          | Eq => m1 ?= m2
          | c => c
          end
  | c => c
  end.

(** ** The reserve chart: alert lines and risk analysis *)

(** [Math.max(...l)] and [Math.min(...l)] *)
Definition Math_max_of (l : list number) : number :=
  fold_left Math_max l neg_infinity.

Definition Math_min_of (l : list number) : number :=
  fold_left Math_min l infinity.

(** [[...new Set(l)]]: the strings of [l] in the order of their first
    occurrence. *)
Fixpoint distinctFrom (seen l : list string) : list string :=
  match l with
  | [] => []
  | x :: rest =>
      if mentions x seen then distinctFrom seen rest
      else x :: distinctFrom (x :: seen) rest
  end.

Definition distinct (l : list string) : list string := distinctFrom [] l.

(** A line of the chart layout; its [type] is always ['line']. *)
Module Shape.
Record t : Type := mk {
  x0 : string;
  y0 : number;
  x1 : string;
  y1 : number;
  color : string;
  width : Z;
  dash : string
}.
End Shape.

Definition COLOR_DAY : string := "#95a5a6".
Definition COLOR_RED : string := "#e74c3c".
Definition COLOR_ORANGE : string := "#f39c12".
Definition COLOR_GREEN : string := "#27ae60".

(** The callback of [data.times.forEach] in [generateAlertLines]. *)
Definition alertLineOf (data : ReserveSeries.t) (maxY : number)
    (time : string) (index : nat) : list Shape.t :=
  let ALERT_THRESHOLD_ORANGE := 500%float in
  let ALERT_THRESHOLD_RED := 300%float in
  let difference :=
    (num_of (nth_error (ReserveSeries.reserves data) index)
     - num_of (nth_error (ReserveSeries.required data) index))%float in
  if (difference <=? ALERT_THRESHOLD_RED)%float then
    [{| Shape.x0 := time; Shape.y0 := 0%float; Shape.x1 := time;
        Shape.y1 := (maxY * 1.1)%float;
        Shape.color := COLOR_RED; Shape.width := 3; Shape.dash := "dot" |}]
  else if (difference <=? ALERT_THRESHOLD_ORANGE)%float then
    [{| Shape.x0 := time; Shape.y0 := 0%float; Shape.x1 := time;
        Shape.y1 := (maxY * 1.1)%float;
        Shape.color := COLOR_ORANGE; Shape.width := 2; Shape.dash := "dot" |}]
  else [].

(** [data.times.forEach] from position [index] on. *)
Fixpoint alertLinesFrom (data : ReserveSeries.t) (maxY : number)
    (index : nat) (times : list string) : list Shape.t :=
  match times with
  | [] => []
  | time :: times =>
      alertLineOf data maxY time index
      ++ alertLinesFrom data maxY (S index) times
  end.

Definition generateAlertLines (data : ReserveSeries.t) : list Shape.t :=
  let maxY := Math_max_of (ReserveSeries.reserves data) in
  let uniqueDates :=
    distinct (map (substring 0 10) (ReserveSeries.times data)) in
  let shapes :=
    map (fun date =>
           {| Shape.x0 := (date ++ " 00:00:00")%string; Shape.y0 := 0%float;
              Shape.x1 := (date ++ " 00:00:00")%string;
              Shape.y1 := (maxY * 1.1)%float;
              Shape.color := COLOR_DAY; Shape.width := 2;
              Shape.dash := "dash" |})
        (tl uniqueDates) in
  shapes ++ alertLinesFrom data maxY 0 (ReserveSeries.times data).

(** [data.reserves.map((res, i) => res - data.required[i])] of
    [updateReservesStatistics], from position [i] on. *)
Fixpoint marginsFrom (required : list number) (i : nat)
    (reserves : list number) : list number :=
  match reserves with
  | [] => []
  | res :: reserves =>
      (res - num_of (nth_error required i))%float
      :: marginsFrom required (S i) reserves
  end.

Definition marginsOf (data : ReserveSeries.t) : list number :=
  marginsFrom (ReserveSeries.required data) 0 (ReserveSeries.reserves data).

(** What [updateRiskAnalysis] computes before it writes the summary. *)
Module RiskSummary.
Record t : Type := mk {
  criticalHours : nat;
  warningHours : nat;
  minMargin : number;
  riskLevel : RiskLevel;
  riskColor : string;
  minMarginColor : string
}.
End RiskSummary.

Definition riskAnalysis (margins : list number) : RiskSummary.t :=
  let criticalHours :=
    List.length (filter (fun m => (m <=? 300)%float) margins) in
  let warningHours :=
    List.length
      (filter (fun m => (m <=? 500)%float && (300 <? m)%float) margins) in
  let minMargin := Math_min_of margins in
  let '(riskLevel, riskColor) :=
    if (0 <? criticalHours)%nat then (critical, COLOR_RED)
    else if (3 <? warningHours)%nat then (medium, COLOR_ORANGE)
    else (low, COLOR_GREEN) in
  {| RiskSummary.criticalHours := criticalHours;
     RiskSummary.warningHours := warningHours;
     RiskSummary.minMargin := minMargin;
     RiskSummary.riskLevel := riskLevel;
     RiskSummary.riskColor := riskColor;
     RiskSummary.minMarginColor :=
       if (minMargin <=? 300)%float then COLOR_RED
       else if (minMargin <=? 500)%float then COLOR_ORANGE
       else COLOR_GREEN |}.

(** The lines of a colour. *)
Definition linesOf (color : string) (shapes : list Shape.t) : list Shape.t :=
  filter (fun s => String.eqb (Shape.color s) color) shapes.

(** A series of four hours over two days with margins 1000, 250, 450 and
    600 MW. *)
Definition twoDays : ReserveSeries.t :=
  {| ReserveSeries.times :=
       ["2025-05-01 22:00:00"; "2025-05-01 23:00:00"; "2025-05-02 00:00:00";
        "2025-05-02 01:00:00"]%string;
     ReserveSeries.reserves := [2200; 1450; 1650; 1800]%float;
     ReserveSeries.required := [1200; 1200; 1200; 1200]%float |}.
(** * Properties of the scorer and of the snapshot builder *)

Ltac split_bools :=
  repeat match goal with
         | |- context [if ?b then _ else _] => destruct b
         end.

(** ** Ranges of the sub-scores *)

(** Each method returns one of the literals of its [return] statements,
    whatever the input. *)
Lemma calculateReserveMarginScore_range data :
  In (calculateReserveMarginScore data) (None :: map Some reserveMargin_scores).
Proof.
  unfold calculateReserveMarginScore.
  destruct (RiskInput.availableReserve data), (RiskInput.requiredReserve data);
    cbn [map reserveMargin_scores]; split_bools; simpl; tauto.
Qed.

Lemma calculateRenewableDropScore_range data :
  In (calculateRenewableDropScore data) renewableDrop_scores.
Proof.
  unfold calculateRenewableDropScore; cbv zeta.
  split_bools; vm_compute; tauto.
Qed.

Lemma calculateBaseloadSurgeScore_range data :
  In (calculateBaseloadSurgeScore data) baseloadSurge_scores.
Proof.
  unfold calculateBaseloadSurgeScore; cbv zeta.
  split_bools; vm_compute; tauto.
Qed.

Lemma calculateDemandSpikeScore_range data :
  In (calculateDemandSpikeScore data) demandSpike_scores.
Proof.
  unfold calculateDemandSpikeScore; cbv zeta.
  split_bools; vm_compute; tauto.
Qed.

Lemma calculateCriticalHoursScore_range data :
  In (calculateCriticalHoursScore data) criticalHours_scores.
Proof.
  unfold calculateCriticalHoursScore; cbv zeta.
  split_bools; vm_compute; tauto.
Qed.

Lemma calculateSystemImbalanceScore_range data :
  In (calculateSystemImbalanceScore data) systemImbalance_scores.
Proof.
  unfold calculateSystemImbalanceScore; cbv zeta.
  split_bools; vm_compute; tauto.
Qed.

(** A property checked on all score vectors holds of the scores of any input. *)
Lemma forall_scores_computeScores (P : Scores.t -> bool) :
  forall_scores P = true ->
  forall data h, P (computeScores data h) = true.
Proof.
  unfold forall_scores, computeScores. intros H data h.
  rewrite forallb_forall in H.
  assert (Hr : In (if h then calculateReserveMarginScore data else None)
                  (None :: map Some reserveMargin_scores)).
  { destruct h; [apply calculateReserveMarginScore_range | now left]. }
  specialize (H _ Hr). rewrite forallb_forall in H.
  specialize (H _ (calculateRenewableDropScore_range data)).
  rewrite forallb_forall in H.
  specialize (H _ (calculateBaseloadSurgeScore_range data)).
  rewrite forallb_forall in H.
  specialize (H _ (calculateDemandSpikeScore_range data)).
  rewrite forallb_forall in H.
  specialize (H _ (calculateCriticalHoursScore_range data)).
  rewrite forallb_forall in H.
  exact (H _ (calculateSystemImbalanceScore_range data)).
Qed.

(** ** The total score *)

Lemma total_ok_all : forall_scores total_ok = true.
Proof. vm_compute. reflexivity. Qed.

Lemma total_ok_computeScores data :
  let h := reserveDataPresent data in
  let scores := computeScores data h in
  let t := totalOf scores h in
  0 <= t <= 100
  /\ is_finite (rawTotal scores h) = true
  /\ ((weightedSum scores (activeWeights h) =? 95)%float = true ->
      3 <= countAtLeast 80 scores ->
      Math_round (rawTotal scores h) = 110 /\ t = 100).
Proof.
  intros h scores t.
  pose proof (forall_scores_computeScores _ total_ok_all data h) as H.
  fold scores in H. unfold total_ok in H. rewrite forallb_forall in H.
  assert (Hin : In h [true; false]) by (destruct h; simpl; tauto).
  specialize (H h Hin). cbv zeta in H. fold t in H.
  apply andb_prop in H as [H H4]. apply andb_prop in H as [H H3].
  apply andb_prop in H as [H1 H2].
  split; [lia|]. split; [exact H3|].
  intros H95 Hc. rewrite H95 in H4.
  apply Z.leb_le in Hc. rewrite Hc in H4. simpl in H4.
  apply andb_prop in H4 as [Ha Hb]. lia.
Qed.

(** The argument of [Math.round] in [calculateRiskScore] is always finite. *)
Lemma rawTotal_finite data :
  is_finite (rawTotal (computeScores data (reserveDataPresent data))
                      (reserveDataPresent data)) = true.
Proof. apply (total_ok_computeScores data). Qed.

(** C1: for every input (whatever its numeric fields hold), [totalScore] is
    an integer between 0 and 100; it is the rounded sum of the weighted
    sub-scores and the synergy bonus, a finite number, clamped to 100; and
    when the weighted sum is 95 and at least three sub-scores are 80 or
    more, the rounded sum is 110 and the reported total is 100. *)
Theorem totalScore_bounded_and_clamped (data : RiskInput.t) :
  let r := calculateRiskScore data in
  let scores := RiskScore.components r in
  let h := RiskScore.hasReserveData r in
  0 <= RiskScore.totalScore r <= 100
  /\ RiskScore.totalScore r
     = Z.min 100 (Math_round (weightedSum scores (activeWeights h)
                              + Z2F (calculateSynergyBonus scores)))
  /\ is_finite (weightedSum scores (activeWeights h)
                + Z2F (calculateSynergyBonus scores)) = true
  /\ ((weightedSum scores (activeWeights h) =? 95)%float = true ->
      3 <= countAtLeast 80 scores ->
      Math_round (weightedSum scores (activeWeights h)
                  + Z2F (calculateSynergyBonus scores)) = 110
      /\ RiskScore.totalScore r = 100).
Proof.
  cbv zeta. cbn [calculateRiskScore RiskScore.totalScore RiskScore.components
                 RiskScore.hasReserveData].
  pose proof (total_ok_computeScores data) as (Hb & Hfin & H95).
  split; [exact Hb|]. split; [reflexivity|]. split; [exact Hfin|]. exact H95.
Qed.

Lemma totalScore_bounded_and_clamped_witness :
  (weightedSum (RiskScore.components (calculateRiskScore boundary95))
               (activeWeights true) =? 95)%float = true
  /\ 3 <= countAtLeast 80 (RiskScore.components (calculateRiskScore boundary95))
  /\ RiskScore.totalScore (calculateRiskScore boundary95) = 100.
Proof.
  split; [vm_compute; reflexivity|].
  split; [vm_compute; discriminate|].
  apply (totalScore_bounded_and_clamped boundary95);
    [vm_compute; reflexivity | vm_compute; discriminate].
Defined.

(** C5: scenario 1 (weekday 18:00, reserve deficit of 1000 MW, renewable
    drop of 2100 MW, baseload surge of 1600 MW) has reserve data, sub-scores
    100 for reserve margin, renewable drop, baseload surge and critical
    hours, total score 100 and risk level critical. *)
Theorem scenario1_critical :
  let r := calculateRiskScore scenario1 in
  RiskScore.hasReserveData r = true
  /\ Scores.reserveMargin (RiskScore.components r) = Some 100
  /\ Scores.renewableDropRate (RiskScore.components r) = 100
  /\ Scores.baseloadSurge (RiskScore.components r) = 100
  /\ Scores.criticalHours (RiskScore.components r) = 100
  /\ RiskScore.totalScore r = 100
  /\ RiskScore.riskLevel r = critical.
Proof. vm_compute. repeat split. Qed.

(** C8: the risk level is a function of the total score alone, with the
    breakpoints 25, 50 and 75: at most 25 is low, at most 50 medium, at most
    75 high, above 75 critical; [RiskLevel] has no other value. *)
Theorem riskLevel_breakpoints :
  (forall data,
      RiskScore.riskLevel (calculateRiskScore data)
      = getRiskLevel (RiskScore.totalScore (calculateRiskScore data)))
  /\ (forall score : Z,
         (getRiskLevel score = low <-> score <= 25)
         /\ (getRiskLevel score = medium <-> 25 < score <= 50)
         /\ (getRiskLevel score = high <-> 50 < score <= 75)
         /\ (getRiskLevel score = critical <-> 75 < score))
  /\ (forall l : RiskLevel, l = low \/ l = medium \/ l = high \/ l = critical).
Proof.
  split; [reflexivity|]. split.
  - intro score. unfold getRiskLevel, thresholds.
    destruct (Z.leb_spec score 25); [repeat split; intros; try lia; try discriminate|].
    destruct (Z.leb_spec score 50); [repeat split; intros; try lia; try discriminate|].
    destruct (Z.leb_spec score 75); repeat split; intros; try lia; try discriminate.
  - intros []; tauto.
Qed.

(** ** Missing reserve data *)

Lemma reserveDataPresent_false_iff data :
  reserveDataPresent data = false
  <-> (RiskInput.hasReserveData data = Some false
       \/ RiskInput.availableReserve data = None
       \/ RiskInput.requiredReserve data = None).
Proof.
  unfold reserveDataPresent, defined.
  destruct (RiskInput.hasReserveData data) as [[|]|],
           (RiskInput.availableReserve data),
           (RiskInput.requiredReserve data); simpl;
    split; intros H; try discriminate; auto;
    repeat (destruct H as [H|H]; try discriminate).
Qed.

(** C2: without reserve data (the flag is false or a reserve field is
    undefined) the reserve-margin component is [null], the weighted sum runs
    over the five other factors only, each with weight w + (w / 65) * 35, the
    five weights sum to 100, and the data quality is partial; it is complete
    exactly when reserve data is present. *)
Theorem reserve_weight_redistributed (data : RiskInput.t) :
  let r := calculateRiskScore data in
  let scores := RiskScore.components r in
  (reserveDataPresent data = false
   <-> (RiskInput.hasReserveData data = Some false
        \/ RiskInput.availableReserve data = None
        \/ RiskInput.requiredReserve data = None))
  /\ (RiskScore.dataQuality r = partial <-> reserveDataPresent data = false)
  /\ (RiskScore.dataQuality r = complete <-> reserveDataPresent data = true)
  /\ activeWeights false
     = map (fun k => (k, (weight k + (weight k / 65) * 35)%float)) remainingKeys
  /\ sumNumbers (map snd (activeWeights false)) = 100%float
  /\ (Math_abs (sumNumbers (map snd (activeWeights false)) - 100) <=? 1e-9)%float
     = true
  /\ (reserveDataPresent data = false ->
      Scores.reserveMargin scores = None
      /\ RiskScore.hasReserveData r = false
      /\ RiskScore.totalScore r
         = Z.min 100 (Math_round
             (0 + Z2F (Scores.renewableDropRate scores) * (25 + 25 / 65 * 35) / 100
                + Z2F (Scores.baseloadSurge scores) * (15 + 15 / 65 * 35) / 100
                + Z2F (Scores.demandSpike scores) * (10 + 10 / 65 * 35) / 100
                + Z2F (Scores.criticalHours scores) * (10 + 10 / 65 * 35) / 100
                + Z2F (Scores.systemImbalance scores) * (5 + 5 / 65 * 35) / 100
                + Z2F (calculateSynergyBonus scores))%float)).
Proof.
  cbv zeta.
  split; [apply reserveDataPresent_false_iff|].
  cbn [calculateRiskScore RiskScore.dataQuality RiskScore.components
       RiskScore.totalScore RiskScore.hasReserveData].
  split; [destruct (reserveDataPresent data); split; congruence|].
  split; [destruct (reserveDataPresent data); split; congruence|].
  split; [vm_compute; reflexivity|].
  split; [vm_compute; reflexivity|].
  split; [vm_compute; reflexivity|].
  intros ->. split; [reflexivity|]. split; [reflexivity|].
  unfold totalOf, rawTotal, weightedSum.
  replace (activeWeights false)
    with (map (fun k => (k, (weight k + (weight k / 65) * 35)%float)) remainingKeys)
    by (vm_compute; reflexivity).
  reflexivity.
Qed.

Lemma reserve_weight_redistributed_witness :
  reserveDataPresent scenario2 = false
  /\ Scores.reserveMargin (RiskScore.components (calculateRiskScore scenario2))
     = None.
Proof.
  split; [reflexivity|].
  apply (reserve_weight_redistributed scenario2). reflexivity.
Defined.

(** ** Missing and falsy numeric fields *)

Lemma or_else_falsy v d : falsy v = true -> or_else v d = d.
Proof.
  destruct v as [x|]; simpl; [|reflexivity].
  destruct (truthy x); [discriminate | reflexivity].
Qed.

Lemma getField_setField f v data : getField f (setField f v data) = v.
Proof. destruct data, f; reflexivity. Qed.

Lemma calculateRiskScore_fallback f data :
  falsy (getField f data) = true ->
  calculateRiskScore data = calculateRiskScore (setField f (Some (fallback f)) data).
Proof.
  intros H.
  destruct data, f; cbn in H;
    unfold calculateRiskScore, getDetailedFactors, collectFactors,
      reserveMarginFactor, renewableDropFactor, baseloadSurgeFactor,
      demandSpikeFactor, criticalHoursFactor,
      getRecommendations, thresholdAdvisories, computeScores,
      reserveDataPresent, calculateReserveMarginScore,
      calculateRenewableDropScore, calculateBaseloadSurgeScore,
      calculateDemandSpikeScore, calculateCriticalHoursScore,
      calculateSystemImbalanceScore;
    cbn [setField fallback RiskInput.hour RiskInput.dayOfWeek
         RiskInput.systemLoad RiskInput.pvGeneration RiskInput.windGeneration
         RiskInput.baseloadGeneration RiskInput.powerExchange
         RiskInput.availableReserve RiskInput.requiredReserve
         RiskInput.hasReserveData RiskInput.pvDelta RiskInput.windDelta
         RiskInput.baseloadDelta RiskInput.demandDelta RiskInput.pvGradient
         RiskInput.windGradient];
    rewrite !(or_else_falsy _ _ H);
    reflexivity.
Qed.

Lemma calculateRiskScore_falsy f v data :
  falsy (getField f data) = true ->
  falsy v = true ->
  calculateRiskScore data = calculateRiskScore (setField f v data).
Proof.
  intros H Hv.
  rewrite (calculateRiskScore_fallback f data H).
  rewrite (calculateRiskScore_fallback f (setField f v data))
    by (rewrite getField_setField; exact Hv).
  destruct data, f; reflexivity.
Qed.

(** A zero numerator gives a rate of [+0], [-0] or [NaN], whatever the
    divisor; no bound of the demand-spike scale is below it. *)
Lemma zero_rate_below (sl : number) :
  (5 <? 0 / sl * 100)%float = false /\ (3 <? 0 / sl * 100)%float = false
  /\ (2 <? 0 / sl * 100)%float = false /\ (1 <? 0 / sl * 100)%float = false.
Proof.
  rewrite !ltb_spec, !mul_spec, !div_spec.
  replace (Prim2SF 0) with (S754_zero false) by (vm_compute; reflexivity).
  replace (Prim2SF 100) with (S754_finite false 7036874417766400 (-46))
    by (vm_compute; reflexivity).
  replace (Prim2SF 5) with (S754_finite false 5629499534213120 (-50))
    by (vm_compute; reflexivity).
  replace (Prim2SF 3) with (S754_finite false 6755399441055744 (-51))
    by (vm_compute; reflexivity).
  replace (Prim2SF 2) with (S754_finite false 4503599627370496 (-51))
    by (vm_compute; reflexivity).
  replace (Prim2SF 1) with (S754_finite false 4503599627370496 (-52))
    by (vm_compute; reflexivity).
  destruct (Prim2SF sl) as [[|]|[|]| |[|] m e]; repeat split; reflexivity.
Qed.

Lemma calculateDemandSpikeScore_no_delta data :
  falsy (RiskInput.demandDelta data) = true ->
  calculateDemandSpikeScore data = 0.
Proof.
  intros H. unfold calculateDemandSpikeScore; cbv zeta.
  rewrite (or_else_falsy _ _ H).
  destruct (zero_rate_below (or_else (RiskInput.systemLoad data) 20000))
    as (-> & -> & -> & ->).
  reflexivity.
Qed.

(** C3, as the code has it: a missing or falsy pvDelta, windDelta,
    baseloadDelta, demandDelta, pvGradient, windGradient or powerExchange is
    read as 0 and a missing or falsy systemLoad as 20000; in all eight cases
    the whole result is the one of the same input with the field set to 0
    (or to any other falsy value), and also the one with the field set to
    its fallback; a falsy delta, gradient or exchange contributes no signal.
    The scorer is a total function: it returns a result on every input. *)
Theorem missing_field_uses_fallback (f : NumField) (data : RiskInput.t) :
  falsy (getField f data) = true ->
  calculateRiskScore data = calculateRiskScore (setField f (Some 0%float) data)
  /\ calculateRiskScore data
     = calculateRiskScore (setField f (Some (fallback f)) data)
  /\ (forall v, falsy v = true ->
        calculateRiskScore data = calculateRiskScore (setField f v data))
  /\ (fallback f = if match f with F_systemLoad => true | _ => false end
                   then 20000%float else 0%float)
  /\ (f = F_baseloadDelta -> calculateBaseloadSurgeScore data = 0)
  /\ (f = F_demandDelta -> calculateDemandSpikeScore data = 0)
  /\ (f = F_powerExchange -> calculateSystemImbalanceScore data = 0)
  /\ (f = F_pvDelta -> falsy (RiskInput.windDelta data) = true ->
      falsy (RiskInput.pvGradient data) = true ->
      falsy (RiskInput.windGradient data) = true ->
      calculateRenewableDropScore data = 0).
Proof.
  intros H.
  split; [apply calculateRiskScore_falsy; [exact H | reflexivity]|].
  split; [apply calculateRiskScore_fallback; exact H|].
  split; [intros v Hv; apply calculateRiskScore_falsy; assumption|].
  split; [destruct f; reflexivity|].
  split; [intros ->; cbn in H; unfold calculateBaseloadSurgeScore; cbv zeta;
          rewrite (or_else_falsy _ _ H);
          destruct ((16 <=? RiskInput.hour data) && (RiskInput.hour data <=? 20));
          reflexivity|].
  split; [intros ->; apply calculateDemandSpikeScore_no_delta; exact H|].
  split; [intros ->; cbn in H; unfold calculateSystemImbalanceScore; cbv zeta;
          rewrite (or_else_falsy _ _ H); reflexivity|].
  intros -> Hw Hpg Hwg. cbn in H. unfold calculateRenewableDropScore; cbv zeta.
  rewrite (or_else_falsy _ _ H), (or_else_falsy _ _ Hw),
    (or_else_falsy _ _ Hpg), (or_else_falsy _ _ Hwg).
  reflexivity.
Qed.

Lemma missing_field_uses_fallback_witness :
  falsy (getField F_pvGradient scenario1) = true
  /\ calculateRiskScore scenario1
     = calculateRiskScore (setField F_pvGradient (Some 0%float) scenario1).
Proof.
  split; [reflexivity|].
  exact (proj1 (missing_field_uses_fallback F_pvGradient scenario1 eq_refl)).
Defined.

(** C3, as stated, fails for [systemLoad]: with the property missing and a
    demand rise of 900 MW the code divides by 20000 and scores 60, whereas a
    system load defaulting to 0 gives an infinite rate and the score 100. *)
Lemma missing_systemLoad_is_not_zero :
  falsy (getField F_systemLoad scenario1_noLoad) = true
  /\ calculateDemandSpikeScore scenario1_noLoad = 60
  /\ calculateDemandSpikeScore_as_specified scenario1_noLoad = 100
  /\ calculateDemandSpikeScore scenario1_noLoad
     <> calculateDemandSpikeScore_as_specified scenario1_noLoad.
Proof. vm_compute. repeat split; discriminate. Qed.

(** ** Recommendations *)

Lemma scenario3_scores sl pv wind bl :
  computeScores (scenario3 sl pv wind bl) false = Scores.mk None 0 0 0 0 0.
Proof.
  unfold computeScores.
  rewrite calculateDemandSpikeScore_no_delta by reflexivity.
  reflexivity.
Qed.

(** C6, as the code has it: on a weekend night with no change in any signal
    and no reserve data, the reserve-margin component is withheld, the five
    other sub-scores are 0, the total is 0, the level is low, the only factor
    is the informational no-reserve-data entry, and the recommendations are
    the no-reserve-data line followed by the limited-analysis advisory. *)
Theorem scenario3_low sl pv wind bl :
  let r := calculateRiskScore (scenario3 sl pv wind bl) in
  RiskScore.components r = Scores.mk None 0 0 0 0 0
  /\ RiskScore.totalScore r = 0
  /\ RiskScore.riskLevel r = low
  /\ RiskScore.hasReserveData r = false
  /\ RiskScore.dataQuality r = partial
  /\ RiskScore.factors r = [noReserveFactor]
  /\ RiskScore.recommendations r = [REC_NO_RESERVE; REC_LIMITED].
Proof.
  cbv zeta. unfold calculateRiskScore.
  change (reserveDataPresent (scenario3 sl pv wind bl)) with false.
  rewrite scenario3_scores.
  cbn [RiskScore.components RiskScore.totalScore RiskScore.riskLevel
       RiskScore.hasReserveData RiskScore.dataQuality RiskScore.factors
       RiskScore.recommendations].
  repeat split.
Qed.

(** C6, as stated, fails: the stable-situation advisory is not among the
    recommendations of the scenario; the array has exactly the
    no-reserve-data line and the limited-analysis advisory. *)
Lemma scenario3_not_stable :
  let r := calculateRiskScore
             (scenario3 (Some 20000%float) (Some 0%float) (Some 0%float)
                        (Some 10000%float)) in
  RiskScore.recommendations r = [REC_NO_RESERVE; REC_LIMITED]
  /\ ~ In REC_STABLE (RiskScore.recommendations r).
Proof.
  cbv zeta. split; [vm_compute; reflexivity|].
  replace (RiskScore.recommendations _) with [REC_NO_RESERVE; REC_LIMITED]
    by (vm_compute; reflexivity).
  intros [H|[H|[]]]; discriminate H.
Qed.

(** A single triggered advisory is never mistaken for the no-reserve-data
    line by the [includes('Brak danych')] test. *)
Lemma single_advisory_not_info scores data h :
  (List.length (thresholdAdvisories scores data h) =? 1)%nat
  && includes "Brak danych"
       (List.nth 0 (thresholdAdvisories scores data h) ""%string) = false.
Proof.
  unfold thresholdAdvisories, push_if; cbv zeta.
  destruct (Scores.reserveMargin scores); split_bools; reflexivity.
Qed.

Lemma getRecommendations_cases scores data h :
  let triggered := thresholdAdvisories scores data h in
  (triggered = [] ->
   getRecommendations scores data h
   = if h then [REC_STABLE] else [REC_NO_RESERVE; REC_LIMITED])
  /\ (triggered <> [] ->
      getRecommendations scores data h
      = (if h then [] else [REC_NO_RESERVE]) ++ triggered).
Proof.
  cbv zeta. unfold getRecommendations; cbv zeta.
  pose proof (single_advisory_not_info scores data h) as Hs.
  destruct (thresholdAdvisories scores data h) as [|a l] eqn:E.
  - split; [intros _ | intros H; now contradiction H].
    destruct h; reflexivity.
  - split; [discriminate | intros _].
    destruct h.
    + cbn [negb push_if app]. cbn [negb push_if app] in Hs.
      rewrite Hs. reflexivity.
    + unfold push_if. cbn [negb app List.length].
      destruct l; reflexivity.
Qed.

(** C10: the recommendations are never empty.  When no threshold triggers an
    advisory, the array is the stable-situation advisory alone if reserve
    data is present, and the no-reserve-data line followed by the
    limited-analysis advisory if it is absent; otherwise it is the triggered
    advisories, after the no-reserve-data line when reserve data is absent. *)
Theorem recommendations_nonempty (data : RiskInput.t) :
  let r := calculateRiskScore data in
  let h := RiskScore.hasReserveData r in
  let triggered := thresholdAdvisories (RiskScore.components r) data h in
  RiskScore.recommendations r <> []
  /\ (triggered = [] ->
      RiskScore.recommendations r
      = if h then [REC_STABLE] else [REC_NO_RESERVE; REC_LIMITED])
  /\ (triggered <> [] ->
      RiskScore.recommendations r
      = (if h then [] else [REC_NO_RESERVE]) ++ triggered).
Proof.
  cbv zeta.
  cbn [calculateRiskScore RiskScore.recommendations RiskScore.components
       RiskScore.hasReserveData].
  set (h := reserveDataPresent data). set (scores := computeScores data h).
  destruct (getRecommendations_cases scores data h) as [H0 H1].
  split; [|split; assumption].
  destruct (thresholdAdvisories scores data h) as [|a l] eqn:E.
  - rewrite H0 by reflexivity. destruct h; discriminate.
  - rewrite H1 by discriminate. destruct h; discriminate.
Qed.

Lemma recommendations_nonempty_witness :
  thresholdAdvisories (RiskScore.components (calculateRiskScore quietNight))
                      quietNight true = []
  /\ RiskScore.recommendations (calculateRiskScore quietNight) = [REC_STABLE].
Proof.
  split; [vm_compute; reflexivity|].
  exact (proj1 (proj2 (recommendations_nonempty quietNight)) eq_refl).
Defined.

(** ** Factor descriptors *)

Lemma insert_perm {A} (cmp : A -> A -> Z) a l :
  Permutation (insert cmp a l) (a :: l).
Proof.
  induction l as [|b t IH]; simpl; [reflexivity|].
  destruct (cmp a b <=? 0); [reflexivity|].
  rewrite IH. apply perm_swap.
Qed.

Lemma sort_perm {A} (cmp : A -> A -> Z) l : Permutation (sort cmp l) l.
Proof.
  induction l as [|a t IH]; simpl; [reflexivity|].
  rewrite insert_perm. now constructor.
Qed.

(** An informational entry goes behind every entry of the array. *)
Lemma insert_info a l :
  Descriptor.info a = true -> insert compareFactors a l = l ++ [a].
Proof.
  intros Ha. induction l as [|b t IH]; simpl; [reflexivity|].
  unfold compareFactors at 1. rewrite Ha. simpl. now rewrite IH.
Qed.

(** Among entries that are not informational, insertion keeps the array in
    descending order of impact. *)
Lemma insert_sorted a l :
  Descriptor.info a = false ->
  Forall (fun d => Descriptor.info d = false) l ->
  StronglySorted impact_ge l ->
  StronglySorted impact_ge (insert compareFactors a l).
Proof.
  intros Ha Hl Hs. induction Hs as [|b t Hs IH Hb]; simpl.
  - repeat constructor.
  - inversion Hl as [|? ? Hbi Ht]; subst.
    unfold compareFactors at 1. rewrite Ha, Hbi.
    destruct (Z.leb_spec (Descriptor.impact b - Descriptor.impact a) 0) as [Hle|Hgt].
    + constructor; [now constructor|].
      constructor; [unfold impact_ge; lia|].
      eapply Forall_impl; [|exact Hb].
      unfold impact_ge. intros; lia.
    + constructor; [now apply IH|].
      eapply Permutation_Forall; [symmetry; apply insert_perm|].
      constructor; [unfold impact_ge; lia | exact Hb].
Qed.

Lemma sort_sorted l :
  Forall (fun d => Descriptor.info d = false) l ->
  StronglySorted impact_ge (sort compareFactors l).
Proof.
  induction 1 as [|a t Ha Ht IH]; simpl; [constructor|].
  apply insert_sorted; [exact Ha| |exact IH].
  eapply Permutation_Forall; [symmetry; apply sort_perm | exact Ht].
Qed.

(** The array before sorting: entries that are not informational, after the
    no-reserve-data entry when reserve data is absent. *)
Lemma collectFactors_shape scores data h :
  exists shown,
    Forall (fun d => Descriptor.info d = false) shown
    /\ collectFactors scores data h
       = (if h then [] else [noReserveFactor]) ++ shown.
Proof.
  unfold collectFactors, push_if; cbv zeta.
  destruct h, (Scores.reserveMargin scores); cbn [negb andb];
    split_bools; cbn [app];
    eexists; (split; [|reflexivity]); repeat constructor.
Qed.

Lemma getDetailedFactors_shape scores data h :
  exists shown,
    getDetailedFactors scores data h
    = shown ++ (if h then [] else [noReserveFactor])
    /\ Forall (fun d => Descriptor.info d = false) shown
    /\ StronglySorted impact_ge shown.
Proof.
  destruct (collectFactors_shape scores data h) as (shown & Hs & E).
  exists (sort compareFactors shown).
  unfold getDetailedFactors. rewrite E.
  split; [|split].
  - destruct h; cbn [app sort fold_right].
    + now rewrite app_nil_r.
    + now apply insert_info.
  - eapply Permutation_Forall; [symmetry; apply sort_perm | exact Hs].
  - now apply sort_sorted.
Qed.

Lemma In_push_if_old {A} (c : bool) (x y : A) l :
  In x l -> In x (push_if c y l).
Proof. unfold push_if. destruct c; [intros; apply in_or_app; now left | trivial]. Qed.

Lemma In_push_if_new {A} (y : A) l : In y (push_if true y l).
Proof. unfold push_if. apply in_or_app. right. now left. Qed.

Lemma computeScores_get_range data h k s :
  Scores.get (computeScores data h) k = Some s -> In s all_scores.
Proof.
  destruct k; cbn [Scores.get computeScores Scores.reserveMargin
    Scores.renewableDropRate Scores.baseloadSurge Scores.demandSpike
    Scores.criticalHours Scores.systemImbalance]; intros E.
  - assert (Hr : In (Some s) (None :: map Some reserveMargin_scores)).
    { rewrite <- E. destruct h; [apply calculateReserveMarginScore_range | now left]. }
    simpl in Hr.
    repeat (destruct Hr as [Hr|Hr]; [try discriminate; injection Hr as <-; simpl; tauto|]).
    contradiction.
  - injection E as <-. pose proof (calculateRenewableDropScore_range data) as Hr.
    simpl in Hr. simpl. intuition.
  - injection E as <-. pose proof (calculateBaseloadSurgeScore_range data) as Hr.
    simpl in Hr. simpl. intuition.
  - injection E as <-. pose proof (calculateDemandSpikeScore_range data) as Hr.
    simpl in Hr. simpl. intuition.
  - injection E as <-. pose proof (calculateCriticalHoursScore_range data) as Hr.
    simpl in Hr. simpl. intuition.
  - injection E as <-. pose proof (calculateSystemImbalanceScore_range data) as Hr.
    simpl in Hr. simpl. intuition.
Qed.

(** The argument of [Math.round] in a descriptor is always finite. *)
Lemma impact_arg_finite data h k s :
  Scores.get (computeScores data h) k = Some s ->
  is_finite (Z2F s * shownWeight h k / 100)%float = true.
Proof.
  intros E. apply computeScores_get_range in E. simpl in E.
  repeat (destruct E as [<-|E]; [destruct h, k; vm_compute; reflexivity|]).
  contradiction.
Qed.

Lemma shown_descriptor_collected data h k s :
  In k shownKeys ->
  Scores.get (computeScores data h) k = Some s ->
  s <> 0 ->
  exists d, In d (collectFactors (computeScores data h) data h)
            /\ Descriptor.info d = false
            /\ Descriptor.impact d = Math_round (Z2F s * shownWeight h k / 100).
Proof.
  intros Hk E Hs.
  assert (Hpos : (0 <? s) = true).
  { pose proof (computeScores_get_range _ _ _ _ E) as Hr. simpl in Hr.
    apply Z.ltb_lt. intuition lia. }
  unfold collectFactors; cbv zeta.
  simpl in Hk. destruct Hk as [<-|[<-|[<-|[<-|[<-|[]]]]]];
    unfold Scores.get in E.
  - exists (reserveMarginFactor s data).
    split; [|split; [reflexivity|]].
    + do 4 apply In_push_if_old. rewrite E.
      assert (h = true) as ->.
      { destruct h; [reflexivity|]. cbn in E. discriminate. }
      rewrite Hpos. cbn [andb app]. now left.
    + destruct h; reflexivity.
  - injection E as <-.
    exists (renewableDropFactor (computeScores data h) data h).
    split; [|split; reflexivity].
    do 3 apply In_push_if_old.
    replace (0 <? Scores.renewableDropRate (computeScores data h)) with true
      by (symmetry; exact Hpos).
    apply In_push_if_new.
  - injection E as <-.
    exists (baseloadSurgeFactor (computeScores data h) data h).
    split; [|split; reflexivity].
    do 2 apply In_push_if_old.
    replace (0 <? Scores.baseloadSurge (computeScores data h)) with true
      by (symmetry; exact Hpos).
    apply In_push_if_new.
  - injection E as <-.
    exists (demandSpikeFactor (computeScores data h) data h).
    split; [|split; reflexivity].
    apply In_push_if_old.
    replace (0 <? Scores.demandSpike (computeScores data h)) with true
      by (symmetry; exact Hpos).
    apply In_push_if_new.
  - injection E as <-.
    exists (criticalHoursFactor (computeScores data h) data h).
    split; [|split; reflexivity].
    replace (0 <? Scores.criticalHours (computeScores data h)) with true
      by (symmetry; exact Hpos).
    apply In_push_if_new.
Qed.

(** C7, as the code has it: each of reserve margin, renewable drop, baseload
    surge, demand spike and critical hours with a non-zero sub-score has a
    descriptor whose impact is round(subscore * w / 100), where w is the
    configured weight when reserve data is present and the literal 38, 23,
    15 or 15 when it is absent; informational entries have impact 0 and come
    after all others, which are in descending order of impact. *)
Theorem factors_impact_and_order (data : RiskInput.t) :
  let r := calculateRiskScore data in
  let h := RiskScore.hasReserveData r in
  (forall k s,
      In k shownKeys ->
      Scores.get (RiskScore.components r) k = Some s ->
      s <> 0 ->
      exists d, In d (RiskScore.factors r)
                /\ Descriptor.info d = false
                /\ Descriptor.impact d
                   = Math_round (Z2F s * shownWeight h k / 100))
  /\ (forall k, shownWeight true k = weight k)
  /\ map (shownWeight false) shownKeys = [35; 38; 23; 15; 15]%float
  /\ (forall d, In d (RiskScore.factors r) ->
                Descriptor.info d = true -> Descriptor.impact d = 0)
  /\ (exists shown infos,
         RiskScore.factors r = shown ++ infos
         /\ Forall (fun d => Descriptor.info d = false) shown
         /\ Forall (fun d => Descriptor.info d = true) infos
         /\ StronglySorted impact_ge shown).
Proof.
  cbv zeta.
  cbn [calculateRiskScore RiskScore.factors RiskScore.components
       RiskScore.hasReserveData].
  set (h := reserveDataPresent data).
  destruct (getDetailedFactors_shape (computeScores data h) data h)
    as (shown & E & Hshown & Hsorted).
  split; [|split; [reflexivity|split; [reflexivity|split]]].
  - intros k s Hk Hget Hs.
    destruct (shown_descriptor_collected data h k s Hk Hget Hs)
      as (d & Hin & Hinfo & Himp).
    exists d. split; [|split; assumption].
    unfold getDetailedFactors.
    eapply Permutation_in; [symmetry; apply sort_perm | exact Hin].
  - intros d Hin Hinfo. rewrite E in Hin.
    apply in_app_or in Hin as [Hin|Hin].
    + rewrite Forall_forall in Hshown. rewrite (Hshown d Hin) in Hinfo.
      discriminate.
    + destruct h; [contradiction|].
      destruct Hin as [<-|[]]. reflexivity.
  - exists shown, (if h then [] else [noReserveFactor]).
    split; [exact E|]. split; [exact Hshown|]. split; [|exact Hsorted].
    destruct h; repeat constructor.
Qed.

Lemma factors_impact_and_order_witness :
  In K_renewableDropRate shownKeys
  /\ Scores.get (RiskScore.components (calculateRiskScore steepDrop))
                K_renewableDropRate = Some 80
  /\ 80 <> 0
  /\ exists d, In d (RiskScore.factors (calculateRiskScore steepDrop))
               /\ Descriptor.info d = false
               /\ Descriptor.impact d
                  = Math_round (Z2F 80 * shownWeight false K_renewableDropRate / 100).
Proof.
  split; [simpl; tauto|]. split; [reflexivity|]. split; [discriminate|].
  refine (proj1 (factors_impact_and_order steepDrop) K_renewableDropRate 80 _ _ _).
  - simpl; tauto.
  - reflexivity.
  - discriminate.
Defined.

(** C7, as stated, fails.  Without reserve data a renewable-drop sub-score of
    80 has the effective weight 38.46..., whose rounded share is 31, while
    the only descriptors have impact 30 and 0; and a system-imbalance
    sub-score of 100 (effective weight 5) has no descriptor at all. *)
Lemma factors_do_not_use_effective_weights :
  ~ factors_use_effective_weights steepDrop
  /\ ~ factors_use_effective_weights largeExchange.
Proof.
  split; intros H.
  - destruct (H K_renewableDropRate 80 38.46153846153846%float)
      as (d & Hin & Himp); [reflexivity | discriminate | reflexivity |].
    vm_compute in Hin. destruct Hin as [<-|[<-|[]]]; vm_compute in Himp; discriminate.
  - destruct (H K_systemImbalance 100 5%float)
      as (d & Hin & Himp); [reflexivity | discriminate | reflexivity |].
    vm_compute in Hin. exact Hin.
Qed.

(** ** The snapshot builder *)

(** Two numbers on different sides of a bound are different. *)
Lemma number_neq (bound a b : number) :
  (a <? bound)%float = true -> (b <? bound)%float = false -> a <> b.
Proof. intros Ha Hb E. rewrite E in Ha. congruence. Qed.

Lemma finite_not_special x :
  is_finite x = true ->
  Prim2SF x <> S754_nan /\ forall s, Prim2SF x <> S754_infinity s.
Proof.
  unfold is_finite. intros H. apply negb_true_iff, orb_false_iff in H as [Hn Hi].
  pose proof (Prim2SF_valid x) as Hv.
  unfold Prim2SF in *. rewrite Hn, Hi in *.
  destruct (is_zero x); [split; [|intros s]; discriminate|].
  destruct (Z.frexp x) as [r ex].
  destruct (shr_fexp prec emax (Uint63Axioms.to_Z (normfr_mantissa r)) (ex - prec) loc_Exact)
    as [sh e'].
  destruct (shr_m sh); split; try intros s; discriminate.
Qed.

(** In binary64 a finite number minus itself is [+0]. *)
Lemma sub_diag (x : number) : is_finite x = true -> (x - x)%float = 0%float.
Proof.
  intros H. apply finite_not_special in H as [Hn Hi].
  apply Prim2SF_inj. rewrite sub_spec.
  replace (Prim2SF 0) with (S754_zero false) by (vm_compute; reflexivity).
  destruct (Prim2SF x) as [s|s| |s m e].
  - destruct s; reflexivity.
  - now contradiction (Hi s).
  - now contradiction Hn.
  - unfold SF64sub, SFsub. rewrite Z.sub_diag. reflexivity.
Qed.

(** The volatility factor of the six future days leaves a zero delta zero. *)
Lemma zero_scaled dayOffset :
  1 <= dayOffset <= 6 -> (0 * (1 + Z2F dayOffset * 0.2))%float = 0%float.
Proof.
  intros H.
  assert (C : dayOffset = 1 \/ dayOffset = 2 \/ dayOffset = 3
              \/ dayOffset = 4 \/ dayOffset = 5 \/ dayOffset = 6) by lia.
  repeat (destruct C as [->|C]; [vm_compute; reflexivity|]).
  subst. vm_compute. reflexivity.
Qed.

Lemma deltasAt_hour0 data hour :
  hour <= 0 ->
  deltasAt data hour = Deltas.mk 0%float 0%float 0%float 0%float 0%float 0%float.
Proof.
  intros H. unfold deltasAt; cbv zeta.
  destruct (Z.ltb_spec 0 hour); [lia | reflexivity].
Qed.

Lemma deltasAt_gradients data hour :
  hour <= 1 ->
  Deltas.pvGradient (deltasAt data hour) = 0%float
  /\ Deltas.windGradient (deltasAt data hour) = 0%float.
Proof.
  intros H. unfold deltasAt; cbv zeta.
  destruct (0 <? hour); [|split; reflexivity].
  destruct (Z.ltb_spec 1 hour); [lia | split; reflexivity].
Qed.

Lemma deltasAt_same_hours data data' hour :
  same_hours data data' hour -> deltasAt data hour = deltasAt data' hour.
Proof.
  intros (Hh & Hq & Hf).
  destruct (Hh hour ltac:(lia)) as (P0 & W0 & L0).
  destruct (Hh (hour - 1) ltac:(lia)) as (P1 & W1 & L1).
  destruct (Hh (hour - 2) ltac:(lia)) as (P2 & W2 & L2).
  pose proof (Hq (hour * 4) (or_introl eq_refl)) as Q0.
  pose proof (Hq ((hour - 1) * 4) (or_intror eq_refl)) as Q1.
  unfold deltasAt, systemLoadAt, pvGenerationAt, windGenerationAt,
    baseloadGenerationAt, ChartData.field; cbv zeta.
  rewrite P0, P1, P2, W0, W1, W2, L0, L1, Q0, Q1.
  destruct (ChartData.fullGenerationData data) as [l|],
           (ChartData.fullGenerationData data') as [l'|];
    cbn [option_map] in Hf; try discriminate; [|reflexivity].
  injection Hf as ->. reflexivity.
Qed.

Section SnapshotFacts.

Variable Math_exp : number -> number.

Lemma cell_deltas data reservesData dayOffset hour dayOfWeek :
  let c := scoreDataOfCell Math_exp data reservesData dayOffset hour dayOfWeek in
  let base := deltasAt data hour in
  let volatility := (1 + Z2F dayOffset * 0.2)%float in
  RiskInput.pvDelta c
  = Some (if 0 <? dayOffset then (Deltas.pvDelta base * volatility)%float
          else Deltas.pvDelta base)
  /\ RiskInput.windDelta c
     = Some (if 0 <? dayOffset then (Deltas.windDelta base * volatility)%float
             else Deltas.windDelta base)
  /\ RiskInput.baseloadDelta c = Some (Deltas.baseloadDelta base)
  /\ RiskInput.demandDelta c = Some (Deltas.demandDelta base)
  /\ RiskInput.pvGradient c = Some (Deltas.pvGradient base)
  /\ RiskInput.windGradient c = Some (Deltas.windGradient base).
Proof.
  cbv zeta. unfold scoreDataOfCell.
  destruct (reservesAt reservesData dayOffset hour) as [[a r] h].
  destruct (0 <? dayOffset); repeat split.
Qed.

Lemma cell_levels data reservesData dayOffset hour dayOfWeek :
  let c := scoreDataOfCell Math_exp data reservesData dayOffset hour dayOfWeek in
  let decayFactor := Math_exp (- Z2F dayOffset * 0.1)%float in
  RiskInput.pvGeneration c
  = Some (if 0 <? dayOffset then (pvGenerationAt data hour * decayFactor)%float
          else pvGenerationAt data hour)
  /\ RiskInput.windGeneration c
     = Some (if 0 <? dayOffset then (windGenerationAt data hour * decayFactor)%float
             else windGenerationAt data hour)
  /\ RiskInput.systemLoad c
     = Some (if 0 <? dayOffset
             then (systemLoadAt data hour * (1 + Z2F dayOffset * 0.005))%float
             else systemLoadAt data hour)
  /\ RiskInput.baseloadGeneration c = Some (baseloadGenerationAt data hour)
  /\ RiskInput.powerExchange c = Some (powerExchangeAt data hour).
Proof.
  cbv zeta. unfold scoreDataOfCell.
  destruct (reservesAt reservesData dayOffset hour) as [[a r] h].
  destruct (0 <? dayOffset); repeat split.
Qed.

(** A delta whose preceding value is missing is zero, on every day of the
    grid. *)
Lemma scaled_delta_zero dayOffset (cur : number) :
  0 <= dayOffset <= 6 ->
  is_finite cur = true ->
  (if 0 <? dayOffset then ((cur - cur) * (1 + Z2F dayOffset * 0.2))%float
   else (cur - cur)%float) = 0%float.
Proof.
  intros Hd Hf. rewrite (sub_diag cur Hf).
  destruct (Z.ltb_spec 0 dayOffset); [|reflexivity].
  apply zero_scaled. lia.
Qed.

(** C9: on the seven days of the grid, a cell of hour 0 has zero pvDelta,
    windDelta, baseloadDelta and demandDelta; the gradients are zero when
    fewer than two hours precede; a delta whose preceding hourly value is
    missing (or falsy) is computed against the current value and is zero
    for any finite current value, rather than against 0, and so is a
    gradient whose two preceding values are missing; and the deltas and
    gradients are determined by the entries of the hour and of the two hours
    before it. *)
Theorem deltas_from_preceding_hours data reservesData dayOffset hour dayOfWeek :
  0 <= dayOffset <= 6 ->
  let c := scoreDataOfCell Math_exp data reservesData dayOffset hour dayOfWeek in
  (hour <= 0 ->
   RiskInput.pvDelta c = Some 0%float /\ RiskInput.windDelta c = Some 0%float
   /\ RiskInput.baseloadDelta c = Some 0%float
   /\ RiskInput.demandDelta c = Some 0%float)
  /\ (hour <= 1 ->
      RiskInput.pvGradient c = Some 0%float
      /\ RiskInput.windGradient c = Some 0%float)
  /\ (0 < hour ->
      falsy (ChartData.field ChartData.totalPower
               (ChartData.pvGeneration data) (hour - 1)) = true ->
      is_finite (pvGenerationAt data hour) = true ->
      RiskInput.pvDelta c = Some 0%float)
  /\ (0 < hour ->
      falsy (ChartData.field ChartData.totalPower
               (ChartData.windGeneration data) (hour - 1)) = true ->
      is_finite (windGenerationAt data hour) = true ->
      RiskInput.windDelta c = Some 0%float)
  /\ (0 < hour ->
      falsy (ChartData.field ChartData.gen_rb
               (ChartData.fullGenerationData data) ((hour - 1) * 4)) = true ->
      is_finite (baseloadGenerationAt data hour) = true ->
      RiskInput.baseloadDelta c = Some 0%float)
  /\ (0 < hour ->
      falsy (ChartData.field ChartData.load
               (ChartData.systemLoad data) (hour - 1)) = true ->
      is_finite (systemLoadAt data hour) = true ->
      RiskInput.demandDelta c = Some 0%float)
  /\ (1 < hour ->
      falsy (ChartData.field ChartData.totalPower
               (ChartData.pvGeneration data) (hour - 1)) = true ->
      falsy (ChartData.field ChartData.totalPower
               (ChartData.pvGeneration data) (hour - 2)) = true ->
      is_finite (pvGenerationAt data hour) = true ->
      RiskInput.pvGradient c = Some 0%float)
  /\ (1 < hour ->
      falsy (ChartData.field ChartData.totalPower
               (ChartData.windGeneration data) (hour - 1)) = true ->
      falsy (ChartData.field ChartData.totalPower
               (ChartData.windGeneration data) (hour - 2)) = true ->
      is_finite (windGenerationAt data hour) = true ->
      RiskInput.windGradient c = Some 0%float)
  /\ (forall data' reservesData',
         same_hours data data' hour ->
         deltasOf c
         = deltasOf (scoreDataOfCell Math_exp data' reservesData' dayOffset
                                     hour dayOfWeek)).
Proof.
  intros Hd. cbv zeta.
  destruct (cell_deltas data reservesData dayOffset hour dayOfWeek)
    as (Epv & Ew & Eb & Ed & Egp & Egw).
  rewrite Epv, Ew, Eb, Ed, Egp, Egw.
  assert (Hz : (if 0 <? dayOffset then (0 * (1 + Z2F dayOffset * 0.2))%float
                else 0%float) = 0%float).
  { destruct (Z.ltb_spec 0 dayOffset); [apply zero_scaled; lia | reflexivity]. }
  split; [|split; [|split; [|split; [|split; [|split; [|split; [|split]]]]]]].
  - intros H0. rewrite (deltasAt_hour0 data hour H0).
    cbn [Deltas.pvDelta Deltas.windDelta Deltas.baseloadDelta Deltas.demandDelta].
    rewrite Hz. repeat split.
  - intros H1. destruct (deltasAt_gradients data hour H1) as [-> ->].
    split; reflexivity.
  - intros Hh Hprev Hfin. f_equal.
    unfold deltasAt; cbv zeta.
    destruct (Z.ltb_spec 0 hour); [|lia].
    rewrite (or_else_falsy _ _ Hprev).
    destruct (1 <? hour); cbn [Deltas.pvDelta];
      apply scaled_delta_zero; assumption.
  - intros Hh Hprev Hfin. f_equal.
    unfold deltasAt; cbv zeta.
    destruct (Z.ltb_spec 0 hour); [|lia].
    rewrite (or_else_falsy _ _ Hprev).
    destruct (1 <? hour); cbn [Deltas.windDelta];
      apply scaled_delta_zero; assumption.
  - intros Hh Hprev Hfin. f_equal.
    unfold deltasAt; cbv zeta.
    destruct (Z.ltb_spec 0 hour); [|lia].
    rewrite (or_else_falsy _ _ Hprev).
    destruct (1 <? hour); cbn [Deltas.baseloadDelta];
      (destruct (ChartData.fullGenerationData data);
       [apply sub_diag; assumption | reflexivity]).
  - intros Hh Hprev Hfin. f_equal.
    unfold deltasAt; cbv zeta.
    destruct (Z.ltb_spec 0 hour); [|lia].
    rewrite (or_else_falsy _ _ Hprev).
    destruct (1 <? hour); cbn [Deltas.demandDelta];
      apply sub_diag; assumption.
  - intros Hh Hprev Hprev2 Hfin. f_equal.
    unfold deltasAt; cbv zeta.
    destruct (Z.ltb_spec 0 hour); [|lia].
    destruct (Z.ltb_spec 1 hour); [|lia].
    rewrite (or_else_falsy _ _ Hprev), (or_else_falsy _ _ Hprev2).
    cbn [Deltas.pvGradient]. rewrite (sub_diag _ Hfin). reflexivity.
  - intros Hh Hprev Hprev2 Hfin. f_equal.
    unfold deltasAt; cbv zeta.
    destruct (Z.ltb_spec 0 hour); [|lia].
    destruct (Z.ltb_spec 1 hour); [|lia].
    rewrite (or_else_falsy _ _ Hprev), (or_else_falsy _ _ Hprev2).
    cbn [Deltas.windGradient]. rewrite (sub_diag _ Hfin). reflexivity.
  - intros data' reservesData' Hsame.
    destruct (cell_deltas data' reservesData' dayOffset hour dayOfWeek)
      as (Epv' & Ew' & Eb' & Ed' & Egp' & Egw').
    unfold deltasOf.
    rewrite Epv, Ew, Eb, Ed, Egp, Egw, Epv', Ew', Eb', Ed', Egp', Egw'.
    rewrite (deltasAt_same_hours data data' hour Hsame). reflexivity.
Qed.

(** C4, as the code has it: a cell with dayOffset > 0 has pvGeneration and
    windGeneration scaled by exp(-dayOffset * 0.1), systemLoad scaled by
    1 + dayOffset * 0.005, and pvDelta and windDelta scaled by
    1 + dayOffset * 0.2; baseloadDelta, demandDelta, the gradients,
    baseloadGeneration and powerExchange are those of the hour on every day;
    a cell with dayOffset = 0 has the values of the hour unscaled.  With a
    PV generation of 1000 at the hour, the dayOffset = 3 cell has
    1000 * exp(-0.30000000000000004), which is within 0.05 of 740.8 when the
    engine's exponential is within two units in the last place of
    0.7408182206817179. *)
Theorem forecast_scaling data reservesData dayOffset hour dayOfWeek :
  let c := scoreDataOfCell Math_exp data reservesData dayOffset hour dayOfWeek in
  let base := deltasAt data hour in
  let decayFactor := Math_exp (- Z2F dayOffset * 0.1)%float in
  let volatility := (1 + Z2F dayOffset * 0.2)%float in
  (0 < dayOffset ->
   RiskInput.pvGeneration c = Some (pvGenerationAt data hour * decayFactor)%float
   /\ RiskInput.windGeneration c
      = Some (windGenerationAt data hour * decayFactor)%float
   /\ RiskInput.systemLoad c
      = Some (systemLoadAt data hour * (1 + Z2F dayOffset * 0.005))%float
   /\ RiskInput.pvDelta c = Some (Deltas.pvDelta base * volatility)%float
   /\ RiskInput.windDelta c = Some (Deltas.windDelta base * volatility)%float)
  /\ (dayOffset <= 0 ->
      RiskInput.pvGeneration c = Some (pvGenerationAt data hour)
      /\ RiskInput.windGeneration c = Some (windGenerationAt data hour)
      /\ RiskInput.systemLoad c = Some (systemLoadAt data hour)
      /\ RiskInput.pvDelta c = Some (Deltas.pvDelta base)
      /\ RiskInput.windDelta c = Some (Deltas.windDelta base))
  /\ (RiskInput.baseloadDelta c = Some (Deltas.baseloadDelta base)
      /\ RiskInput.demandDelta c = Some (Deltas.demandDelta base)
      /\ RiskInput.pvGradient c = Some (Deltas.pvGradient base)
      /\ RiskInput.windGradient c = Some (Deltas.windGradient base)
      /\ RiskInput.baseloadGeneration c = Some (baseloadGenerationAt data hour)
      /\ RiskInput.powerExchange c = Some (powerExchangeAt data hour))
  /\ (dayOffset = 3 ->
      pvGenerationAt data hour = 1000%float ->
      RiskInput.pvGeneration c
      = Some (1000 * Math_exp (-0.30000000000000004))%float
      /\ (In (Math_exp (-0.30000000000000004)%float)
             (ulp_neighbours 0.7408182206817179%float) ->
          exists pv, RiskInput.pvGeneration c = Some pv
                     /\ (740.75 <? pv)%float = true
                     /\ (pv <? 740.85)%float = true)).
Proof.
  cbv zeta.
  destruct (cell_deltas data reservesData dayOffset hour dayOfWeek)
    as (Epv & Ew & Eb & Ed & Egp & Egw).
  destruct (cell_levels data reservesData dayOffset hour dayOfWeek)
    as (Lpv & Lw & Ll & Lb & Lx).
  split; [|split; [|split]].
  - intros H. apply Z.ltb_lt in H. rewrite H in *. repeat split; assumption.
  - intros H. destruct (Z.ltb_spec 0 dayOffset); [lia|]. repeat split; assumption.
  - repeat split; assumption.
  - intros -> E1000. rewrite E1000 in Lpv.
    change (0 <? 3) with true in Lpv.
    change (- Z2F 3 * 0.1)%float with (-0.30000000000000004)%float in Lpv.
    split; [exact Lpv|].
    intros Hin. eexists. split; [exact Lpv|].
    unfold ulp_neighbours in Hin. simpl in Hin.
    repeat (destruct Hin as [<-|Hin]; [split; vm_compute; reflexivity|]).
    contradiction.
Qed.

End SnapshotFacts.

Lemma deltas_from_preceding_hours_witness :
  0 <= 3 <= 6
  /\ 0 < 12
  /\ falsy (ChartData.field ChartData.totalPower
              (ChartData.pvGeneration noonData) (12 - 1)) = true
  /\ is_finite (pvGenerationAt noonData 12) = true
  /\ RiskInput.pvDelta (scoreDataOfCell exp_taylor noonData None 3 12 2)
     = Some 0%float.
Proof.
  split; [lia|]. split; [lia|]. split; [reflexivity|]. split; [reflexivity|].
  refine (proj1 (proj2 (proj2
            (deltas_from_preceding_hours exp_taylor noonData None 3 12 2 _)))
          _ _ _).
  - lia.
  - lia.
  - reflexivity.
  - reflexivity.
Defined.

Lemma forecast_scaling_witness :
  3 = 3
  /\ pvGenerationAt noonData 12 = 1000%float
  /\ In (exp_taylor (-0.30000000000000004)%float)
        (ulp_neighbours 0.7408182206817179%float)
  /\ exists pv,
       RiskInput.pvGeneration (scoreDataOfCell exp_taylor noonData None 3 12 2)
       = Some pv
       /\ (740.75 <? pv)%float = true /\ (pv <? 740.85)%float = true.
Proof.
  split; [reflexivity|]. split; [reflexivity|].
  assert (Hin : In (exp_taylor (-0.30000000000000004)%float)
                   (ulp_neighbours 0.7408182206817179%float)).
  { right. left. vm_compute. reflexivity. }
  split; [exact Hin|].
  exact (proj2 (proj2 (proj2 (proj2
           (forecast_scaling exp_taylor noonData None 3 12 2)))
         eq_refl eq_refl) Hin).
Defined.

(** C4, as stated, fails for baseloadDelta and demandDelta: on the day after
    today, with load and JW RB generation both 1000 MW above the hour
    before, the cell has both deltas at 1000, not at 1000 * 1.2 = 1200. *)
Lemma baseload_and_demand_deltas_not_scaled :
  let c := scoreDataOfCell exp_taylor risingData None 1 1 2 in
  RiskInput.baseloadDelta c = Some 1000%float
  /\ RiskInput.demandDelta c = Some 1000%float
  /\ (Deltas.baseloadDelta (deltasAt risingData 1) * (1 + Z2F 1 * 0.2))%float
     = 1200%float
  /\ ~ deltas_scaled_as_specified exp_taylor risingData None 1 1 2.
Proof.
  cbv zeta. split; [vm_compute; reflexivity|]. split; [vm_compute; reflexivity|].
  split; [vm_compute; reflexivity|].
  intros (_ & _ & Hb & _).
  assert (E : Some 1000%float = Some 1200%float :> option number)
    by (vm_compute in Hb; exact Hb).
  apply (number_neq 1100%float 1000%float 1200%float eq_refl eq_refl).
  exact (f_equal (fun o => match o with Some x => x | None => 0%float end) E).
Qed.

(** * Further properties of the code *)

(** ** Order of binary64 numbers *)

Lemma SFcompare_antisym x y :
  SFcompare y x = option_map CompOpp (SFcompare x y).
Proof.
  destruct x as [sx|sx| |sx mx ex], y as [sy|sy| |sy my ey]; simpl;
    try reflexivity;
    try (destruct sx; reflexivity); try (destruct sy; reflexivity);
    try (destruct sx, sy; reflexivity).
  destruct sx, sy; try reflexivity; simpl;
    rewrite (Z.compare_antisym ex ey);
    destruct (ex ?= ey); simpl; try reflexivity;
    pose proof (Pos.compare_cont_antisym mx my Eq) as H; simpl in H;
    rewrite <- H; destruct (Pos.compare_cont Eq mx my); reflexivity.
Qed.

Lemma is_nan_spec x :
  is_nan x = match Prim2SF x with S754_nan => true | _ => false end.
Proof.
  unfold Prim2SF. destruct (is_nan x); [reflexivity|].
  destruct (is_zero x); [reflexivity|].
  destruct (is_infinity x); [reflexivity|].
  destruct (Z.frexp x) as [r ex].
  destruct (shr_fexp prec emax (Uint63Axioms.to_Z (normfr_mantissa r)) (ex - prec) loc_Exact)
    as [sh e'].
  destruct (shr_m sh); reflexivity.
Qed.

Lemma SFcompare_defined x y :
  x <> S754_nan -> y <> S754_nan -> SFcompare x y <> None.
Proof.
  destruct x, y; simpl; intros Hx Hy; try discriminate; congruence.
Qed.

(** [a < b] entails [a <= b]. *)
Lemma ltb_leb a b : (a <? b)%float = true -> (a <=? b)%float = true.
Proof.
  rewrite ltb_spec, leb_spec. unfold SFltb, SFleb.
  destruct (SFcompare (Prim2SF a) (Prim2SF b)) as [[| |]|]; congruence.
Qed.

(** Two numbers, neither of them [NaN], are comparable. *)
Lemma not_ltb_leb a b :
  is_nan a = false -> is_nan b = false ->
  (a <? b)%float = false -> (b <=? a)%float = true.
Proof.
  rewrite !is_nan_spec, ltb_spec, leb_spec. unfold SFltb, SFleb.
  intros Ha Hb. rewrite (SFcompare_antisym (Prim2SF a) (Prim2SF b)).
  assert (Hd : SFcompare (Prim2SF a) (Prim2SF b) <> None).
  { apply SFcompare_defined; intros E; [rewrite E in Ha | rewrite E in Hb];
      discriminate. }
  destruct (SFcompare (Prim2SF a) (Prim2SF b)) as [[| |]|]; simpl;
    congruence.
Qed.

Lemma not_leb_ltb a b :
  is_nan a = false -> is_nan b = false ->
  (a <=? b)%float = false -> (b <? a)%float = true.
Proof.
  rewrite !is_nan_spec, ltb_spec, leb_spec. unfold SFltb, SFleb.
  intros Ha Hb. rewrite (SFcompare_antisym (Prim2SF a) (Prim2SF b)).
  assert (Hd : SFcompare (Prim2SF a) (Prim2SF b) <> None).
  { apply SFcompare_defined; intros E; [rewrite E in Ha | rewrite E in Hb];
      discriminate. }
  destruct (SFcompare (Prim2SF a) (Prim2SF b)) as [[| |]|]; simpl;
    congruence.
Qed.

(** A comparison that holds has no [NaN] operand. *)
Lemma leb_not_nan a b :
  (a <=? b)%float = true -> is_nan a = false /\ is_nan b = false.
Proof.
  rewrite !is_nan_spec, leb_spec. unfold SFleb.
  destruct (Prim2SF a), (Prim2SF b); simpl; intros H; try discriminate;
    split; reflexivity.
Qed.

Lemma ltb_not_leb a b : (a <? b)%float = true -> (b <=? a)%float = false.
Proof.
  rewrite ltb_spec, leb_spec. unfold SFltb, SFleb.
  rewrite (SFcompare_antisym (Prim2SF a) (Prim2SF b)).
  destruct (SFcompare (Prim2SF a) (Prim2SF b)) as [[| |]|]; simpl; congruence.
Qed.

Lemma SFcompare_position x y :
  x <> S754_nan -> y <> S754_nan ->
  SFcompare x y = Some (lexicographic (position x) (position y)).
Proof.
  intros Hx Hy.
  destruct x as [sx|sx| |sx mx ex], y as [sy|sy| |sy my ey];
    try congruence; try (destruct sx; reflexivity);
    try (destruct sy; reflexivity); try (destruct sx, sy; reflexivity).
  unfold SFcompare, position, lexicographic.
  destruct sx, sy; try reflexivity.
  rewrite Z.compare_opp. rewrite (Z.compare_antisym ey ex).
  destruct (ey ?= ex); reflexivity.
Qed.

Lemma not_nan_spec a : is_nan a = false -> Prim2SF a <> S754_nan.
Proof. rewrite is_nan_spec. intros H E. rewrite E in H. discriminate. Qed.

(** The order of the numbers is transitive. *)
Lemma leb_trans a b c :
  (a <=? b)%float = true -> (b <=? c)%float = true -> (a <=? c)%float = true.
Proof.
  intros Hab Hbc.
  destruct (leb_not_nan a b Hab) as [Na Nb].
  destruct (leb_not_nan b c Hbc) as [_ Nc].
  apply not_nan_spec in Na, Nb, Nc.
  rewrite leb_spec in *. unfold SFleb in *.
  rewrite SFcompare_position in * by assumption.
  destruct (position (Prim2SF a)) as [[c1 e1] m1],
           (position (Prim2SF b)) as [[c2 e2] m2],
           (position (Prim2SF c)) as [[c3 e3] m3].
  unfold lexicographic in *.
  destruct (Z.compare_spec c1 c2), (Z.compare_spec c2 c3),
    (Z.compare_spec e1 e2), (Z.compare_spec e2 e3),
    (Z.compare_spec m1 m2), (Z.compare_spec m2 m3); try discriminate;
    destruct (Z.compare_spec c1 c3); try lia; try reflexivity;
    destruct (Z.compare_spec e1 e3); try lia; try reflexivity;
    destruct (Z.compare_spec m1 m3); try lia; reflexivity.
Qed.

Lemma leb_refl a : is_nan a = false -> (a <=? a)%float = true.
Proof.
  intros Na. apply not_nan_spec in Na.
  rewrite leb_spec. unfold SFleb.
  rewrite SFcompare_position by assumption.
  destruct (position (Prim2SF a)) as [[c1 e1] m1]. unfold lexicographic.
  rewrite !Z.compare_refl. reflexivity.
Qed.

Lemma leb_ltb_trans a b c :
  (a <=? b)%float = true -> (b <? c)%float = true -> (a <? c)%float = true.
Proof.
  intros Hab Hbc.
  destruct (leb_not_nan a b Hab) as [Na Nb].
  destruct (leb_not_nan b c (ltb_leb b c Hbc)) as [_ Nc].
  apply not_nan_spec in Na, Nb, Nc.
  rewrite leb_spec in Hab. rewrite ltb_spec in *. unfold SFleb, SFltb in *.
  rewrite SFcompare_position in * by assumption.
  destruct (position (Prim2SF a)) as [[c1 e1] m1],
           (position (Prim2SF b)) as [[c2 e2] m2],
           (position (Prim2SF c)) as [[c3 e3] m3].
  unfold lexicographic in *.
  destruct (Z.compare_spec c1 c2), (Z.compare_spec c2 c3),
    (Z.compare_spec e1 e2), (Z.compare_spec e2 e3),
    (Z.compare_spec m1 m2), (Z.compare_spec m2 m3); try discriminate;
    destruct (Z.compare_spec c1 c3); try lia; try reflexivity;
    destruct (Z.compare_spec e1 e3); try lia; try reflexivity;
    destruct (Z.compare_spec m1 m3); try lia; reflexivity.
Qed.

(** ** Cells of the risk assessment grid *)

Lemma reservesAt_flag reservesData dayOffset hour :
  let '(a, r, h) := reservesAt reservesData dayOffset hour in
  (h = true -> defined a = true /\ defined r = true)
  /\ (h = false -> a = None /\ r = None)
  /\ (h = true ->
      exists rd reserves,
        reservesData = Some rd /\ ReservesData.reserves rd = Some reserves
        /\ 0 <= dayOffset * 24 + hour < Z.of_nat (List.length reserves)).
Proof.
  unfold reservesAt.
  destruct reservesData as [rd|]; [|repeat split; intros; discriminate].
  destruct (ReservesData.reserves rd) as [reserves|] eqn:Er;
    [|repeat split; intros; discriminate].
  destruct (ReservesData.required rd) as [required|];
    [|repeat split; intros; discriminate].
  destruct (Z.ltb_spec (dayOffset * 24 + hour) (Z.of_nat (List.length reserves)));
    cbn [andb]; [|repeat split; intros; discriminate].
  destruct (defined (ReservesData.at_ reserves (dayOffset * 24 + hour))) eqn:Ea;
    cbn [andb]; [|repeat split; intros; discriminate].
  destruct (defined (ReservesData.at_ required (dayOffset * 24 + hour))) eqn:Eq;
    [|repeat split; intros; discriminate].
  split; [intros _; split; assumption|]. split; [discriminate|].
  intros _. exists rd, reserves. repeat split; try assumption.
  unfold ReservesData.at_ in Ea.
  destruct (Z.ltb_spec (dayOffset * 24 + hour) 0); [discriminate | assumption].
Qed.

Lemma cell_reserve_fields (Math_exp : number -> number) data reservesData
    dayOffset hour dayOfWeek :
  let c := scoreDataOfCell Math_exp data reservesData dayOffset hour dayOfWeek in
  RiskInput.availableReserve c = fst (fst (reservesAt reservesData dayOffset hour))
  /\ RiskInput.requiredReserve c = snd (fst (reservesAt reservesData dayOffset hour))
  /\ RiskInput.hasReserveData c = Some (snd (reservesAt reservesData dayOffset hour)).
Proof.
  cbv zeta. unfold scoreDataOfCell.
  destruct (reservesAt reservesData dayOffset hour) as [[a r] h].
  destruct (0 <? dayOffset); repeat split.
Qed.

Lemma cell_reserveDataPresent (Math_exp : number -> number) data reservesData
    dayOffset hour dayOfWeek :
  reserveDataPresent
    (scoreDataOfCell Math_exp data reservesData dayOffset hour dayOfWeek)
  = snd (reservesAt reservesData dayOffset hour).
Proof.
  unfold reserveDataPresent.
  destruct (cell_reserve_fields Math_exp data reservesData dayOffset hour dayOfWeek)
    as (-> & -> & ->).
  pose proof (reservesAt_flag reservesData dayOffset hour) as H.
  destruct (reservesAt reservesData dayOffset hour) as [[a r] h].
  destruct H as (Ht & _ & _). cbn [fst snd].
  destruct h; [destruct (Ht eq_refl) as [-> ->]|]; reflexivity.
Qed.

(** X1: the scorer's own test for reserve data agrees with the flag that the
    snapshot builder computed for the cell; the reserve-margin sub-score is
    present exactly for the cells with the flag; and the flag is set only
    for a cell whose index dayOffset * 24 + hour lies within the reserve
    series. *)
Theorem cell_reserve_flag_agrees (Math_exp : number -> number) data
    reservesData dayOffset hour dayOfWeek :
  let flag := snd (reservesAt reservesData dayOffset hour) in
  let risk :=
    calculateRiskScore
      (scoreDataOfCell Math_exp data reservesData dayOffset hour dayOfWeek) in
  RiskScore.hasReserveData risk = flag
  /\ (RiskScore.dataQuality risk = complete <-> flag = true)
  /\ (Scores.reserveMargin (RiskScore.components risk) <> None <-> flag = true)
  /\ (flag = true ->
      exists rd reserves,
        reservesData = Some rd /\ ReservesData.reserves rd = Some reserves
        /\ 0 <= dayOffset * 24 + hour < Z.of_nat (List.length reserves)).
Proof.
  cbv zeta. unfold calculateRiskScore.
  cbn [RiskScore.hasReserveData RiskScore.dataQuality RiskScore.components].
  rewrite cell_reserveDataPresent.
  unfold computeScores. cbn [Scores.reserveMargin].
  unfold calculateReserveMarginScore.
  destruct (cell_reserve_fields Math_exp data reservesData dayOffset hour dayOfWeek)
    as (-> & -> & _).
  pose proof (reservesAt_flag reservesData dayOffset hour) as H.
  destruct (reservesAt reservesData dayOffset hour) as [[a r] h].
  destruct H as (Ht & Hf & Hi). cbn [fst snd].
  split; [reflexivity|].
  split; [destruct h; split; congruence|].
  split; [|exact Hi].
  destruct h.
  - split; [reflexivity|]. intros _.
    destruct (Ht eq_refl) as [Ha Hr].
    destruct a, r; try discriminate; discriminate.
  - split; [intros H; now contradiction H | discriminate].
Qed.

Lemma cell_reserve_flag_agrees_witness :
  snd (reservesAt (Some shortReserves) 1 5) = true
  /\ exists rd reserves,
       Some shortReserves = Some rd
       /\ ReservesData.reserves rd = Some reserves
       /\ 0 <= 1 * 24 + 5 < Z.of_nat (List.length reserves).
Proof.
  split; [reflexivity|].
  exact (proj2 (proj2 (proj2
           (cell_reserve_flag_agrees exp_taylor noonData (Some shortReserves)
                                     1 5 2))) eq_refl).
Defined.

Lemma cell_hour (Math_exp : number -> number) data reservesData dayOffset
    hour dayOfWeek :
  let c := scoreDataOfCell Math_exp data reservesData dayOffset hour dayOfWeek in
  RiskInput.hour c = hour /\ RiskInput.dayOfWeek c = dayOfWeek.
Proof.
  cbv zeta. unfold scoreDataOfCell.
  destruct (reservesAt reservesData dayOffset hour) as [[a r] h].
  destruct (0 <? dayOffset); split; reflexivity.
Qed.

(** X2: on the seven days of the grid, a cell of hour 0 is scored 0 for
    renewable drop, baseload surge, demand spike and critical hours, whatever
    the data: only the reserve margin and the system imbalance can raise the
    risk of a midnight cell. *)
Theorem midnight_cell_scores (Math_exp : number -> number) data reservesData
    dayOffset dayOfWeek :
  0 <= dayOffset <= 6 ->
  let risk :=
    calculateRiskScore
      (scoreDataOfCell Math_exp data reservesData dayOffset 0 dayOfWeek) in
  Scores.renewableDropRate (RiskScore.components risk) = 0
  /\ Scores.baseloadSurge (RiskScore.components risk) = 0
  /\ Scores.demandSpike (RiskScore.components risk) = 0
  /\ Scores.criticalHours (RiskScore.components risk) = 0.
Proof.
  intros Hd. cbv zeta.
  cbn [calculateRiskScore RiskScore.components computeScores
       Scores.renewableDropRate Scores.baseloadSurge Scores.demandSpike
       Scores.criticalHours].
  destruct (cell_deltas Math_exp data reservesData dayOffset 0 dayOfWeek)
    as (Epv & Ew & Eb & Ed & Egp & Egw).
  destruct (cell_hour Math_exp data reservesData dayOffset 0 dayOfWeek)
    as (Eh & _).
  rewrite (deltasAt_hour0 data 0 ltac:(lia)) in Epv, Ew, Eb, Ed, Egp, Egw.
  cbn [Deltas.pvDelta Deltas.windDelta Deltas.baseloadDelta Deltas.demandDelta
       Deltas.pvGradient Deltas.windGradient] in Epv, Ew, Eb, Ed, Egp, Egw.
  assert (Hz : (if 0 <? dayOffset then (0 * (1 + Z2F dayOffset * 0.2))%float
                else 0%float) = 0%float).
  { destruct (Z.ltb_spec 0 dayOffset); [apply zero_scaled; lia | reflexivity]. }
  rewrite Hz in Epv, Ew.
  split; [|split; [|split]].
  - unfold calculateRenewableDropScore. rewrite Epv, Ew, Egp, Egw. reflexivity.
  - unfold calculateBaseloadSurgeScore. rewrite Eb, Eh. reflexivity.
  - apply calculateDemandSpikeScore_no_delta. rewrite Ed. reflexivity.
  - unfold calculateCriticalHoursScore. rewrite Eh. cbv zeta.
    destruct ((1 <=? _) && (_ <=? 5)); reflexivity.
Qed.

Lemma midnight_cell_scores_witness :
  0 <= 2 <= 6
  /\ Scores.renewableDropRate
       (RiskScore.components
          (calculateRiskScore (scoreDataOfCell exp_taylor risingData None 2 0 4)))
     = 0.
Proof.
  split; [lia|].
  refine (proj1 (midnight_cell_scores exp_taylor risingData None 2 4 _)).
  lia.
Defined.

Lemma percentages_all z : 0 <= z <= 100 -> In z percentages.
Proof.
  intros H. unfold percentages.
  replace z with (Z.of_nat (Z.to_nat z)) by lia.
  apply in_map, in_seq. lia.
Qed.

Lemma opacity_bounds z :
  0 <= z <= 100 ->
  (0.3 <=? opacityOf z)%float = true /\ (opacityOf z <=? 1)%float = true.
Proof.
  intros H.
  assert (Hall : forallb (fun z => (0.3 <=? opacityOf z)%float
                                   && (opacityOf z <=? 1)%float)
                         percentages = true) by (vm_compute; reflexivity).
  rewrite forallb_forall in Hall.
  specialize (Hall z (percentages_all z H)).
  now apply andb_prop in Hall.
Qed.

Lemma calculateRiskScore_total_bounds data :
  0 <= RiskScore.totalScore (calculateRiskScore data) <= 100.
Proof. apply (total_ok_computeScores data). Qed.

(** X3: every cell of the grid is drawn with an opacity between 0.3 and 1
    and with the colour and the [risk-...] class of its risk level; it has a
    warning icon exactly when its score is 50 or more, never when its level
    is low and always the stronger one when its level is critical; it
    carries the [no-reserve-data] class exactly when the builder found no
    reserve data, and the no-data marker exactly when, in addition,
    dayOffset > 2. *)
Theorem cell_rendering (Math_exp : number -> number) (currentHour : Z) data
    reservesData dayOffset hour dayOfWeek :
  let v := renderCell Math_exp currentHour data reservesData dayOffset hour
                      dayOfWeek in
  let opacity := snd (CellView.backgroundColor v) in
  (0.3 <=? opacity)%float = true
  /\ (opacity <=? 1)%float = true
  /\ fst (CellView.backgroundColor v) = levelColour (CellView.riskLevel v)
  /\ In ("risk-" ++ levelName (CellView.riskLevel v))%string
        (CellView.classList v)
  /\ (CellView.warningIcon v = None <-> CellView.riskScore v < 50)
  /\ (CellView.riskLevel v = low -> CellView.warningIcon v = None)
  /\ (CellView.riskLevel v = critical ->
      CellView.warningIcon v = Some ICON_WARNING)
  /\ (In "no-reserve-data"%string (CellView.classList v)
      <-> CellView.hasReserveData v = false)
  /\ (CellView.noDataMarker v = true
      <-> CellView.hasReserveData v = false /\ 2 < dayOffset)
  /\ CellView.hasReserveData v = RiskScore.hasReserveData (CellView.riskData v).
Proof.
  cbv zeta. unfold renderCell.
  pose proof (cell_reserveDataPresent Math_exp data reservesData dayOffset hour
                                      dayOfWeek) as Hflag.
  destruct (reservesAt reservesData dayOffset hour) as [[a r] h].
  cbn [snd] in Hflag.
  set (c := scoreDataOfCell Math_exp data reservesData dayOffset hour dayOfWeek) in *.
  pose proof (calculateRiskScore_total_bounds c) as Hb.
  assert (Hl : RiskScore.riskLevel (calculateRiskScore c)
               = getRiskLevel (RiskScore.totalScore (calculateRiskScore c)))
    by reflexivity.
  set (t := RiskScore.totalScore (calculateRiskScore c)) in *.
  set (l := RiskScore.riskLevel (calculateRiskScore c)) in *.
  cbn [CellView.backgroundColor CellView.classList CellView.warningIcon
       CellView.riskScore CellView.riskLevel CellView.noDataMarker
       CellView.hasReserveData CellView.riskData].
  destruct (opacity_bounds t Hb) as [Ho1 Ho2]. unfold opacityOf in Ho1, Ho2.
  split; [destruct l; exact Ho1|]. split; [destruct l; exact Ho2|].
  split; [destruct l; reflexivity|].
  split; [apply in_or_app; right; now left|].
  unfold getRiskLevel, thresholds in Hl.
  split; [|split; [|split; [|split; [|split]]]].
  - destruct (Z.leb_spec 50 t) as [Hc|Hc]; split; intros H;
      try discriminate; try reflexivity; lia.
  - intros El. rewrite El in Hl.
    destruct (Z.leb_spec t 25) as [Hc|Hc];
      [|destruct (t <=? 50), (t <=? 75); discriminate].
    destruct (Z.leb_spec 50 t) as [Hd|Hd]; [lia | reflexivity].
  - intros El. rewrite El in Hl.
    destruct (Z.leb_spec t 25) as [H1|H1]; [discriminate|].
    destruct (Z.leb_spec t 50) as [H2|H2]; [discriminate|].
    destruct (Z.leb_spec t 75) as [H3|H3]; [discriminate|].
    destruct (Z.leb_spec 50 t) as [H4|H4]; [|lia].
    destruct (Z.leb_spec 75 t) as [H5|H5]; [reflexivity | lia].
  - unfold push_if.
    destruct h, ((dayOffset =? 0) && (hour =? currentHour)), l;
      cbn [negb app]; split; intros H; try reflexivity; try discriminate;
      try (simpl; tauto);
      simpl in H; repeat (destruct H as [H|H]; try discriminate H);
      contradiction.
  - destruct h; cbn [negb andb]; [split; [discriminate | intros [H _]; discriminate]|].
    rewrite Z.ltb_lt. split; [intros H; split; [reflexivity | exact H] | intros [_ H]; exact H].
  - cbn [calculateRiskScore RiskScore.hasReserveData]. symmetry. exact Hflag.
Qed.

(** ** The legacy heat map *)

Lemma heatmap_scores currentData index :
  computeScores (heatmapScoreData currentData index) false
  = Scores.mk None 0 0 0
      (calculateCriticalHoursScore (heatmapScoreData currentData index)) 0.
Proof.
  unfold computeScores.
  rewrite calculateDemandSpikeScore_no_delta by reflexivity.
  f_equal.
  unfold calculateBaseloadSurgeScore; cbv zeta.
  destruct (negb _); reflexivity.
Qed.

Lemma heatmap_weekday index :
  let dayIndex := Z.of_nat index / 24 in
  let dayOfWeek := if dayIndex =? 6 then 0 else dayIndex + 1 in
  (1 <=? dayOfWeek) && (dayOfWeek <=? 5) = (dayIndex <? 5).
Proof.
  cbv zeta.
  assert (H : 0 <= Z.of_nat index / 24) by (apply Z.div_pos; lia).
  destruct (Z.eqb_spec (Z.of_nat index / 24) 6) as [E|E].
  - rewrite E. reflexivity.
  - destruct (Z.leb_spec 1 (Z.of_nat index / 24 + 1)); [|lia].
    destruct (Z.leb_spec (Z.of_nat index / 24 + 1) 5),
             (Z.ltb_spec (Z.of_nat index / 24) 5); try reflexivity; lia.
Qed.

(** X4: scored by this scorer, every cell of the legacy heat map
    ([updateRiskHeatmap]) is of level low, whatever the data: its input has
    neither reserve fields nor deltas, so the analysis is partial, all
    sub-scores but critical hours are 0, and the total is 15 on rows 0-4
    (Monday to Friday) at hours 17-20, 9 at hours 7-9, 5 at hours 6, 10, 16
    and 21, and 0 everywhere else. *)
Theorem legacy_heatmap_always_low (currentData : ChartData.t) (index : nat) :
  let r := heatmapRisk currentData index in
  let dayIndex := Z.of_nat index / 24 in
  let hour := Z.of_nat index mod 24 in
  RiskScore.dataQuality r = partial
  /\ Scores.reserveMargin (RiskScore.components r) = None
  /\ Scores.renewableDropRate (RiskScore.components r) = 0
  /\ Scores.baseloadSurge (RiskScore.components r) = 0
  /\ Scores.demandSpike (RiskScore.components r) = 0
  /\ Scores.systemImbalance (RiskScore.components r) = 0
  /\ RiskScore.riskLevel r = low
  /\ RiskScore.totalScore r
     = (if dayIndex <? 5 then
          if (7 <=? hour) && (hour <=? 9) then 9
          else if (17 <=? hour) && (hour <=? 20) then 15
          else if ((6 <=? hour) && (hour <=? 10))
                  || ((16 <=? hour) && (hour <=? 21)) then 5
          else 0
        else 0).
Proof.
  cbv zeta. unfold heatmapRisk, calculateRiskScore.
  change (reserveDataPresent (heatmapScoreData currentData index)) with false.
  rewrite heatmap_scores.
  cbn [RiskScore.dataQuality RiskScore.components RiskScore.riskLevel
       RiskScore.totalScore Scores.reserveMargin Scores.renewableDropRate
       Scores.baseloadSurge Scores.demandSpike Scores.systemImbalance].
  do 6 (split; [reflexivity|]).
  unfold calculateCriticalHoursScore; cbv zeta.
  cbn [heatmapScoreData RiskInput.hour RiskInput.dayOfWeek].
  rewrite (heatmap_weekday index).
  destruct (Z.of_nat index / 24 <? 5); cbn [negb];
    [|split; vm_compute; reflexivity].
  destruct ((7 <=? Z.of_nat index mod 24) && (Z.of_nat index mod 24 <=? 9));
    [split; vm_compute; reflexivity|].
  destruct ((17 <=? Z.of_nat index mod 24) && (Z.of_nat index mod 24 <=? 20));
    [split; vm_compute; reflexivity|].
  destruct (((6 <=? Z.of_nat index mod 24) && (Z.of_nat index mod 24 <=? 10))
            || ((16 <=? Z.of_nat index mod 24) && (Z.of_nat index mod 24 <=? 21)));
    split; vm_compute; reflexivity.
Qed.

(** ** The details panel *)

Lemma filter_not_info l :
  Forall (fun d => Descriptor.info d = false) l ->
  filter (fun f => negb (Descriptor.info f)) l = l
  /\ filter (fun f => Descriptor.info f) l = [].
Proof.
  induction 1 as [|d l Hd Hl [IH1 IH2]]; [split; reflexivity|].
  simpl. rewrite Hd, IH1, IH2. split; reflexivity.
Qed.

Lemma collectFactors_no_signal data h :
  (forall k s, In k shownKeys ->
               Scores.get (computeScores data h) k = Some s -> s = 0) ->
  collectFactors (computeScores data h) data h
  = if h then [] else [noReserveFactor].
Proof.
  intros H.
  assert (Hd := H K_renewableDropRate _ ltac:(simpl; tauto) eq_refl).
  assert (Hb := H K_baseloadSurge _ ltac:(simpl; tauto) eq_refl).
  assert (Hs := H K_demandSpike _ ltac:(simpl; tauto) eq_refl).
  assert (Hc := H K_criticalHours _ ltac:(simpl; tauto) eq_refl).
  assert (Hr := fun s => H K_reserveMargin s ltac:(simpl; tauto)).
  unfold collectFactors; cbv zeta.
  rewrite Hd, Hb, Hs, Hc. unfold push_if. cbn [Z.ltb Z.compare].
  cbn [Scores.get] in Hr.
  destruct (Scores.reserveMargin (computeScores data h)) as [r|].
  - rewrite (Hr r eq_refl). cbn [Z.ltb Z.compare]. rewrite andb_false_r.
    destruct h; reflexivity.
  - destruct h; reflexivity.
Qed.

(** X5: the details panel splits the factors of a risk without reordering
    them: the entries that are not informational, in descending order of
    impact, followed by the informational ones, which are the single
    no-reserve-data entry when reserve data is absent and none otherwise.
    No risk component is listed exactly when none of the five shown
    sub-scores is positive. *)
Theorem details_panel_factors (data : RiskInput.t) :
  let risk := calculateRiskScore data in
  actualFactors risk ++ infoFactors risk = RiskScore.factors risk
  /\ infoFactors risk
     = (if RiskScore.hasReserveData risk then [] else [noReserveFactor])
  /\ StronglySorted impact_ge (actualFactors risk)
  /\ (actualFactors risk = []
      <-> forall k s, In k shownKeys ->
                      Scores.get (RiskScore.components risk) k = Some s ->
                      s = 0).
Proof.
  cbv zeta. unfold actualFactors, infoFactors.
  cbn [calculateRiskScore RiskScore.factors RiskScore.hasReserveData
       RiskScore.components].
  set (h := reserveDataPresent data).
  destruct (getDetailedFactors_shape (computeScores data h) data h)
    as (shown & E & Hshown & Hsorted).
  destruct (filter_not_info shown Hshown) as [F1 F2].
  assert (G1 : filter (fun f => negb (Descriptor.info f))
                      (getDetailedFactors (computeScores data h) data h) = shown).
  { rewrite E, filter_app, F1. destruct h; cbn; now rewrite app_nil_r. }
  assert (G2 : filter (fun f => Descriptor.info f)
                      (getDetailedFactors (computeScores data h) data h)
               = if h then [] else [noReserveFactor]).
  { rewrite E, filter_app, F2. destruct h; reflexivity. }
  rewrite G1, G2.
  split; [symmetry; exact E|]. split; [reflexivity|].
  split; [exact Hsorted|].
  split.
  - intros -> k s Hk Hget.
    destruct (Z.eq_dec s 0) as [|Hs]; [assumption|exfalso].
    destruct (shown_descriptor_collected data h k s Hk Hget Hs)
      as (d & Hin & Hinfo & _).
    assert (Hin' : In d (getDetailedFactors (computeScores data h) data h)).
    { unfold getDetailedFactors.
      eapply Permutation_in; [symmetry; apply sort_perm | exact Hin]. }
    rewrite E in Hin'. cbn [app] in Hin'.
    destruct h; [contradiction|].
    destruct Hin' as [<-|[]]. discriminate.
  - intros Hzero.
    pose proof (collectFactors_no_signal data h Hzero) as Hc.
    assert (Hlen : List.length (getDetailedFactors (computeScores data h) data h)
                   = List.length (if h then [] else [noReserveFactor])).
    { unfold getDetailedFactors. rewrite <- Hc.
      apply Permutation_length, sort_perm. }
    rewrite E, length_app in Hlen.
    destruct shown; [reflexivity|].
    destruct h; simpl in Hlen; lia.
Qed.

Lemma details_panel_factors_witness :
  actualFactors (calculateRiskScore quietNight) = []
  /\ forall k s, In k shownKeys ->
                 Scores.get (RiskScore.components (calculateRiskScore quietNight)) k
                 = Some s ->
                 s = 0.
Proof.
  split; [vm_compute; reflexivity|].
  exact (proj1 (proj2 (proj2 (proj2 (details_panel_factors quietNight))))
               eq_refl).
Defined.

(** ** More on the recommendations *)

Ltac string_neq :=
  let H := fresh in
  intro H; apply String.eqb_eq in H; vm_compute in H; discriminate H.

Lemma negative_below_300 m : (m <? 0)%float = true -> (m <? 300)%float = true.
Proof.
  rewrite !ltb_spec.
  replace (Prim2SF 0) with (S754_zero false) by (vm_compute; reflexivity).
  replace (Prim2SF 300) with (S754_finite false 5277655813324800 (-44))
    by (vm_compute; reflexivity).
  destruct (Prim2SF m) as [[|]|[|]| |[|] mm e]; unfold SFltb, SFcompare;
    congruence.
Qed.

(** With reserve data, the reserve pushes of [getRecommendations] are the
    advisory of the margin. *)
Lemma reserve_pushes_are_marginAdvisory (a r : number) :
  let margin := (a - r)%float in
  let reserveMargin :=
    if (margin <? 0)%float then 100
    else if (margin <? 300)%float then 85
    else if (margin <? 500)%float then 65
    else if (margin <? 1000)%float then 40
    else if (margin <? 1500)%float then 20
    else 0 in
  (if (80 <=? reserveMargin) || (margin <? 300)%float then [REC_ALERT]
   else if 50 <=? reserveMargin then [REC_LOW_MARGIN]
   else [])
  = marginAdvisory margin.
Proof.
  cbv zeta. unfold marginAdvisory.
  destruct (a - r <? 0)%float eqn:E0.
  - rewrite (negative_below_300 _ E0). reflexivity.
  - destruct (a - r <? 300)%float; [reflexivity|].
    destruct (a - r <? 500)%float; [reflexivity|].
    destruct (a - r <? 1000)%float; [reflexivity|].
    destruct (a - r <? 1500)%float; reflexivity.
Qed.

(** The pushes that follow the reserve pushes add advisories that do not
    speak of the reserve data. *)
Lemma thresholdAdvisories_shape scores data h :
  exists others,
    thresholdAdvisories scores data h
    = match Scores.reserveMargin scores with
      | Some reserveMargin =>
          if h then
            let margin :=
              (num_of (RiskInput.availableReserve data)
               - num_of (RiskInput.requiredReserve data))%float in
            if (80 <=? reserveMargin) || (margin <? 300)%float
            then [REC_ALERT]
            else if 50 <=? reserveMargin then [REC_LOW_MARGIN]
            else []
          else []
      | None => []
      end ++ others
    /\ incl others otherAdvisories.
Proof.
  unfold thresholdAdvisories, push_if; cbv zeta. cbn [app].
  set (c1 := 60 <=? _). set (c2 := _ && _ && _). set (c3 := (0 <? _) && _).
  set (t70 := (70 <=? _)%float). set (t50 := (50 <=? _)%float).
  set (R := match Scores.reserveMargin scores with Some _ => _ | None => _ end).
  clearbody R c1 c2 c3 t70 t50.
  exists ((if c1 then [REC_OZE_DROP] else [])
          ++ (if c2 then [REC_EVENING] else [])
          ++ (if c3 then [REC_PEAK] else [])
          ++ (if t70 then [REC_REDUCE]
              else if t50 then [REC_MONITOR] else [])).
  destruct c1, c2, c3, t70, t50; rewrite <- ?app_assoc; cbn [app];
    rewrite ?app_nil_r; (split; [reflexivity|]);
    unfold incl, otherAdvisories; simpl; tauto.
Qed.

Lemma recommendations_shape data :
  let risk := calculateRiskScore data in
  let margin :=
    (num_of (RiskInput.availableReserve data)
     - num_of (RiskInput.requiredReserve data))%float in
  exists rest,
    incl rest otherAdvisories
    /\ RiskScore.recommendations risk
       = (if RiskScore.hasReserveData risk then marginAdvisory margin
          else [REC_NO_RESERVE]) ++ rest.
Proof.
  cbv zeta.
  cbn [calculateRiskScore RiskScore.recommendations RiskScore.hasReserveData].
  set (h := reserveDataPresent data).
  destruct (getRecommendations_cases (computeScores data h) data h) as [H0 H1].
  destruct (thresholdAdvisories_shape (computeScores data h) data h)
    as (others & ET & Hincl).
  assert (ER : match Scores.reserveMargin (computeScores data h) with
               | Some reserveMargin =>
                   if h then
                     let margin :=
                       (num_of (RiskInput.availableReserve data)
                        - num_of (RiskInput.requiredReserve data))%float in
                     if (80 <=? reserveMargin) || (margin <? 300)%float
                     then [REC_ALERT]
                     else if 50 <=? reserveMargin then [REC_LOW_MARGIN]
                     else []
                   else []
               | None => []
               end
               = if h then marginAdvisory
                             (num_of (RiskInput.availableReserve data)
                              - num_of (RiskInput.requiredReserve data))%float
                 else []).
  { unfold computeScores; cbn [Scores.reserveMargin].
    destruct h eqn:Eh; [|reflexivity].
    unfold h, reserveDataPresent in Eh.
    unfold calculateReserveMarginScore.
    destruct (RiskInput.availableReserve data) as [a|];
      [|rewrite andb_false_r in Eh; discriminate].
    destruct (RiskInput.requiredReserve data) as [r|];
      [|rewrite andb_false_r in Eh; discriminate].
    cbn [num_of]. apply reserve_pushes_are_marginAdvisory. }
  rewrite ER in ET. clear ER.
  destruct (thresholdAdvisories (computeScores data h) data h) as [|x T] eqn:E.
  - rewrite H0 by reflexivity.
    symmetry in ET. apply app_eq_nil in ET as [EM EO].
    destruct h.
    + exists [REC_STABLE]. rewrite EM.
      split; [unfold incl, otherAdvisories; simpl; tauto | reflexivity].
    + exists [REC_LIMITED].
      split; [unfold incl, otherAdvisories; simpl; tauto | reflexivity].
  - rewrite H1 by discriminate. rewrite ET.
    exists others. split; [exact Hincl|].
    destruct h; reflexivity.
Qed.

Lemma reserve_advisories_not_other :
  ~ In REC_ALERT otherAdvisories /\ ~ In REC_LOW_MARGIN otherAdvisories
  /\ ~ In REC_NO_RESERVE otherAdvisories.
Proof.
  unfold otherAdvisories.
  repeat split; intros H; simpl in H;
    repeat (destruct H as [H|H]; [revert H; string_neq|]); contradiction.
Qed.

(** X6: the recommendations begin with the no-reserve-data line when reserve
    data is absent, and with the advisory of the margin when it is present:
    the alert when available - required is below 300 MW, the low-margin
    notice from 300 to below 500 MW, nothing otherwise; no later entry
    speaks of the reserve.  So the alert is issued exactly when reserve data
    is present and the margin is below 300 MW. *)
Theorem reserve_advisory_first (data : RiskInput.t) :
  let risk := calculateRiskScore data in
  let margin :=
    (num_of (RiskInput.availableReserve data)
     - num_of (RiskInput.requiredReserve data))%float in
  (exists rest,
      RiskScore.recommendations risk
      = (if RiskScore.hasReserveData risk then marginAdvisory margin
         else [REC_NO_RESERVE]) ++ rest
      /\ ~ In REC_ALERT rest /\ ~ In REC_LOW_MARGIN rest
      /\ ~ In REC_NO_RESERVE rest)
  /\ (In REC_ALERT (RiskScore.recommendations risk)
      <-> RiskScore.hasReserveData risk = true /\ (margin <? 300)%float = true)
  /\ (In REC_LOW_MARGIN (RiskScore.recommendations risk)
      <-> RiskScore.hasReserveData risk = true
          /\ (margin <? 300)%float = false /\ (margin <? 500)%float = true)
  /\ (In REC_NO_RESERVE (RiskScore.recommendations risk)
      <-> RiskScore.hasReserveData risk = false).
Proof.
  cbv zeta.
  destruct (recommendations_shape data) as (rest & Hincl & E).
  destruct reserve_advisories_not_other as (NA & NL & NN).
  assert (RA : ~ In REC_ALERT rest) by (intros H; apply NA, Hincl, H).
  assert (RL : ~ In REC_LOW_MARGIN rest) by (intros H; apply NL, Hincl, H).
  assert (RN : ~ In REC_NO_RESERVE rest) by (intros H; apply NN, Hincl, H).
  split; [exists rest; repeat split; assumption|].
  rewrite E. clear E.
  assert (AL : REC_ALERT <> REC_LOW_MARGIN) by string_neq.
  assert (AN : REC_ALERT <> REC_NO_RESERVE) by string_neq.
  assert (LN : REC_LOW_MARGIN <> REC_NO_RESERVE) by string_neq.
  unfold marginAdvisory.
  destruct (RiskScore.hasReserveData (calculateRiskScore data));
    destruct (_ <? 300)%float; destruct (_ <? 500)%float;
    repeat match goal with
           | |- _ /\ _ => split
           | |- _ <-> _ => split
           end; intros Hx;
    try (apply in_app_or in Hx as [Hx|Hx]; simpl in Hx);
    try (destruct Hx as [Hx|Hx]); try (destruct Hx as (? & ? & ?));
    try (destruct Hx as (? & ?)); try discriminate; try contradiction;
    try congruence; try (apply in_or_app; left; simpl; tauto);
    try (repeat split; reflexivity).
Qed.

Lemma reserve_advisory_first_witness :
  In REC_LOW_MARGIN (RiskScore.recommendations (calculateRiskScore thinMargin)).
Proof.
  apply (proj2 (proj1 (proj2 (proj2 (reserve_advisory_first thinMargin))))).
  repeat split; vm_compute; reflexivity.
Defined.

(** *** The synergy bonus *)

Lemma countFactors_fold (l : list (option Z)) (c h : Z) :
  let at_least b :=
    Z.of_nat (List.length
      (filter (fun s => match s with Some s => b <=? s | None => false end) l)) in
  fold_left
    (fun '(criticalFactors, highFactors) score =>
       match score with
       | Some score =>
           if 80 <=? score then (criticalFactors + 1, highFactors)
           else if 50 <=? score then (criticalFactors, highFactors + 1)
           else (criticalFactors, highFactors)
       | None => (criticalFactors, highFactors)
       end) l (c, h)
  = (c + at_least 80, h + (at_least 50 - at_least 80)).
Proof.
  cbv zeta. revert c h.
  induction l as [|[s|] l IH]; intros c h; cbn [fold_left filter].
  - cbn [List.length]. f_equal; lia.
  - destruct (Z.leb_spec 80 s) as [H8|H8].
    + assert (H5 : (50 <=? s) = true) by (apply Z.leb_le; lia).
      rewrite H5, IH. cbn [List.length]. f_equal; lia.
    + destruct (Z.leb_spec 50 s) as [H5|H5]; rewrite IH; cbn [List.length];
        f_equal; lia.
  - apply IH.
Qed.

Lemma countAtLeast_range b scores : 0 <= countAtLeast b scores <= 6.
Proof.
  unfold countAtLeast.
  match goal with
  | |- context [filter ?f ?l] => pose proof (filter_length_le f l) as H
  end.
  unfold Scores.values in *. rewrite length_map in H.
  cbn [List.length] in H. lia.
Qed.

(** X7: the synergy bonus is decided by two counts over the sub-scores that
    are not null: how many are at least 80 and how many are at least 50.  It
    is 15 with three or more at or above 80, 10 with exactly two, 8 with
    exactly one together with two more at or above 50, 5 with none and three
    at or above 50, and 0 otherwise; so a bonus is granted exactly when two
    sub-scores reach 80 or three reach 50. *)
Theorem synergy_bonus_counts (scores : Scores.t) :
  let critical := countAtLeast 80 scores in
  let elevated := countAtLeast 50 scores in
  critical <= elevated
  /\ calculateSynergyBonus scores
     = (if 3 <=? critical then 15
        else if 2 <=? critical then 10
        else if (1 <=? critical) && (3 <=? elevated) then 8
        else if 3 <=? elevated then 5
        else 0)
  /\ (0 < calculateSynergyBonus scores <-> 2 <= critical \/ 3 <= elevated)
  /\ In (calculateSynergyBonus scores) [0; 5; 8; 10; 15].
Proof.
  cbv zeta.
  assert (Hle : countAtLeast 80 scores <= countAtLeast 50 scores).
  { unfold countAtLeast. generalize (Scores.values scores). intros l.
    induction l as [|[s|] l IH]; cbn [filter]; [lia| |exact IH].
    destruct (Z.leb_spec 80 s) as [H8|H8].
    - assert (H5 : (50 <=? s) = true) by (apply Z.leb_le; lia).
      rewrite H5. cbn [List.length]. lia.
    - destruct (50 <=? s); cbn [List.length]; lia. }
  assert (E : calculateSynergyBonus scores
              = (if 3 <=? countAtLeast 80 scores then 15
                 else if 2 <=? countAtLeast 80 scores then 10
                 else if (1 <=? countAtLeast 80 scores)
                         && (3 <=? countAtLeast 50 scores) then 8
                 else if 3 <=? countAtLeast 50 scores then 5
                 else 0)).
  { unfold calculateSynergyBonus, countFactors.
    rewrite (countFactors_fold (Scores.values scores) 0 0).
    fold (countAtLeast 80 scores). fold (countAtLeast 50 scores).
    pose proof (countAtLeast_range 80 scores) as R8.
    set (c := countAtLeast 80 scores) in *.
    set (e := countAtLeast 50 scores) in *.
    replace (0 + c) with c by lia. replace (0 + (e - c)) with (e - c) by lia.
    destruct (Z.leb_spec 3 c); [reflexivity|].
    destruct (Z.leb_spec 2 c); [reflexivity|].
    destruct (Z.leb_spec 1 c); cbn [andb].
    - assert (Hc : c = 1) by lia. rewrite Hc.
      destruct (Z.leb_spec 2 (e - 1)), (Z.leb_spec 3 e); try lia; try reflexivity.
      destruct (Z.leb_spec 3 (e - 1)); [lia|reflexivity].
    - assert (Hc : c = 0) by lia. rewrite Hc.
      replace (e - 0) with e by lia. reflexivity. }
  split; [exact Hle|]. split; [exact E|].
  rewrite E. clear E.
  set (c := countAtLeast 80 scores) in *.
  set (e := countAtLeast 50 scores) in *.
  destruct (Z.leb_spec 3 c), (Z.leb_spec 2 c), (Z.leb_spec 1 c),
    (Z.leb_spec 3 e); cbn [andb]; (split; [split; [lia|intros ?; lia]|]);
    simpl; tauto.
Qed.

(** *** The order of the advisories *)

Lemma is_subsequence_In l m x :
  is_subsequence l m = true -> In x l -> In x m.
Proof.
  revert l. induction m as [|y m IH]; intros [|a l] H Hin;
    cbn [is_subsequence] in H; try discriminate; try contradiction.
  destruct (String.eqb_spec a y) as [->|Hne].
  - destruct Hin as [->|Hin]; [now left|right; exact (IH l H Hin)].
  - right. exact (IH (a :: l) H Hin).
Qed.

Lemma is_subsequence_NoDup l m :
  is_subsequence l m = true -> NoDup m -> NoDup l.
Proof.
  revert l. induction m as [|y m IH]; intros [|a l] H Hm;
    cbn [is_subsequence] in H; try discriminate; try constructor.
  - inversion Hm as [|? ? Hy Hm']; subst.
    destruct (String.eqb_spec a y) as [->|Hne].
    + intros Hin. apply Hy. exact (is_subsequence_In l m y H Hin).
    + pose proof (IH (a :: l) H Hm') as Hd. now inversion Hd.
  - inversion Hm as [|? ? Hy Hm']; subst.
    destruct (String.eqb_spec a y) as [->|Hne].
    + exact (IH l H Hm').
    + pose proof (IH (a :: l) H Hm') as Hd. now inversion Hd.
Qed.

Lemma mentions_In x l : mentions x l = true <-> In x l.
Proof.
  unfold mentions. rewrite existsb_exists. split.
  - intros (y & Hin & E). apply String.eqb_eq in E. now subst.
  - intros Hin. exists x. split; [exact Hin|apply String.eqb_refl].
Qed.

Lemma advisoryOrder_NoDup : NoDup advisoryOrder.
Proof.
  unfold advisoryOrder.
  repeat (constructor;
          [simpl; intros H;
           repeat (destruct H as [H|H]; [revert H; string_neq|]);
           contradiction|]).
  constructor.
Qed.

Lemma getRecommendations_ok scores data h :
  advisories_ok (getRecommendations scores data h) = true.
Proof.
  unfold getRecommendations, thresholdAdvisories, push_if; cbv zeta.
  cbn [app].
  set (c1 := 60 <=? _). set (c2 := _ && _ && _). set (c3 := (0 <? _) && _).
  set (t70 := (70 <=? _)%float). set (t50 := (50 <=? _)%float).
  set (m := (_ <? 300)%float).
  clearbody c1 c2 c3 t70 t50 m.
  destruct (Scores.reserveMargin scores) as [r|];
    [destruct (80 <=? r), (50 <=? r)|];
    destruct h, m, c1, c2, c3, t70, t50; vm_compute; reflexivity.
Qed.

(** X8: whatever the input, the recommendations are the fixed sequence of
    ten advisories with some left out: they keep that order and never repeat
    a line.  There are at most five of them; the advisory to reduce sales and
    the advisory to monitor never come together; the stable-situation line
    only comes alone, and the limited-analysis line only after the
    no-reserve-data line and nothing else. *)
Theorem recommendations_in_order (data : RiskInput.t) :
  let recommendations := RiskScore.recommendations (calculateRiskScore data) in
  is_subsequence recommendations advisoryOrder = true
  /\ NoDup recommendations
  /\ (List.length recommendations <= 5)%nat
  /\ ~ (In REC_REDUCE recommendations /\ In REC_MONITOR recommendations)
  /\ (In REC_STABLE recommendations -> recommendations = [REC_STABLE])
  /\ (In REC_LIMITED recommendations ->
      recommendations = [REC_NO_RESERVE; REC_LIMITED]).
Proof.
  cbv zeta. cbn [calculateRiskScore RiskScore.recommendations].
  set (h := reserveDataPresent data). set (scores := computeScores data h).
  pose proof (getRecommendations_ok scores data h) as Hok.
  set (recs := getRecommendations scores data h) in *. clearbody recs.
  unfold advisories_ok in Hok.
  apply andb_prop in Hok as [Hok HL]. apply andb_prop in Hok as [Hok HS].
  apply andb_prop in Hok as [Hok HX]. apply andb_prop in Hok as [Hsub Hlen].
  split; [exact Hsub|].
  split; [exact (is_subsequence_NoDup _ _ Hsub advisoryOrder_NoDup)|].
  split; [apply Nat.leb_le; exact Hlen|].
  split.
  { intros [HR HM]. apply mentions_In in HR, HM. rewrite HR, HM in HX.
    discriminate. }
  split.
  - intros HI. apply mentions_In in HI. rewrite HI in HS.
    destruct recs as [|x [|y l]]; try discriminate.
    apply String.eqb_eq in HS. now subst.
  - intros HI. apply mentions_In in HI. rewrite HI in HL.
    destruct recs as [|x [|y [|z l]]]; try discriminate.
    apply andb_prop in HL as [Hx Hy].
    apply String.eqb_eq in Hx, Hy. now subst.
Qed.

Lemma recommendations_in_order_witness :
  RiskScore.recommendations (calculateRiskScore quietNight) = [REC_STABLE].
Proof.
  apply (proj1 (proj2 (proj2 (proj2 (proj2
           (recommendations_in_order quietNight)))))).
  left. vm_compute. reflexivity.
Defined.

(** *** The reserve series *)

Lemma In_firstn {A} (n : nat) (l : list A) (x : A) :
  In x (firstn n l) -> In x l.
Proof.
  intros H. rewrite <- (firstn_skipn n l). apply in_or_app. now left.
Qed.

Lemma push_rows {A B} (f : A -> option B) (l : list A) (acc : list B) :
  fold_left
    (fun processed item =>
       match f item with
       | Some row => processed ++ [row]
       | None => processed
       end) l acc
  = acc ++ flat_map (fun item => match f item with
                                 | Some row => [row]
                                 | None => []
                                 end) l.
Proof.
  revert acc. induction l as [|a l IH]; intros acc; cbn [fold_left flat_map].
  - now rewrite app_nil_r.
  - rewrite IH. destruct (f a); [now rewrite <- app_assoc|reflexivity].
Qed.

Lemma flat_map_rows_length {A B} (f : A -> option B) (l : list A) :
  (List.length (flat_map (fun item => match f item with
                                      | Some row => [row]
                                      | None => []
                                      end) l)
   <= List.length l)%nat.
Proof.
  induction l as [|a l IH]; cbn [flat_map List.length]; [lia|].
  rewrite length_app. destruct (f a); cbn [List.length]; lia.
Qed.

Section ReserveSeriesFacts.

Variable V : Type.
Variable parseFloat : V -> number.
Variable Date_parse : string -> number.
Variable getFullYear : number -> Z.
Variable getMonth : number -> Z.
Variable getDate : number -> Z.
Variable getHours : number -> Z.
Variable startOfToday : number.

Lemma rowOf_from rawData item row :
  In item (filter (fromToday V Date_parse startOfToday) rawData) ->
  rowOf V parseFloat Date_parse getFullYear getMonth getDate getHours item
  = Some row ->
  row_from V parseFloat Date_parse getFullYear getMonth getDate getHours
           startOfToday rawData row.
Proof.
  intros Hin Hrow. apply filter_In in Hin as [Hin Hf].
  unfold fromToday in Hf. unfold rowOf, timeOf in Hrow.
  destruct (RawItem.plan_dtime item) as [s|] eqn:Es; [|discriminate].
  destruct (String.eqb_spec s "") as [|Hs]; [discriminate|].
  destruct (RawItem.req_pow_res item) as [q|] eqn:Eq; [|discriminate].
  cbv zeta in Hrow.
  destruct (is_nan (availableOf V parseFloat item q)) eqn:Ea;
    [discriminate|].
  destruct (is_nan (parseFloat q)) eqn:Er; [discriminate|].
  cbn [negb andb] in Hrow. inversion Hrow; subst row; clear Hrow.
  exists item, s, q. cbn [ReserveRow.time ReserveRow.required ReserveRow.reserve].
  repeat split; assumption.
Qed.

Lemma processed_rows (rawData : list (RawItem.t V)) :
  exists processed : list ReserveRow.t,
    processPSEReservesData V parseFloat Date_parse getFullYear getMonth
                           getDate getHours startOfToday rawData
    = {| ReserveSeries.times := map ReserveRow.time processed;
         ReserveSeries.reserves := map ReserveRow.reserve processed;
         ReserveSeries.required := map ReserveRow.required processed |}
    /\ (List.length processed <= 72)%nat
    /\ (List.length processed <= List.length rawData)%nat
    /\ Forall (row_from V parseFloat Date_parse getFullYear getMonth getDate
                     getHours startOfToday rawData)
           processed.
Proof.
  unfold processPSEReservesData. cbv zeta. rewrite push_rows. cbn [app].
  set (future := sort _ (filter _ rawData)).
  set (rows := flat_map _ future).
  assert (Hlen : (List.length rows <= List.length rawData)%nat).
  { etransitivity; [apply flat_map_rows_length|].
    unfold future.
    rewrite (Permutation_length (sort_perm _ _)). apply filter_length_le. }
  assert (Hall : Forall (row_from V parseFloat Date_parse getFullYear getMonth getDate
                     getHours startOfToday rawData)
           rows).
  { apply Forall_forall. intros row Hin.
    apply in_flat_map in Hin as (item & Hitem & Hrow).
    unfold future in Hitem.
    apply (Permutation_in _ (sort_perm _ _)) in Hitem.
    destruct (rowOf V parseFloat Date_parse getFullYear getMonth getDate
                    getHours item) as [row'|] eqn:E; [|contradiction].
    destruct Hrow as [<-|[]]. exact (rowOf_from rawData item row' Hitem E). }
  destruct (Nat.ltb_spec 72 (List.length rows)) as [Hgt|Hle].
  - exists (firstn 72 rows). split; [reflexivity|].
    split; [apply firstn_le_length|].
    split; [rewrite length_firstn; lia|].
    apply Forall_forall. intros row Hin.
    apply (proj1 (Forall_forall _ _) Hall). exact (In_firstn _ _ _ Hin).
  - exists rows. repeat split; assumption.
Qed.

End ReserveSeriesFacts.

(** X9: the three arrays that [processPSEReservesData] returns have the same
    length, at most 72 and at most the number of records read.  Every
    position holds the values of one record of the report that has a
    [plan_dtime] not before the start of today and a [req_pow_res]: the
    required reserve is the parsed [req_pow_res], the available reserve is
    the value computed for that record, the time is the formatted hour of
    its date, and neither number is NaN. *)
Theorem reserve_series_rows (V : Type) (parseFloat : V -> number)
    (Date_parse : string -> number)
    (getFullYear getMonth getDate getHours : number -> Z)
    (startOfToday : number) (rawData : list (RawItem.t V)) :
  let series :=
    processPSEReservesData V parseFloat Date_parse getFullYear getMonth
                           getDate getHours startOfToday rawData in
  let n := List.length (ReserveSeries.reserves series) in
  List.length (ReserveSeries.times series) = n
  /\ List.length (ReserveSeries.required series) = n
  /\ (n <= 72)%nat /\ (n <= List.length rawData)%nat
  /\ forall i, (i < n)%nat ->
       exists item s q,
         In item rawData
         /\ RawItem.plan_dtime item = Some s /\ s <> ""%string
         /\ (startOfToday <=? Date_parse s)%float = true
         /\ RawItem.req_pow_res item = Some q
         /\ nth_error (ReserveSeries.times series) i
            = Some (timeStr getFullYear getMonth getDate getHours
                            (Date_parse s))
         /\ nth_error (ReserveSeries.required series) i = Some (parseFloat q)
         /\ nth_error (ReserveSeries.reserves series) i
            = Some (availableOf V parseFloat item q)
         /\ is_nan (parseFloat q) = false
         /\ is_nan (availableOf V parseFloat item q) = false.
Proof.
  cbv zeta.
  destruct (processed_rows V parseFloat Date_parse getFullYear getMonth getDate
                           getHours startOfToday rawData)
    as (processed & -> & H72 & Hraw & Hall).
  cbn [ReserveSeries.times ReserveSeries.reserves ReserveSeries.required].
  rewrite !length_map.
  split; [reflexivity|]. split; [reflexivity|].
  split; [exact H72|]. split; [exact Hraw|].
  intros i Hi.
  destruct (nth_error processed i) as [row|] eqn:E;
    [|apply nth_error_None in E; lia].
  pose proof (proj1 (Forall_forall _ _) Hall row (nth_error_In _ _ E))
    as (item & s & q & Hin & Hs & Hne & Hfrom & Hq & Ht & Hr & Ha & Nr & Na).
  exists item, s, q.
  rewrite !nth_error_map, E. cbn [option_map].
  rewrite Ht, Hr, Ha. rewrite Hr in Nr. rewrite Ha in Na.
  repeat split; assumption.
Qed.

Lemma reserve_series_rows_witness :
  exists item s q,
    In item (hourlyReport 3)
    /\ RawItem.plan_dtime item = Some s
    /\ nth_error (ReserveSeries.reserves (exampleSeries 3)) 1
       = Some (availableOf number (fun v => v) item q).
Proof.
  destruct (proj2 (proj2 (proj2 (proj2
             (reserve_series_rows number (fun v => v) hoursOfString
                (fun _ => 2025) (fun _ => 0) (fun t => 1 + Math_round t / 24)
                (fun t => Math_round t mod 24) 0%float (hourlyReport 3)))))
             1%nat)
    as (item & s & q & Hin & Hs & _ & _ & _ & _ & _ & Ha & _).
  - vm_compute. lia.
  - exists item, s, q. repeat split; assumption.
Defined.

Lemma at_numbers (l : list number) (i : Z) :
  ReservesData.at_ (map Some l) i
  = if (0 <=? i) && (i <? Z.of_nat (List.length l))
    then Some (List.nth (Z.to_nat i) l nan) else None.
Proof.
  unfold ReservesData.at_.
  destruct (Z.ltb_spec i 0) as [Hneg|Hpos].
  - replace (0 <=? i) with false by (symmetry; apply Z.leb_gt; exact Hneg).
    reflexivity.
  - replace (0 <=? i) with true by (symmetry; apply Z.leb_le; exact Hpos).
    cbn [andb]. rewrite nth_error_map.
    destruct (Z.ltb_spec i (Z.of_nat (List.length l))) as [Hlt|Hge].
    + destruct (nth_error l (Z.to_nat i)) as [x|] eqn:E.
      * cbn [option_map]. f_equal. symmetry. now apply nth_error_nth.
      * apply nth_error_None in E. lia.
    + replace (nth_error l (Z.to_nat i)) with (@None number);
        [reflexivity|].
      symmetry. apply nth_error_None. lia.
Qed.

Lemma reservesAt_series (series : ReserveSeries.t) (dayOffset hour : Z) :
  List.length (ReserveSeries.required series)
  = List.length (ReserveSeries.reserves series) ->
  let reserveIndex := dayOffset * 24 + hour in
  reservesAt (Some (asReservesData series)) dayOffset hour
  = if (0 <=? reserveIndex)
       && (reserveIndex <? Z.of_nat (List.length (ReserveSeries.reserves series)))
    then (Some (List.nth (Z.to_nat reserveIndex)
                         (ReserveSeries.reserves series) nan),
          Some (List.nth (Z.to_nat reserveIndex)
                         (ReserveSeries.required series) nan),
          true)
    else (None, None, false).
Proof.
  intros Hlen. cbv zeta. unfold reservesAt, asReservesData.
  cbn [ReservesData.reserves ReservesData.required].
  rewrite !at_numbers, Hlen, length_map.
  set (i := dayOffset * 24 + hour).
  destruct (0 <=? i), (i <? Z.of_nat (List.length (ReserveSeries.reserves series)));
    reflexivity.
Qed.

Lemma nth_not_nan (l : list number) (i : nat) :
  Forall (fun x => is_nan x = false) l -> (i < List.length l)%nat ->
  is_nan (List.nth i l nan) = false.
Proof.
  intros Hall Hi.
  exact (proj1 (Forall_forall _ _) Hall _ (nth_In l nan Hi)).
Qed.

(** X10: when the reserve series of the chart is the one that
    [processPSEReservesData] returned, a cell has reserve data exactly when
    its index dayOffset * 24 + hour is a position of the series; the
    reserves handed to the scorer are then the two numbers at that position,
    neither of them NaN.  As the series has at most 72 positions, every cell
    of the fourth day onwards is scored without reserve data: partial data
    quality, the no-reserve-data line first among the recommendations, and
    the no-data marker on the cell. *)
Theorem fetched_reserves_cover_three_days (Math_exp : number -> number)
    (currentHour : Z) (data : ChartData.t)
    (V : Type) (parseFloat : V -> number) (Date_parse : string -> number)
    (getFullYear getMonth getDate getHours : number -> Z)
    (startOfToday : number) (rawData : list (RawItem.t V))
    (dayOffset hour dayOfWeek : Z) :
  let series :=
    processPSEReservesData V parseFloat Date_parse getFullYear getMonth
                           getDate getHours startOfToday rawData in
  let reservesData := Some (asReservesData series) in
  let reserveIndex := dayOffset * 24 + hour in
  let v := renderCell Math_exp currentHour data reservesData dayOffset hour
                      dayOfWeek in
  let scoreData := CellView.scoreData v in
  (CellView.hasReserveData v = true
   <-> 0 <= reserveIndex
       < Z.of_nat (List.length (ReserveSeries.reserves series)))
  /\ (CellView.hasReserveData v = true ->
      exists available required,
        RiskInput.availableReserve scoreData = Some available
        /\ RiskInput.requiredReserve scoreData = Some required
        /\ nth_error (ReserveSeries.reserves series) (Z.to_nat reserveIndex)
           = Some available
        /\ nth_error (ReserveSeries.required series) (Z.to_nat reserveIndex)
           = Some required
        /\ is_nan available = false /\ is_nan required = false)
  /\ (3 <= dayOffset -> 0 <= hour ->
      CellView.hasReserveData v = false
      /\ CellView.noDataMarker v = true
      /\ RiskScore.dataQuality (CellView.riskData v) = partial
      /\ exists rest,
           RiskScore.recommendations (CellView.riskData v)
           = REC_NO_RESERVE :: rest).
Proof.
  cbv zeta.
  destruct (processed_rows V parseFloat Date_parse getFullYear getMonth getDate
                           getHours startOfToday rawData)
    as (processed & -> & H72 & _ & Hall).
  set (series := {| ReserveSeries.times := map ReserveRow.time processed;
                    ReserveSeries.reserves := map ReserveRow.reserve processed;
                    ReserveSeries.required := map ReserveRow.required processed |}).
  assert (Hlen : List.length (ReserveSeries.required series)
                 = List.length (ReserveSeries.reserves series))
    by (unfold series; cbn; now rewrite !length_map).
  assert (Hn : List.length (ReserveSeries.reserves series)
               = List.length processed)
    by (unfold series; cbn; now rewrite length_map).
  assert (Nres : Forall (fun x => is_nan x = false)
                        (ReserveSeries.reserves series)).
  { unfold series; cbn. apply Forall_map.
    eapply Forall_impl; [|exact Hall].
    intros row (item & s & q & H). apply H. }
  assert (Nreq : Forall (fun x => is_nan x = false)
                        (ReserveSeries.required series)).
  { unfold series; cbn. apply Forall_map.
    eapply Forall_impl; [|exact Hall].
    intros row (item & s & q & H). apply H. }
  pose proof (reservesAt_series series dayOffset hour Hlen) as E.
  cbv zeta in E.
  pose proof (cell_reserveDataPresent Math_exp data (Some (asReservesData series))
                dayOffset hour dayOfWeek) as Hp.
  pose proof (cell_reserve_fields Math_exp data (Some (asReservesData series))
                dayOffset hour dayOfWeek) as (Fa & Fr & _).
  pose proof (recommendations_shape
                (scoreDataOfCell Math_exp data (Some (asReservesData series))
                                 dayOffset hour dayOfWeek))
    as (rest & _ & Hrec).
  cbv zeta in Hrec.
  unfold renderCell.
  cbn [calculateRiskScore RiskScore.hasReserveData] in Hrec.
  rewrite Hp in Hrec.
  set (c := scoreDataOfCell Math_exp data (Some (asReservesData series))
                            dayOffset hour dayOfWeek) in *.
  rewrite E in Fa, Fr, Hp, Hrec |- *.
  rewrite <- Hn in H72.
  set (i := dayOffset * 24 + hour) in *.
  set (n := List.length (ReserveSeries.reserves series)) in *.
  assert (Hi : i = dayOffset * 24 + hour) by reflexivity.
  destruct (Z.leb_spec 0 i) as [H0|H0];
    destruct (Z.ltb_spec i (Z.of_nat n)) as [H1|H1];
    cbn [andb fst snd] in Fa, Fr, Hp, Hrec |- *;
    cbn [CellView.hasReserveData CellView.noDataMarker CellView.riskData
         CellView.scoreData calculateRiskScore RiskScore.dataQuality
         RiskScore.recommendations];
    fold c; rewrite ?Hp.
  - split; [split; [intros _; lia|reflexivity]|].
    split.
    + intros _.
      exists (List.nth (Z.to_nat i) (ReserveSeries.reserves series) nan),
             (List.nth (Z.to_nat i) (ReserveSeries.required series) nan).
      split; [exact Fa|]. split; [exact Fr|].
      split; [apply nth_error_nth'; fold n; lia|].
      split; [apply nth_error_nth'; rewrite Hlen; fold n; lia|].
      split; apply nth_not_nan; try assumption; rewrite ?Hlen; fold n; lia.
    + intros Hd Hh. exfalso. lia.
  - split; [split; [discriminate|lia]|].
    split; [discriminate|].
    intros Hd Hh. cbn [negb andb].
    split; [reflexivity|].
    split; [apply Z.ltb_lt; lia|]. split; [reflexivity|].
    exists rest.
    cbn [calculateRiskScore RiskScore.recommendations] in Hrec.
    rewrite Hp in Hrec. exact Hrec.
  - split; [split; [discriminate|lia]|].
    split; [discriminate|].
    intros Hd Hh. lia.
  - split; [split; [discriminate|lia]|].
    split; [discriminate|].
    intros Hd Hh. lia.
Qed.

Lemma fetched_reserves_cover_three_days_witness :
  CellView.noDataMarker
    (renderCell exp_taylor 9 noonData
       (Some (asReservesData (exampleSeries 100))) 3 0 4) = true.
Proof.
  exact (proj1 (proj2 (proj2 (proj2
    (fetched_reserves_cover_three_days exp_taylor 9 noonData number
       (fun v => v) hoursOfString
       (fun _ => 2025) (fun _ => 0) (fun t => 1 + Math_round t / 24)
       (fun t => Math_round t mod 24) 0%float (hourlyReport 100) 3 0 4))
    ltac:(lia) ltac:(lia)))).
Defined.

(** ** The hourly risk engine *)

Lemma Math_min_nan a b : is_nan (Math_min a b) = is_nan a || is_nan b.
Proof.
  unfold Math_min.
  destruct (is_nan a) eqn:Ha, (is_nan b) eqn:Hb; cbn [orb];
    try (vm_compute; reflexivity).
  destruct (a <? b)%float; [exact Ha|].
  destruct (b <? a)%float; [exact Hb|].
  destruct (get_sign a); assumption.
Qed.

Lemma Math_max_nan a b : is_nan (Math_max a b) = is_nan a || is_nan b.
Proof.
  unfold Math_max.
  destruct (is_nan a) eqn:Ha, (is_nan b) eqn:Hb; cbn [orb];
    try (vm_compute; reflexivity).
  destruct (a <? b)%float; [exact Hb|].
  destruct (b <? a)%float; [exact Ha|].
  destruct (get_sign a); assumption.
Qed.

Lemma Math_min_le a b :
  is_nan a = false -> is_nan b = false ->
  (Math_min a b <=? a)%float = true /\ (Math_min a b <=? b)%float = true.
Proof.
  intros Ha Hb. unfold Math_min. rewrite Ha, Hb. cbn [orb].
  destruct (a <? b)%float eqn:Hab.
  { split; [apply leb_refl; exact Ha|apply ltb_leb; exact Hab]. }
  destruct (b <? a)%float eqn:Hba.
  { split; [apply ltb_leb; exact Hba|apply leb_refl; exact Hb]. }
  pose proof (not_ltb_leb a b Ha Hb Hab).
  pose proof (not_ltb_leb b a Hb Ha Hba).
  destruct (get_sign a); split; try assumption; apply leb_refl; assumption.
Qed.

Lemma Math_max_ge a b :
  is_nan a = false -> is_nan b = false ->
  (a <=? Math_max a b)%float = true /\ (b <=? Math_max a b)%float = true
  /\ (Math_max a b = a \/ Math_max a b = b).
Proof.
  intros Ha Hb. unfold Math_max. rewrite Ha, Hb. cbn [orb].
  destruct (a <? b)%float eqn:Hab.
  { split; [apply ltb_leb; exact Hab|].
    split; [apply leb_refl; exact Hb|now right]. }
  destruct (b <? a)%float eqn:Hba.
  { split; [apply leb_refl; exact Ha|].
    split; [apply ltb_leb; exact Hba|now left]. }
  pose proof (not_ltb_leb a b Ha Hb Hab).
  pose proof (not_ltb_leb b a Hb Ha Hba).
  destruct (get_sign a); (split; [|split]); try assumption;
    try (apply leb_refl; assumption); tauto.
Qed.

(** A number clamped with [Math.max(0, Math.min(...))] is [NaN] or lies
    between 0 and 1. *)
Lemma clamped_unit m :
  (m <=? 1)%float = true ->
  (0 <=? Math_max 0 m)%float = true /\ (Math_max 0 m <=? 1)%float = true.
Proof.
  intros Hm. destruct (leb_not_nan m 1 Hm) as [Nm _].
  assert (N0 : is_nan 0 = false) by reflexivity.
  destruct (Math_max_ge 0 m N0 Nm) as (H0 & _ & [E|E]).
  - split; [exact H0|]. rewrite E. reflexivity.
  - split; [exact H0|]. rewrite E. exact Hm.
Qed.

Lemma add_nan a b : is_nan a || is_nan b = true -> is_nan (a + b) = true.
Proof.
  rewrite !is_nan_spec, add_spec.
  destruct (Prim2SF a) as [| | |? ? ?], (Prim2SF b) as [| | |? ? ?];
    cbn [orb]; intros H; try discriminate; reflexivity.
Qed.

Lemma mul_nan a b : is_nan a || is_nan b = true -> is_nan (a * b) = true.
Proof.
  rewrite !is_nan_spec, mul_spec.
  destruct (Prim2SF a) as [| | |? ? ?], (Prim2SF b) as [| | |? ? ?];
    cbn [orb]; intros H; try discriminate; reflexivity.
Qed.

Lemma RiskCalculator_level_spec (s : number) :
  let l := RiskCalculator.getRiskLevel s in
  (l = critical <-> (0.75 <=? s)%float = true)
  /\ (l = critical \/ l = high <-> (0.5 <=? s)%float = true)
  /\ (l = low <-> (0.25 <=? s)%float = false).
Proof.
  cbv zeta.
  unfold RiskCalculator.getRiskLevel, RiskCalculator.Thresholds.high,
    RiskCalculator.Thresholds.medium, RiskCalculator.Thresholds.low.
  assert (T1 : (0.75 <=? s)%float = true -> (0.5 <=? s)%float = true)
    by (apply leb_trans; reflexivity).
  assert (T2 : (0.5 <=? s)%float = true -> (0.25 <=? s)%float = true)
    by (apply leb_trans; reflexivity).
  destruct (0.75 <=? s)%float eqn:E75.
  { rewrite (T1 eq_refl).
    repeat split; try tauto; intros; try discriminate.
    rewrite (T2 (T1 eq_refl)) in *. discriminate. }
  destruct (0.5 <=? s)%float eqn:E50.
  { rewrite (T2 eq_refl).
    repeat split; try tauto; intros; try discriminate. }
  destruct (0.25 <=? s)%float eqn:E25;
    repeat split; intros; try discriminate; try tauto;
    match goal with H : _ \/ _ |- _ => destruct H; discriminate end.
Qed.

Lemma alertOf_hour risk index a :
  In a (RiskCalculator.alertOf risk index) ->
  RiskCalculator.Alert.hour a = index
  /\ RiskCalculator.Alert.type a
     = match RiskCalculator.Risk.level risk with
       | critical => RiskCalculator.alert_critical
       | _ => RiskCalculator.alert_warning
       end
  /\ (RiskCalculator.Risk.level risk = critical
      \/ RiskCalculator.Risk.level risk = high).
Proof.
  unfold RiskCalculator.alertOf.
  destruct (RiskCalculator.Risk.level risk); cbn [In]; intros H;
    try contradiction; destruct H as [<-|[]]; cbn; tauto.
Qed.

Lemma alertsFrom_In risks : forall index a,
  In a (RiskCalculator.alertsFrom index risks) ->
  exists i risk,
    nth_error risks i = Some risk
    /\ In a (RiskCalculator.alertOf risk (index + Z.of_nat i)).
Proof.
  induction risks as [|r risks IH]; intros index a H; [contradiction|].
  cbn [RiskCalculator.alertsFrom] in H. apply in_app_or in H as [H|H].
  - exists 0%nat, r. split; [reflexivity|].
    replace (index + Z.of_nat 0) with index by lia. exact H.
  - destruct (IH _ _ H) as (i & risk & Hn & Hin).
    exists (S i), risk. split; [exact Hn|].
    replace (index + Z.of_nat (S i)) with (index + 1 + Z.of_nat i) by lia.
    exact Hin.
Qed.

Lemma alertsFrom_incl risks : forall index i risk a,
  nth_error risks i = Some risk ->
  In a (RiskCalculator.alertOf risk (index + Z.of_nat i)) ->
  In a (RiskCalculator.alertsFrom index risks).
Proof.
  induction risks as [|r risks IH]; intros index [|i] risk a Hn Hin;
    try discriminate; cbn [RiskCalculator.alertsFrom]; apply in_or_app.
  - left. inversion Hn; subst.
    replace (index + Z.of_nat 0) with index in Hin by lia. exact Hin.
  - right. apply (IH (index + 1) i risk a Hn).
    replace (index + 1 + Z.of_nat i) with (index + Z.of_nat (S i)) by lia.
    exact Hin.
Qed.

Lemma alertsFrom_sorted risks : forall index,
  StronglySorted
    (fun a b => RiskCalculator.Alert.hour a < RiskCalculator.Alert.hour b)
    (RiskCalculator.alertsFrom index risks).
Proof.
  induction risks as [|r risks IH]; intros index; [constructor|].
  cbn [RiskCalculator.alertsFrom].
  assert (Hlater : forall b, In b (RiskCalculator.alertsFrom (index + 1) risks) ->
                             index < RiskCalculator.Alert.hour b).
  { intros b Hb. apply alertsFrom_In in Hb as (i & risk & _ & Hin).
    apply alertOf_hour in Hin as (-> & _). lia. }
  unfold RiskCalculator.alertOf.
  destruct (RiskCalculator.Risk.level r); cbn [app]; try apply IH;
    (constructor; [apply IH|]); apply Forall_forall; intros b Hb;
    cbn [RiskCalculator.Alert.hour]; exact (Hlater b Hb).
Qed.

Lemma alertsFrom_length risks : forall index,
  List.length (RiskCalculator.alertsFrom index risks)
  = List.length
      (filter (fun r => match RiskCalculator.Risk.level r with
                        | critical | high => true
                        | _ => false
                        end) risks).
Proof.
  induction risks as [|r risks IH]; intros index; [reflexivity|].
  cbn [RiskCalculator.alertsFrom filter]. rewrite length_app, (IH (index + 1)).
  unfold RiskCalculator.alertOf.
  destruct (RiskCalculator.Risk.level r); reflexivity.
Qed.

(** X11: for hourly risks whose level is the level of their score, as
    [calculateHourlyRisk] and [getDefaultRisk] build them,
    [generateRiskAlerts] raises one alert for every hour whose score is at
    least 0.5 and none for the others: a critical alert from 0.75 on, a
    warning below.  The alerts come in the order of the hours, and the hour
    of an alert is the position of its risk. *)
Theorem alerts_follow_scores (risks : list RiskCalculator.Risk.t) :
  Forall (fun r => RiskCalculator.Risk.level r
                   = RiskCalculator.getRiskLevel (RiskCalculator.Risk.score r))
         risks ->
  let alerts := RiskCalculator.generateRiskAlerts risks in
  (forall a, In a alerts ->
     exists i r,
       nth_error risks i = Some r
       /\ RiskCalculator.Alert.hour a = Z.of_nat i
       /\ (0.5 <=? RiskCalculator.Risk.score r)%float = true
       /\ RiskCalculator.Alert.type a
          = if (0.75 <=? RiskCalculator.Risk.score r)%float
            then RiskCalculator.alert_critical
            else RiskCalculator.alert_warning)
  /\ (forall i r,
        nth_error risks i = Some r ->
        (0.5 <=? RiskCalculator.Risk.score r)%float = true ->
        exists a, In a alerts /\ RiskCalculator.Alert.hour a = Z.of_nat i)
  /\ StronglySorted
       (fun a b => RiskCalculator.Alert.hour a < RiskCalculator.Alert.hour b)
       alerts
  /\ List.length alerts
     = List.length
         (filter (fun r => (0.5 <=? RiskCalculator.Risk.score r)%float) risks).
Proof.
  intros Hlevel. cbv zeta. unfold RiskCalculator.generateRiskAlerts.
  pose proof (proj1 (Forall_forall _ _) Hlevel) as Hl.
  split; [|split; [|split]].
  - intros a Ha. apply alertsFrom_In in Ha as (i & r & Hn & Hin).
    exists i, r. split; [exact Hn|].
    apply alertOf_hour in Hin as (Hh & Ht & Hc).
    rewrite (Hl r (nth_error_In _ _ Hn)) in Ht, Hc.
    destruct (RiskCalculator_level_spec (RiskCalculator.Risk.score r))
      as (Hcrit & Hhigh & _).
    split; [lia|]. split; [apply Hhigh; exact Hc|].
    rewrite Ht.
    destruct (0.75 <=? RiskCalculator.Risk.score r)%float.
    + rewrite (proj2 Hcrit eq_refl). reflexivity.
    + destruct (RiskCalculator.getRiskLevel (RiskCalculator.Risk.score r));
        try reflexivity.
      discriminate (proj1 Hcrit eq_refl).
  - intros i r Hn Hs.
    destruct (RiskCalculator_level_spec (RiskCalculator.Risk.score r))
      as (_ & Hhigh & _).
    apply Hhigh in Hs. rewrite <- (Hl r (nth_error_In _ _ Hn)) in Hs.
    assert (Hex : exists a, In a (RiskCalculator.alertOf r (0 + Z.of_nat i)))
      by (unfold RiskCalculator.alertOf; destruct Hs as [-> | ->];
          eexists; left; reflexivity).
    destruct Hex as (a & Hin). exists a.
    split; [exact (alertsFrom_incl risks 0 i r a Hn Hin)|].
    apply alertOf_hour in Hin as (-> & _). lia.
  - apply alertsFrom_sorted.
  - rewrite alertsFrom_length. clear Hlevel.
    induction risks as [|r risks IH]; [reflexivity|].
    cbn [filter].
    assert (Hr : RiskCalculator.Risk.level r
                 = RiskCalculator.getRiskLevel (RiskCalculator.Risk.score r))
      by (apply Hl; now left).
    assert (IH' := IH (fun x Hx => Hl x (or_intror Hx))).
    destruct (RiskCalculator_level_spec (RiskCalculator.Risk.score r))
      as (_ & Hhigh & _).
    rewrite <- Hr in Hhigh.
    destruct (0.5 <=? RiskCalculator.Risk.score r)%float.
    + destruct (proj2 Hhigh eq_refl) as [-> | ->]; cbn [List.length];
        now rewrite IH'.
    + destruct (RiskCalculator.Risk.level r); try exact IH';
        exfalso; assert (false = true) by (apply Hhigh; tauto); discriminate.
Qed.

Lemma alerts_follow_scores_witness :
  List.length
    (RiskCalculator.generateRiskAlerts (risksOfScores [0.2; 0.6; 0.9; 0.4]%float))
  = 2%nat.
Proof.
  rewrite (proj2 (proj2 (proj2
    (alerts_follow_scores (risksOfScores [0.2; 0.6; 0.9; 0.4]%float)
       ltac:(repeat constructor))))).
  vm_compute. reflexivity.
Defined.

Lemma calculateConfidence_range factors :
  (0.5 <=? RiskCalculator.calculateConfidence factors)%float = true
  /\ (RiskCalculator.calculateConfidence factors <=? 1)%float = true.
Proof.
  unfold RiskCalculator.calculateConfidence. cbv zeta.
  destruct (0 <? _)%float, (0 <=? RiskCalculator.Factors.limitations factors)%float,
    (0 <=? RiskCalculator.Factors.pvGeneration factors)%float,
    (0 <=? RiskCalculator.Factors.systemLoad factors)%float;
    vm_compute; split; reflexivity.
Qed.

(** X12: the score that [calculateHourlyRisk] returns for its four factors
    lies between 0 and 1, unless it is NaN; it is NaN as soon as one factor
    is NaN, and its level is then low, so that [generateRiskAlerts] raises
    nothing for that hour.  The level is always the level of the score, also
    for the default risk returned after an exception, and the confidence
    lies between 0.5 and 1. *)
Theorem hourly_risk_clamped (factors : RiskCalculator.Factors.t) :
  let risk := RiskCalculator.riskOfFactors factors in
  let score := RiskCalculator.Risk.score risk in
  (is_nan score = true
   \/ (0 <=? score)%float = true /\ (score <=? 1)%float = true)
  /\ (is_nan (RiskCalculator.Factors.historical factors)
      || is_nan (RiskCalculator.Factors.limitations factors)
      || is_nan (RiskCalculator.Factors.pvGeneration factors)
      || is_nan (RiskCalculator.Factors.systemLoad factors) = true ->
      is_nan score = true)
  /\ (is_nan score = true ->
      RiskCalculator.Risk.level risk = low
      /\ RiskCalculator.alertOf risk 0 = [])
  /\ RiskCalculator.Risk.level risk = RiskCalculator.getRiskLevel score
  /\ RiskCalculator.Risk.level RiskCalculator.getDefaultRisk
     = RiskCalculator.getRiskLevel
         (RiskCalculator.Risk.score RiskCalculator.getDefaultRisk)
  /\ (0.5 <=? RiskCalculator.Risk.confidence risk)%float = true
  /\ (RiskCalculator.Risk.confidence risk <=? 1)%float = true.
Proof.
  cbv zeta. unfold RiskCalculator.riskOfFactors. cbv zeta.
  cbn [RiskCalculator.Risk.score RiskCalculator.Risk.level
       RiskCalculator.Risk.confidence].
  set (sum := (_ + RiskCalculator.Factors.systemLoad factors * _)%float).
  split; [|split; [|split; [|split; [reflexivity|split; [reflexivity|]]]]].
  - destruct (is_nan sum) eqn:Ns.
    + left. rewrite Math_max_nan, Math_min_nan, Ns. reflexivity.
    + right. apply clamped_unit.
      exact (proj1 (Math_min_le 1 sum eq_refl Ns)).
  - intros Hnan. rewrite Math_max_nan, Math_min_nan. cbn [is_nan orb].
    change (is_nan 0) with false. change (is_nan 1) with false. cbn [orb].
    unfold sum.
    destruct (is_nan (RiskCalculator.Factors.systemLoad factors)) eqn:N4.
    { apply add_nan. rewrite (mul_nan _ _); [apply orb_true_r|].
      rewrite N4. reflexivity. }
    apply add_nan. apply orb_true_iff. left.
    destruct (is_nan (RiskCalculator.Factors.pvGeneration factors)) eqn:N3.
    { apply add_nan. rewrite (mul_nan _ _); [apply orb_true_r|].
      rewrite N3. reflexivity. }
    apply add_nan. apply orb_true_iff. left.
    destruct (is_nan (RiskCalculator.Factors.limitations factors)) eqn:N2.
    { apply add_nan. rewrite (mul_nan _ _); [apply orb_true_r|].
      rewrite N2. reflexivity. }
    apply add_nan. apply orb_true_iff. left.
    rewrite !orb_false_r in Hnan.
    apply add_nan. rewrite (mul_nan _ _); [apply orb_true_r|].
    rewrite Hnan. reflexivity.
  - intros Hnan.
    destruct (RiskCalculator_level_spec (Math_max 0 (Math_min 1 sum)))
      as (_ & _ & Hlow).
    assert (L : RiskCalculator.getRiskLevel (Math_max 0 (Math_min 1 sum)) = low).
    { apply Hlow.
      destruct (0.25 <=? Math_max 0 (Math_min 1 sum))%float eqn:E;
        [|reflexivity].
      apply leb_not_nan in E as [_ E]. congruence. }
    split; [exact L|].
    unfold RiskCalculator.alertOf. cbn [RiskCalculator.Risk.level].
    rewrite L. reflexivity.
  - apply calculateConfidence_range.
Qed.

Lemma hourly_risk_clamped_witness :
  RiskCalculator.Risk.level
    (RiskCalculator.riskOfFactors
       {| RiskCalculator.Factors.historical := 1%float;
          RiskCalculator.Factors.limitations := 1%float;
          RiskCalculator.Factors.pvGeneration := nan;
          RiskCalculator.Factors.systemLoad := 1%float |}) = low.
Proof.
  refine (proj1 (proj1 (proj2 (proj2 (hourly_risk_clamped _))) _)).
  refine (proj1 (proj2 (hourly_risk_clamped _)) _).
  reflexivity.
Defined.

(** X13: the system-load factor is 0.5 when the forecast is missing, empty
    or has no entry for the hour; otherwise it is computed from the first
    entry of that hour alone, and it lies between 0 and 1 unless it is NaN,
    which is what an entry without a load gives. *)
Theorem system_load_factor_range (hour : Z)
    (systemLoad : option (list RiskCalculator.LoadEntry.t)) :
  let factor := RiskCalculator.calculateSystemLoadFactor hour systemLoad in
  let entries := match systemLoad with Some l => l | None => [] end in
  (is_nan factor = true
   \/ (0 <=? factor)%float = true /\ (factor <=? 1)%float = true)
  /\ ((forall e, In e entries -> RiskCalculator.LoadEntry.hour e <> hour) ->
      factor = 0.5%float)
  /\ (forall e,
        find (fun load => RiskCalculator.LoadEntry.hour load =? hour) entries
        = Some e ->
        factor = RiskCalculator.calculateSystemLoadFactor hour (Some [e])
        /\ (RiskCalculator.LoadEntry.load e = None -> is_nan factor = true)).
Proof.
  cbv zeta.
  assert (Hone : forall e,
             RiskCalculator.LoadEntry.hour e = hour ->
             let f := RiskCalculator.calculateSystemLoadFactor hour (Some [e]) in
             (is_nan f = true
              \/ (0 <=? f)%float = true /\ (f <=? 1)%float = true)
             /\ (RiskCalculator.LoadEntry.load e = None -> is_nan f = true)).
  { intros e He. cbv zeta. unfold RiskCalculator.calculateSystemLoadFactor.
    cbn [find]. rewrite He, Z.eqb_refl. cbv zeta.
    set (y := (1 - _)%float).
    split.
    - destruct (is_nan y) eqn:Ny.
      + left. rewrite Math_max_nan, Math_min_nan, Ny. reflexivity.
      + right. apply clamped_unit.
        exact (proj2 (Math_min_le y 1 Ny eq_refl)).
    - intros Hload. unfold y. rewrite Hload. vm_compute. reflexivity. }
  assert (Hfind : forall l e,
             find (fun load => RiskCalculator.LoadEntry.hour load =? hour) l
             = Some e ->
             RiskCalculator.calculateSystemLoadFactor hour (Some l)
             = RiskCalculator.calculateSystemLoadFactor hour (Some [e])
             /\ RiskCalculator.LoadEntry.hour e = hour).
  { intros l e Hf.
    assert (He : RiskCalculator.LoadEntry.hour e = hour).
    { apply find_some in Hf as [_ Hf]. apply Z.eqb_eq. exact Hf. }
    split; [|exact He].
    unfold RiskCalculator.calculateSystemLoadFactor.
    destruct l as [|a l]; [discriminate|].
    rewrite Hf. cbn [find]. rewrite He, Z.eqb_refl. reflexivity. }
  assert (Hnone : forall l,
             find (fun load => RiskCalculator.LoadEntry.hour load =? hour) l
             = None ->
             RiskCalculator.calculateSystemLoadFactor hour (Some l)
             = 0.5%float).
  { intros l Hf. unfold RiskCalculator.calculateSystemLoadFactor.
    destruct l as [|a l]; [reflexivity|]. rewrite Hf. reflexivity. }
  destruct systemLoad as [l|].
  - destruct (find (fun load => RiskCalculator.LoadEntry.hour load =? hour) l)
      as [e|] eqn:Hf.
    + destruct (Hfind l e Hf) as [E He]. rewrite E.
      destruct (Hone e He) as [Hr Hn].
      split; [exact Hr|]. split.
      * intros Hall. exfalso.
        apply find_some in Hf as [Hin _]. exact (Hall e Hin He).
      * intros e' He'. inversion He'; subst e'. split; [reflexivity|exact Hn].
    + rewrite (Hnone l Hf).
      split; [right; split; reflexivity|].
      split; [reflexivity|]. intros e He. discriminate.
  - cbn [RiskCalculator.calculateSystemLoadFactor find].
    split; [right; split; reflexivity|].
    split; [reflexivity|]. intros e He. discriminate.
Qed.

Lemma system_load_factor_range_witness :
  RiskCalculator.calculateSystemLoadFactor 7
    (Some [ {| RiskCalculator.LoadEntry.hour := 6;
               RiskCalculator.LoadEntry.load := Some 21000%float |};
            {| RiskCalculator.LoadEntry.hour := 8;
               RiskCalculator.LoadEntry.load := Some 23000%float |} ])
  = 0.5%float.
Proof.
  apply (proj1 (proj2 (system_load_factor_range 7 _))).
  cbn [In]. intros e [<-|[<-|[]]]; cbn; lia.
Defined.

(** *** The cache of computed risks *)

Section RiskCacheFacts.

Variable K : Type.
Variable K_eqb : K -> K -> bool.
Variable D : Type.
Hypothesis K_eqb_spec : forall a b, K_eqb a b = true <-> a = b.

Lemma K_eqb_refl a : K_eqb a a = true.
Proof. now apply K_eqb_spec. Qed.

Lemma K_eqb_neq a b : a <> b -> K_eqb a b = false.
Proof.
  intros H. destruct (K_eqb a b) eqn:E; [|reflexivity].
  apply K_eqb_spec in E. contradiction.
Qed.

Lemma get_absent key (m : RiskCalculator.Cache K D) :
  ~ In key (RiskCalculator.keys K D m) ->
  RiskCalculator.get K K_eqb D key m = None.
Proof.
  unfold RiskCalculator.get, RiskCalculator.keys.
  induction m as [|[k v] m IH]; intros Hn; [reflexivity|].
  cbn [find fst map In] in *.
  rewrite K_eqb_neq by (intros ->; apply Hn; now left).
  apply IH. intros H. apply Hn. now right.
Qed.

Lemma get_app key (m1 m2 : RiskCalculator.Cache K D) :
  RiskCalculator.get K K_eqb D key (m1 ++ m2)
  = match RiskCalculator.get K K_eqb D key m1 with
    | Some x => Some x
    | None => RiskCalculator.get K K_eqb D key m2
    end.
Proof.
  unfold RiskCalculator.get.
  induction m1 as [|[k v] m1 IH]; [reflexivity|].
  cbn [app find fst]. destruct (K_eqb k key); [reflexivity|exact IH].
Qed.

Lemma set_absent key value (m : RiskCalculator.Cache K D) :
  ~ In key (RiskCalculator.keys K D m) ->
  RiskCalculator.set K K_eqb D key value m = m ++ [(key, value)].
Proof.
  unfold RiskCalculator.keys.
  induction m as [|[k v] m IH]; intros Hn; [reflexivity|].
  cbn [RiskCalculator.set fst map In app] in *.
  rewrite K_eqb_neq by (intros ->; apply Hn; now left).
  f_equal. apply IH. intros H. apply Hn. now right.
Qed.

Lemma set_present key value (m : RiskCalculator.Cache K D) :
  In key (RiskCalculator.keys K D m) ->
  let m' := RiskCalculator.set K K_eqb D key value m in
  RiskCalculator.keys K D m' = RiskCalculator.keys K D m
  /\ List.length m' = List.length m
  /\ RiskCalculator.get K K_eqb D key m' = Some value
  /\ forall key', key' <> key ->
       RiskCalculator.get K K_eqb D key' m'
       = RiskCalculator.get K K_eqb D key' m.
Proof.
  cbv zeta. unfold RiskCalculator.keys, RiskCalculator.get.
  induction m as [|[k v] m IH]; intros Hin; [contradiction|].
  cbn [RiskCalculator.set fst map In] in *.
  destruct (K_eqb k key) eqn:E.
  - apply K_eqb_spec in E. subst k. cbn [map fst List.length find].
    rewrite K_eqb_refl.
    repeat split. intros key' Hne.
    rewrite K_eqb_neq by congruence. reflexivity.
  - destruct Hin as [->|Hin]; [rewrite K_eqb_refl in E; discriminate|].
    destruct (IH Hin) as (Hk & Hl & Hg & Ho).
    cbn [map fst List.length find]. rewrite E, Hk, Hl.
    repeat split; [exact Hg|].
    intros key' Hne. destruct (K_eqb k key'); [reflexivity|exact (Ho _ Hne)].
Qed.

Lemma delete_absent key (m : RiskCalculator.Cache K D) :
  ~ In key (RiskCalculator.keys K D m) ->
  RiskCalculator.delete K K_eqb D key m = m.
Proof.
  unfold RiskCalculator.delete, RiskCalculator.keys.
  induction m as [|[k v] m IH]; intros Hn; [reflexivity|].
  cbn [filter fst map In] in *.
  rewrite K_eqb_neq by (intros ->; apply Hn; now left).
  cbn [negb]. f_equal. apply IH. intros H. apply Hn. now right.
Qed.

Lemma In_dec_keys key (m : RiskCalculator.Cache K D) :
  In key (RiskCalculator.keys K D m) \/ ~ In key (RiskCalculator.keys K D m).
Proof.
  induction (RiskCalculator.keys K D m) as [|k l IH]; [now right|].
  destruct (K_eqb k key) eqn:E.
  - left. left. now apply K_eqb_spec.
  - destruct IH as [H|H]; [left; now right|].
    right. intros [->|H']; [rewrite K_eqb_refl in E; discriminate|tauto].
Qed.

(** The cache that [cacheRisk] leaves, case by case. *)
Lemma cacheRisk_cases now key data (m : RiskCalculator.Cache K D) :
  RiskCalculator.within_limit K D m ->
  let m' := RiskCalculator.cacheRisk K K_eqb D now key data m in
  (In key (RiskCalculator.keys K D m) ->
   m' = RiskCalculator.set K K_eqb D key (data, now) m)
  /\ (~ In key (RiskCalculator.keys K D m) -> (List.length m < 100)%nat ->
      m' = m ++ [(key, (data, now))])
  /\ (~ In key (RiskCalculator.keys K D m) -> List.length m = 100%nat ->
      exists oldest rest,
        m = oldest :: rest /\ m' = rest ++ [(key, (data, now))]).
Proof.
  intros [Hnd Hlen]. cbv zeta. unfold RiskCalculator.cacheRisk. cbv zeta.
  split; [|split].
  - intros Hin.
    destruct (set_present key (data, now) m Hin) as (_ & Hl & _).
    cbv zeta in Hl. rewrite Hl.
    replace (100 <? List.length m)%nat with false
      by (symmetry; apply Nat.ltb_ge; exact Hlen).
    reflexivity.
  - intros Hn Hlt. rewrite (set_absent key (data, now) m Hn).
    rewrite length_app. cbn [List.length].
    replace (100 <? List.length m + 1)%nat with false
      by (symmetry; apply Nat.ltb_ge; lia).
    reflexivity.
  - intros Hn H100. rewrite (set_absent key (data, now) m Hn).
    rewrite length_app. cbn [List.length].
    replace (100 <? List.length m + 1)%nat with true
      by (symmetry; apply Nat.ltb_lt; lia).
    destruct m as [|[k0 v0] rest]; [discriminate|].
    exists (k0, v0), rest. split; [reflexivity|].
    cbn [app]. unfold RiskCalculator.delete. cbn [filter fst].
    rewrite K_eqb_refl. cbn [negb]. rewrite filter_app. cbn [filter fst].
    unfold RiskCalculator.keys in Hnd, Hn. cbn [map fst In] in Hnd, Hn.
    rewrite K_eqb_neq by (intros ->; apply Hn; now left). cbn [negb].
    f_equal. apply (delete_absent k0 rest).
    now inversion Hnd.
Qed.

End RiskCacheFacts.

(** X14: on a cache without a repeated key and with at most 100 entries,
    which is what a [Map] filled by [cacheRisk] holds, [cacheRisk] leaves such
    a cache again.  The key just written is read back by [getCachedRisk] for
    the next 15 minutes and is [null] from then on.  The other keys read as
    before, but for the oldest one when a new key comes to a full cache: that
    entry, and no other, is dropped. *)
Theorem cache_round_trip (K : Type) (K_eqb : K -> K -> bool) (D : Type)
    (now later : Z) (key : K) (data : D) (riskCache : RiskCalculator.Cache K D) :
  (forall a b, K_eqb a b = true <-> a = b) ->
  RiskCalculator.within_limit K D riskCache ->
  let riskCache' := RiskCalculator.cacheRisk K K_eqb D now key data riskCache in
  let full_and_new :=
    List.length riskCache = 100%nat
    /\ ~ In key (RiskCalculator.keys K D riskCache) in
  RiskCalculator.within_limit K D riskCache'
  /\ RiskCalculator.getCachedRisk K K_eqb D later key riskCache'
     = (if later - now <? 900000 then Some data else None)
  /\ (forall key', key' <> key ->
      (full_and_new /\ head (RiskCalculator.keys K D riskCache) = Some key' ->
       RiskCalculator.getCachedRisk K K_eqb D later key' riskCache' = None)
      /\ (~ (full_and_new
             /\ head (RiskCalculator.keys K D riskCache) = Some key') ->
          RiskCalculator.getCachedRisk K K_eqb D later key' riskCache'
          = RiskCalculator.getCachedRisk K K_eqb D later key' riskCache)).
Proof.
  intros Hspec Hwf. cbv zeta.
  destruct (cacheRisk_cases K K_eqb D Hspec now key data riskCache Hwf)
    as (Hpresent & Hroom & Hfull).
  cbv zeta in Hpresent, Hroom, Hfull.
  destruct Hwf as [Hnd Hlen].
  unfold RiskCalculator.getCachedRisk.
  destruct (In_dec_keys K K_eqb D Hspec key riskCache) as [Hin|Hn].
  - (* the key is replaced where it stands *)
    rewrite (Hpresent Hin).
    destruct (set_present K K_eqb D Hspec key (data, now) riskCache Hin)
      as (Hk & Hl & Hg & Ho).
    cbv zeta in Hk, Hl, Hg, Ho.
    split; [split; [rewrite Hk; exact Hnd|rewrite Hl; exact Hlen]|].
    split; [rewrite Hg; reflexivity|].
    intros key' Hne. split.
    + intros [[_ Hnew] _]. contradiction.
    + intros _. rewrite (Ho key' Hne). reflexivity.
  - assert (Hlast : forall m : RiskCalculator.Cache K D,
               ~ In key (RiskCalculator.keys K D m) ->
               RiskCalculator.get K K_eqb D key (m ++ [(key, (data, now))])
               = Some (data, now)).
    { intros m Hm. rewrite get_app, (get_absent K K_eqb D Hspec key m Hm).
      unfold RiskCalculator.get. cbn [find fst].
      rewrite (K_eqb_refl K K_eqb Hspec). reflexivity. }
    assert (Hother : forall (m : RiskCalculator.Cache K D) key',
               key' <> key ->
               RiskCalculator.get K K_eqb D key' (m ++ [(key, (data, now))])
               = RiskCalculator.get K K_eqb D key' m).
    { intros m key' Hne. rewrite get_app.
      destruct (RiskCalculator.get K K_eqb D key' m); [reflexivity|].
      unfold RiskCalculator.get. cbn [find fst].
      rewrite (K_eqb_neq K K_eqb Hspec) by congruence. reflexivity. }
    assert (Hkeys : forall m : RiskCalculator.Cache K D,
               RiskCalculator.keys K D (m ++ [(key, (data, now))])
               = RiskCalculator.keys K D m ++ [key]).
    { intros m. unfold RiskCalculator.keys. now rewrite map_app. }
    assert (Hnodup : forall l : list K, NoDup l -> ~ In key l ->
                                        NoDup (l ++ [key])).
    { intros l Hl Hk. apply NoDup_app; [exact Hl|repeat constructor; tauto|].
      intros x Hx [<-|[]]. exact (Hk Hx). }
    destruct (Nat.eq_dec (List.length riskCache) 100) as [H100|Hlt].
    + (* a new key comes to a full cache *)
      destruct (Hfull Hn H100) as ([k0 v0] & rest & -> & ->).
      unfold RiskCalculator.keys in Hnd, Hn. cbn [map fst In] in Hnd, Hn.
      assert (Hnr : ~ In key (RiskCalculator.keys K D rest))
        by (intros H; apply Hn; now right).
      assert (Hk0 : ~ In k0 (RiskCalculator.keys K D rest))
        by now inversion Hnd.
      split.
      { split.
        - rewrite Hkeys. apply Hnodup; [now inversion Hnd|exact Hnr].
        - rewrite length_app. cbn [List.length] in *. lia. }
      split; [rewrite (Hlast rest Hnr); reflexivity|].
      intros key' Hne. rewrite (Hother rest key' Hne).
      unfold RiskCalculator.keys. cbn [map fst head].
      split.
      * intros [_ E]. inversion E; subst key'.
        rewrite (get_absent K K_eqb D Hspec k0 rest Hk0). reflexivity.
      * intros Hnot.
        assert (Hk : k0 <> key').
        { intros ->. apply Hnot. repeat split; try assumption. }
        unfold RiskCalculator.get at 2. cbn [find fst].
        rewrite (K_eqb_neq K K_eqb Hspec k0 key' Hk). reflexivity.
    + rewrite (Hroom Hn ltac:(lia)).
      split.
      { split.
        - rewrite Hkeys. apply Hnodup; assumption.
        - rewrite length_app. cbn [List.length]. lia. }
      split; [rewrite (Hlast riskCache Hn); reflexivity|].
      intros key' Hne. rewrite (Hother riskCache key' Hne).
      split.
      * intros [[H100 _] _]. contradiction.
      * intros _. reflexivity.
Qed.

Lemma filledCache_within_limit :
  RiskCalculator.within_limit string Z (filledCache 3).
Proof.
  split; [|vm_compute; lia].
  change (NoDup ["0"; "1"; "2"]%string).
  repeat (constructor;
          [simpl; intros H;
           repeat (destruct H as [H|H]; [discriminate H|]); exact H|]).
  constructor.
Qed.

Lemma cache_round_trip_witness :
  RiskCalculator.getCachedRisk string String.eqb Z 60000 "1"%string
    (RiskCalculator.cacheRisk string String.eqb Z 0 "1"%string 42 (filledCache 3))
  = Some 42.
Proof.
  exact (proj1 (proj2
           (cache_round_trip string String.eqb Z 0 60000 "1"%string 42
              (filledCache 3) String.eqb_eq filledCache_within_limit))).
Defined.

(** ** The reserve chart *)

Lemma Math_min_choice a b :
  is_nan a = false -> is_nan b = false ->
  Math_min a b = a \/ Math_min a b = b.
Proof.
  intros Ha Hb. unfold Math_min. rewrite Ha, Hb. cbn [orb].
  destruct (a <? b)%float; [now left|].
  destruct (b <? a)%float; [now right|].
  destruct (get_sign a); tauto.
Qed.

Lemma Math_min_leb a b c :
  is_nan a = false -> is_nan b = false ->
  (Math_min a b <=? c)%float = true
  <-> (a <=? c)%float = true \/ (b <=? c)%float = true.
Proof.
  intros Ha Hb. destruct (Math_min_le a b Ha Hb) as [H1 H2]. split.
  - intros H. destruct (Math_min_choice a b Ha Hb) as [E|E];
      rewrite E in H; tauto.
  - intros [H|H];
      [exact (leb_trans _ a _ H1 H)|exact (leb_trans _ b _ H2 H)].
Qed.

Lemma fold_Math_min_leb (l : list number) : forall acc c,
  is_nan acc = false -> Forall (fun m => is_nan m = false) l ->
  is_nan (fold_left Math_min l acc) = false
  /\ ((fold_left Math_min l acc <=? c)%float = true
      <-> (acc <=? c)%float = true
          \/ exists m, In m l /\ (m <=? c)%float = true).
Proof.
  induction l as [|x l IH]; intros acc c Hacc Hall; cbn [fold_left].
  - split; [exact Hacc|]. split; [tauto|].
    intros [H|(m & [] & _)]. exact H.
  - inversion Hall as [|? ? Hx Hl]; subst.
    assert (Hm : is_nan (Math_min acc x) = false)
      by (rewrite Math_min_nan, Hacc, Hx; reflexivity).
    destruct (IH (Math_min acc x) c Hm Hl) as [Hn Hiff].
    split; [exact Hn|]. rewrite Hiff, (Math_min_leb acc x c Hacc Hx).
    split.
    + intros [[H|H]|(m & Hin & H)]; [now left| |].
      * right. exists x. split; [now left|exact H].
      * right. exists m. split; [now right|exact H].
    + intros [H|(m & [<-|Hin] & H)]; [tauto|tauto|].
      right. exists m. tauto.
Qed.

Lemma filter_nonempty {A} (f : A -> bool) (l : list A) :
  (0 < List.length (filter f l))%nat <-> exists x, In x l /\ f x = true.
Proof.
  split.
  - destruct (filter f l) as [|x t] eqn:E; [cbn; lia|]. intros _.
    exists x. apply filter_In. rewrite E. now left.
  - intros (x & Hin & Hf).
    assert (H : In x (filter f l)) by (apply filter_In; tauto).
    destruct (filter f l); [contradiction|cbn; lia].
Qed.

Lemma linesOf_app color a b :
  linesOf color (a ++ b) = linesOf color a ++ linesOf color b.
Proof. apply filter_app. Qed.

Lemma linesOf_map_same {A} color (f : A -> Shape.t) (l : list A) :
  (forall x, String.eqb (Shape.color (f x)) color = true) ->
  linesOf color (map f l) = map f l.
Proof.
  intros H. unfold linesOf.
  induction l as [|x l IH]; [reflexivity|].
  cbn [map filter]. rewrite H, IH. reflexivity.
Qed.

Lemma linesOf_map_other {A} color (f : A -> Shape.t) (l : list A) :
  (forall x, String.eqb (Shape.color (f x)) color = false) ->
  linesOf color (map f l) = [].
Proof.
  intros H. unfold linesOf.
  induction l as [|x l IH]; [reflexivity|].
  cbn [map filter]. rewrite H, IH. reflexivity.
Qed.

(** The margin tests of the alert lines and of the risk analysis agree. *)
Lemma orange_test d :
  negb (d <=? 300)%float && (d <=? 500)%float
  = (d <=? 500)%float && (300 <? d)%float.
Proof.
  destruct (d <=? 500)%float eqn:E5; [|now rewrite andb_false_r].
  destruct (leb_not_nan d 500 E5) as [Nd _].
  destruct (d <=? 300)%float eqn:E3; cbn [negb andb].
  - destruct (300 <? d)%float eqn:L; [|reflexivity].
    apply ltb_not_leb in L. congruence.
  - symmetry. apply (not_leb_ltb d 300 Nd eq_refl E3).
Qed.

Lemma alertLinesFrom_counts (data : ReserveSeries.t) (maxY : number) :
  forall times pre rest,
    ReserveSeries.reserves data = pre ++ rest ->
    List.length times = List.length rest ->
    let lines := alertLinesFrom data maxY (List.length pre) times in
    let margins :=
      marginsFrom (ReserveSeries.required data) (List.length pre) rest in
    List.length (linesOf COLOR_RED lines)
    = List.length (filter (fun m => (m <=? 300)%float) margins)
    /\ List.length (linesOf COLOR_ORANGE lines)
       = List.length
           (filter (fun m => (m <=? 500)%float && (300 <? m)%float) margins)
    /\ linesOf COLOR_DAY lines = []
    /\ List.length lines
       = (List.length (linesOf COLOR_RED lines)
          + List.length (linesOf COLOR_ORANGE lines))%nat.
Proof.
  induction times as [|time times IH]; intros pre [|res rest] Hres Hlen;
    try discriminate; cbv zeta; [repeat split|].
  cbn [alertLinesFrom marginsFrom filter].
  assert (Hres' : ReserveSeries.reserves data = (pre ++ [res]) ++ rest)
    by (rewrite <- app_assoc; exact Hres).
  assert (Hlen' : List.length times = List.length rest)
    by (cbn [List.length] in Hlen; lia).
  pose proof (IH (pre ++ [res]) rest Hres' Hlen') as IH'.
  cbv zeta in IH'. rewrite length_app in IH'. cbn [List.length] in IH'.
  replace (List.length pre + 1)%nat with (S (List.length pre)) in IH' by lia.
  destruct IH' as (IHr & IHo & IHd & IHl).
  rewrite !linesOf_app, !length_app, IHr, IHo, IHd, IHl.
  unfold alertLineOf. cbv zeta.
  rewrite Hres, nth_error_app2, Nat.sub_diag by lia. cbn [nth_error num_of].
  set (d := (res - num_of (nth_error (ReserveSeries.required data)
                                     (List.length pre)))%float).
  pose proof (orange_test d) as Ho.
  destruct (d <=? 300)%float; cbn [negb andb] in Ho.
  - rewrite <- Ho. cbn. repeat split; lia.
  - rewrite <- Ho. destruct (d <=? 500)%float; cbn; repeat split; lia.
Qed.

(** X15: on a series whose arrays of times and reserves have the same
    length, the chart draws one red line for every hour that the risk
    analysis counts as critical (margin of at most 300 MW) and one orange
    line for every hour it counts as a warning (above 300 and at most
    500 MW), after one grey line for every date but the first; there are no
    other lines.  The analysis reports the critical level exactly when a red
    line is drawn and, when no margin is NaN, exactly when it prints the
    minimum margin in red. *)
Theorem alert_lines_match_analysis (data : ReserveSeries.t) :
  List.length (ReserveSeries.times data)
  = List.length (ReserveSeries.reserves data) ->
  let shapes := generateAlertLines data in
  let summary := riskAnalysis (marginsOf data) in
  List.length (linesOf COLOR_RED shapes) = RiskSummary.criticalHours summary
  /\ List.length (linesOf COLOR_ORANGE shapes)
     = RiskSummary.warningHours summary
  /\ List.length (linesOf COLOR_DAY shapes)
     = Nat.pred (List.length
         (distinct (map (substring 0 10) (ReserveSeries.times data))))
  /\ List.length shapes
     = (List.length (linesOf COLOR_DAY shapes)
        + List.length (linesOf COLOR_RED shapes)
        + List.length (linesOf COLOR_ORANGE shapes))%nat
  /\ (RiskSummary.riskLevel summary = critical
      <-> linesOf COLOR_RED shapes <> [])
  /\ (Forall (fun m => is_nan m = false) (marginsOf data) ->
      (RiskSummary.minMarginColor summary = COLOR_RED
       <-> RiskSummary.riskLevel summary = critical)).
Proof.
  intros Hlen. cbv zeta.
  destruct (alertLinesFrom_counts data
              (Math_max_of (ReserveSeries.reserves data))
              (ReserveSeries.times data) [] (ReserveSeries.reserves data)
              eq_refl Hlen) as (Hr & Ho & Hd & Hl).
  cbv zeta in Hr, Ho, Hd, Hl. cbn [List.length] in Hr, Ho, Hd, Hl.
  fold (marginsOf data) in Hr, Ho.
  unfold generateAlertLines. cbv zeta.
  set (days := map _ (tl (distinct _))).
  set (lines := alertLinesFrom data _ 0 _) in *.
  assert (Dd : linesOf COLOR_DAY days = days)
    by (apply linesOf_map_same; reflexivity).
  assert (Dr : linesOf COLOR_RED days = [])
    by (apply linesOf_map_other; reflexivity).
  assert (Do : linesOf COLOR_ORANGE days = [])
    by (apply linesOf_map_other; reflexivity).
  assert (Dl : List.length days
               = Nat.pred (List.length
                   (distinct (map (substring 0 10) (ReserveSeries.times data))))).
  { unfold days. rewrite length_map.
    destruct (distinct _); reflexivity. }
  rewrite !linesOf_app, Dd, Dr, Do, Hd, !length_app.
  cbn [app List.length Nat.add]. rewrite ?Nat.add_0_r.
  unfold riskAnalysis. cbv zeta.
  set (crit := List.length (filter (fun m => (m <=? 300)%float) (marginsOf data)))
    in *.
  set (warn := List.length
                 (filter (fun m => (m <=? 500)%float && (300 <? m)%float)
                         (marginsOf data))) in *.
  assert (Hlevel : (let '(riskLevel, _) :=
                      if (0 <? crit)%nat then (critical, COLOR_RED)
                      else if (3 <? warn)%nat then (medium, COLOR_ORANGE)
                      else (low, COLOR_GREEN) in riskLevel) = critical
                   <-> (0 < crit)%nat).
  { destruct (Nat.ltb_spec 0 crit); [tauto|].
    destruct (3 <? warn)%nat; split; intros; try discriminate; lia. }
  destruct (if (0 <? crit)%nat then (critical, COLOR_RED)
            else if (3 <? warn)%nat then (medium, COLOR_ORANGE)
            else (low, COLOR_GREEN)) as [riskLevel riskColor].
  cbn [RiskSummary.criticalHours RiskSummary.warningHours
       RiskSummary.riskLevel RiskSummary.minMarginColor].
  split; [exact Hr|]. split; [exact Ho|]. split; [exact Dl|].
  split; [rewrite Hl; lia|].
  split.
  - rewrite Hlevel, <- Hr.
    destruct (linesOf COLOR_RED lines); cbn [List.length];
      split; intros; try lia; try discriminate. now contradiction H.
  - intros Hnan. rewrite Hlevel. unfold crit. rewrite filter_nonempty.
    destruct (fold_Math_min_leb (marginsOf data) infinity 300 eq_refl Hnan)
      as [_ Hmin].
    fold (Math_min_of (marginsOf data)) in Hmin.
    change (infinity <=? 300)%float with false in Hmin.
    split.
    + intros Hc.
      destruct (Math_min_of (marginsOf data) <=? 300)%float.
      * destruct (proj1 Hmin eq_refl) as [H|H]; [discriminate|exact H].
      * destruct (Math_min_of (marginsOf data) <=? 500)%float;
          vm_compute in Hc; discriminate.
    + intros Hex. rewrite (proj2 Hmin (or_intror Hex)). reflexivity.
Qed.

Lemma alert_lines_match_analysis_witness :
  List.length (linesOf COLOR_RED (generateAlertLines twoDays)) = 1%nat.
Proof.
  rewrite (proj1 (alert_lines_match_analysis twoDays eq_refl)).
  vm_compute. reflexivity.
Defined.

Lemma peakHoursFrom_spec (hourlyPattern : list number) : forall hour h,
  In h (RiskCalculator.peakHoursFrom hour hourlyPattern)
  <-> exists i risk,
        h = hour + Z.of_nat i
        /\ nth_error hourlyPattern i = Some risk
        /\ (0.7 <=? risk)%float = true.
Proof.
  induction hourlyPattern as [|r l IH]; intros hour h;
    cbn [RiskCalculator.peakHoursFrom].
  - split; [contradiction|]. intros ([|i] & risk & _ & Hn & _); discriminate.
  - cbv zeta. rewrite in_app_iff, (IH (hour + 1) h). split.
    + intros [H|(i & risk & -> & Hn & Hr)].
      * destruct (0.7 <=? r)%float eqn:E; [|contradiction].
        destruct H as [<-|[]]. exists 0%nat, r.
        repeat split; [lia|exact E].
      * exists (S i), risk. repeat split; [lia|exact Hn|exact Hr].
    + intros ([|i] & risk & -> & Hn & Hr).
      * left. cbn [nth_error] in Hn. inversion Hn; subst risk.
        rewrite Hr. left. lia.
      * right. exists i, risk. repeat split; [lia|exact Hn|exact Hr].
Qed.

Lemma peakHoursFrom_sorted (hourlyPattern : list number) : forall hour,
  StronglySorted Z.lt (RiskCalculator.peakHoursFrom hour hourlyPattern).
Proof.
  induction hourlyPattern as [|r l IH]; intros hour; [constructor|].
  cbn [RiskCalculator.peakHoursFrom]. cbv zeta.
  destruct (0.7 <=? r)%float; cbn [app]; [|apply IH].
  constructor; [apply IH|]. apply Forall_forall. intros h Hh.
  apply peakHoursFrom_spec in Hh as (i & _ & -> & _). lia.
Qed.

(** X16: [findPeakRiskHours] lists, in increasing order and once each, the
    positions of the pattern whose value is at least 0.7; a position whose
    value is NaN is never listed. *)
Theorem peak_hours_listed (hourlyPattern : list number) :
  let hours := RiskCalculator.findPeakRiskHours hourlyPattern in
  (forall i risk,
     nth_error hourlyPattern i = Some risk ->
     (In (Z.of_nat i) hours <-> (0.7 <=? risk)%float = true)
     /\ (is_nan risk = true -> ~ In (Z.of_nat i) hours))
  /\ (forall h, In h hours ->
        0 <= h < Z.of_nat (List.length hourlyPattern))
  /\ StronglySorted Z.lt hours.
Proof.
  cbv zeta. unfold RiskCalculator.findPeakRiskHours.
  split; [|split; [|apply peakHoursFrom_sorted]].
  - intros i risk Hn.
    assert (Hiff : In (Z.of_nat i) (RiskCalculator.peakHoursFrom 0 hourlyPattern)
                   <-> (0.7 <=? risk)%float = true).
    { rewrite peakHoursFrom_spec. split.
      - intros (j & r & Hj & Hnj & Hr).
        assert (j = i) by lia. subst j. congruence.
      - intros Hr. exists i, risk.
        split; [lia|split; [exact Hn|exact Hr]]. }
    split; [exact Hiff|].
    intros Hnan Hin. apply Hiff in Hin.
    apply leb_not_nan in Hin as [_ Hin]. congruence.
  - intros h Hh. apply peakHoursFrom_spec in Hh as (i & r & -> & Hn & _).
    assert (i < List.length hourlyPattern)%nat
      by (apply nth_error_Some; congruence).
    lia.
Qed.

Lemma peak_hours_listed_witness :
  In 2 (RiskCalculator.findPeakRiskHours [0.1; 0.69; 1; nan; 0.7]%float).
Proof.
  apply (proj1 (proj1 (peak_hours_listed [0.1; 0.69; 1; nan; 0.7]%float)
                  2%nat 1%float eq_refl)).
  reflexivity.
Defined.
